(** * repair_blend.py: a shallow embedding and its verified properties

    The program repairs Blender container files.  It sniffs the compression
    envelope of a file, transcodes it through gzip or zstandard, and drives an
    external Blender process through four repair strategies.

    The embedding follows [repair_blend.py] function by function.  Python code
    that touches the file system, prints, or may raise is written in a small
    state-and-exception monad [M]; the libraries the program calls (gzip,
    zstandard, subprocess, tempfile, os.path) are the fields of an
    environment record [Env].

    The file system maps paths to files.  A file that exists may refuse to be
    opened, for reading and for writing; a decoder may fail on its input; the
    external process may exit with any status, time out, or fail to start,
    and may change any file.  Creating a file that does not exist, a
    temporary file included, succeeds: its directory can be written.  Writing
    to a file that is open succeeds too, with one exception: the script that
    [run_blender_script_on] writes may find the temporary directory short of
    room.  The strategies and the session are stated for a temporary
    directory that has room for their scripts. *)

From Stdlib Require Import String Ascii List ZArith Bool Lia.
From Stdlib.Strings Require Import Byte.
From stdpp Require Import base option list gmap strings fin_maps.

Local Open Scope string_scope.
Local Open Scope list_scope.

(** ** Bytes and text *)

Abbreviation bytes := (list byte).

#[global] Instance byte_eq_dec : EqDecision byte := Byte.byte_eq_dec.

(** A [bytes] literal such as [b'BLENDER']. *)
Definition b (s : string) : bytes := list_byte_of_string s.

(** The line feed and the double quote, which a string literal cannot hold. *)
Definition nl : string := String (ascii_of_nat 10) "".
Definition dq : string := String (ascii_of_nat 34) "".

(** [needle in hay] on [str]. *)
Fixpoint contains (needle hay : string) : bool :=
  String.prefix needle hay ||
  match hay with
  | EmptyString => false
  | String _ rest => contains needle rest
  end.

(** [s.split(sep)] for a one-character separator. *)
Fixpoint split_on (sep : ascii) (s : string) : list string :=
  match s with
  | EmptyString => [""]
  | String c rest =>
      if Ascii.eqb c sep then "" :: split_on sep rest
      else match split_on sep rest with
           | h :: t => String c h :: t
           | [] => [String c ""]
           end
  end.

(** [s.lstrip('0')]. *)
Fixpoint lstrip0 (s : string) : string :=
  match s with
  | String c rest => if Ascii.eqb c "0" then lstrip0 rest else s
  | EmptyString => EmptyString
  end.

(** [s[i:j]] for [0 <= i <= j]. *)
Definition str_slice (i j : nat) (s : string) : string :=
  string_of_list_ascii (take (j - i) (drop i (list_ascii_of_string s))).

(** Truthiness of a [str | None] value: [None] and [''] are false. *)
Definition truthy (o : option string) : bool :=
  match o with
  | Some s => negb (String.eqb s "")
  | None => false
  end.

(** [x or d] on a [str | None] value. *)
Definition str_or (o : option string) (d : string) : string :=
  match o with
  | Some s => if String.eqb s "" then d else s
  | None => d
  end.

(** [o == 'lit'] on a [str | None] value. *)
Definition is_str (o : option string) (lit : string) : bool :=
  match o with
  | Some s => String.eqb s lit
  | None => false
  end.

(** ** Exceptions *)

Inductive exn : Type :=
| FileNotFoundError (path : string)
| PermissionError (path : string)
| CodecError (msg : string)
| UnicodeDecodeError
| IndexError
| TimeoutExpired
| OSError (msg : string).

(** [str(e)]. *)
Definition exn_str (e : exn) : string :=
  match e with
  | FileNotFoundError p => "[Errno 2] No such file or directory: '" +:+ p +:+ "'"
  | PermissionError p => "[Errno 13] Permission denied: '" +:+ p +:+ "'"
  | CodecError msg => msg
  | UnicodeDecodeError => "'ascii' codec can't decode byte: ordinal not in range(128)"
  | IndexError => "string index out of range"
  | TimeoutExpired => "Command timed out"
  | OSError msg => msg
  end.

Inductive Res (A : Type) : Type :=
| Ok (a : A)
| Raise (e : exn).
Arguments Ok {A} a.
Arguments Raise {A} e.

(** ** The world: a file system and the console *)

(** A path holds a file with its bytes, or a file the process may neither
    read nor write.  A path missing from the map does not exist. *)
Inductive node : Type :=
| Data (content : bytes)
| Denied.

Record State : Type := mkState {
  fs : gmap string node;
  stdout : list string;
}.

Definition set_fs (f : gmap string node -> gmap string node) (st : State) : State :=
  mkState (f (fs st)) (stdout st).

(** What a decoder yields when it is read to the end: the bytes it produced,
    and the error that stopped it, if one did. *)
Record stream : Type := mkStream {
  produced : bytes;
  failure : option string;
}.

Record CompletedProcess : Type := mkCompleted {
  returncode : Z;
  proc_stdout : string;
  proc_stderr : string;
}.

(** The libraries and the machine around the program. *)
Record Env : Type := mkEnv {
  (** [import zstandard] succeeded *)
  HAS_ZSTD : bool;
  (** [gzip.open(p, 'wb', compresslevel=6)] and [gzip.open(p, 'rb')] *)
  gzip_compress : bytes -> bytes;
  gzip_decompress : bytes -> stream;
  (** [zstd.ZstdCompressor(level=6)] and [zstd.ZstdDecompressor()] *)
  zstd_compress : bytes -> bytes;
  zstd_decompress : bytes -> stream;
  (** [subprocess.run(argv, capture_output=True, text=True, timeout=t)]:
      the child sees the file system and may change it *)
  subprocess_run :
    list string -> nat -> gmap string node -> Res CompletedProcess * gmap string node;
  (** the name [tempfile.NamedTemporaryFile(suffix=...)] picks *)
  mkstemp : string -> gmap string node -> string;
  (** [shutil.which] *)
  which : string -> option string;
  (** [os.path.isfile(p) and os.access(p, os.X_OK)] *)
  is_executable : string -> bool;
  (** [os.path.expanduser], [os.path.abspath], [os.path.splitext] *)
  expanduser : string -> string;
  abspath : string -> string;
  splitext : string -> string * string;
}.

(** ** The monad of effectful Python code *)

Definition M (A : Type) : Type := State -> Res A * State.

Definition ret {A} (a : A) : M A := fun st => (Ok a, st).

Definition raise {A} (e : exn) : M A := fun st => (Raise e, st).

Definition bind {A B} (m : M A) (k : A -> M B) : M B :=
  fun st =>
    match m st with
    | (Ok a, st') => k a st'
    | (Raise e, st') => (Raise e, st')
    end.

(** [try: m  except Exception as e: h e] *)
Definition try_except {A} (m : M A) (h : exn -> M A) : M A :=
  fun st =>
    match m st with
    | (Ok a, st') => (Ok a, st')
    | (Raise e, st') => h e st'
    end.

(** [try: m  finally: c]; an exception of [c] replaces the outcome of [m]. *)
Definition try_finally {A} (m : M A) (c : M unit) : M A :=
  fun st =>
    match m st with
    | (r, st') =>
        match c st' with
        | (Ok _, st'') => (r, st'')
        | (Raise e, st'') => (Raise e, st'')
        end
    end.

Declare Scope py_scope.
Delimit Scope py_scope with py.
Notation "x <- m ;; k" := (bind m (fun x => k))
  (at level 100, m at next level, right associativity) : py_scope.
Notation "m ;; k" := (bind m (fun _ => k))
  (at level 100, right associativity) : py_scope.
Local Open Scope py_scope.

(** [print(s)] *)
Definition print (s : string) : M unit :=
  fun st => (Ok tt, mkState (fs st) (stdout st ++ [s])).

(** [os.path.exists(p)] *)
Definition path_exists (p : string) : M bool :=
  fun st => (Ok (bool_decide (is_Some (fs st !! p))), st).

(** [open(p, 'rb')]: the file must exist and be readable. *)
Definition open_rb (p : string) : M unit :=
  fun st =>
    match fs st !! p with
    | Some (Data _) => (Ok tt, st)
    | Some Denied => (Raise (PermissionError p), st)
    | None => (Raise (FileNotFoundError p), st)
    end.

(** Reading a handle that [open_rb] returned: the bytes the file holds now. *)
Definition read_handle (p : string) : M bytes :=
  fun st =>
    match fs st !! p with
    | Some (Data d) => (Ok d, st)
    | _ => (Ok [], st)
    end.

(** [open(p, 'wb')]: creates the file or truncates it. *)
Definition open_wb (p : string) : M unit :=
  fun st =>
    match fs st !! p with
    | Some Denied => (Raise (PermissionError p), st)
    | _ => (Ok tt, set_fs <[p := Data []]> st)
    end.

(** Writing a handle that [open_wb] or [NamedTemporaryFile] returned. *)
Definition write_handle (p : string) (d : bytes) : M unit :=
  fun st => (Ok tt, set_fs <[p := Data d]> st).

(** [os.unlink(p)] *)
Definition unlink (p : string) : M unit :=
  fun st =>
    match fs st !! p with
    | Some _ => (Ok tt, set_fs (delete p) st)
    | None => (Raise (FileNotFoundError p), st)
    end.

(** [shutil.copy2(src, dst)] *)
Definition copy2 (src dst : string) : M unit :=
  open_rb src ;;
  open_wb dst ;;
  d <- read_handle src ;;
  write_handle dst d.

(** Reading a decoder to the end into the handle [p]: what it produced is
    written, then its error, if any, is raised. *)
Definition copy_stream (s : stream) (p : string) : M unit :=
  write_handle p (produced s) ;;
  match failure s with
  | Some msg => raise (CodecError msg)
  | None => ret tt
  end.

(** [reader.read(n)] on a decoder: the first [n] bytes when it gets that far. *)
Definition stream_read (s : stream) (n : nat) : M bytes :=
  if bool_decide (n <= length (produced s)) then ret (take n (produced s))
  else match failure s with
       | Some msg => raise (CodecError msg)
       | None => ret (produced s)
       end.

(** [bs.decode('ascii')] *)
Definition decode_ascii (bs : bytes) : M string :=
  if forallb (fun x => Nat.ltb (Byte.to_nat x) 128) bs
  then ret (string_of_list_byte bs)
  else raise UnicodeDecodeError.

(** [s[0]] *)
Definition str_head (s : string) : M string :=
  match s with
  | String c _ => ret (String c "")
  | EmptyString => raise IndexError
  end.

(** ** FormatSniffer: the functions that read magic bytes *)

(** Lines 61-77. *)
Definition get_compression_type (filepath : string) : M (option string) :=
  try_except
    (open_rb filepath ;;
     data <- read_handle filepath ;;
     let magic := take 4 data in
     if bool_decide (take 2 magic = [x1f; x8b]) then ret (Some "gzip")
     else if bool_decide (magic = [x28; xb5; x2f; xfd]) then ret (Some "zstd")
     else if bool_decide (take 4 magic = b "BLEN") then ret None
     else ret (Some "unknown"))
    (fun _ => ret (Some "unknown")).

(** Lines 80-96. *)
Definition is_blend_file (filepath : string) : M bool :=
  try_except
    (open_rb filepath ;;
     data <- read_handle filepath ;;
     let header := take 12 data in
     if bool_decide (take 7 header = b "BLENDER") then ret true
     else if bool_decide (take 2 header = [x1f; x8b]) then ret true
     else if bool_decide (take 4 header = [x28; xb5; x2f; xfd]) then ret true
     else ret false)
    (fun _ => ret false).

(** Lines 99-102. *)
Definition is_compressed (filepath : string) : M bool :=
  compression <- get_compression_type filepath ;;
  ret (is_str compression "gzip" || is_str compression "zstd").

Section Program.

Variable E : Env.

(** Lines 34-58. *)
Definition find_blender : option string :=
  let possible_paths :=
    [ "blender";
      "/usr/bin/blender";
      "/usr/local/bin/blender";
      "/snap/bin/blender";
      "/opt/blender/blender";
      expanduser E "~/blender/blender";
      "/var/lib/flatpak/exports/bin/org.blender.Blender" ] in
  let result := which E "blender" in
  if truthy result then result
  else List.find (is_executable E) possible_paths.

(** Lines 125-130 and the final [return None] of [get_blend_version]: what is
    made of the twelve header bytes once they are read. *)
Definition version_of_header (header : bytes) : M (option string) :=
  if bool_decide (take 7 header = b "BLENDER") then
    version <- decode_ascii (take 3 (drop 9 header)) ;;
    major <- str_head version ;;
    let minor := str_or (Some (lstrip0 (str_slice 1 3 version))) "0" in
    ret (Some (major +:+ "." +:+ minor))
  else ret None.

(** Lines 105-133. *)
Definition get_blend_version (filepath : string) : M (option string) :=
  try_except
    (compression <- get_compression_type filepath ;;
     if is_str compression "zstd" then
       if negb (HAS_ZSTD E) then ret None
       else
         open_rb filepath ;;
         data <- read_handle filepath ;;
         header <- stream_read (zstd_decompress E data) 12 ;;
         version_of_header header
     else if is_str compression "gzip" then
       open_rb filepath ;;
       data <- read_handle filepath ;;
       header <- stream_read (gzip_decompress E data) 12 ;;
       version_of_header header
     else
       open_rb filepath ;;
       data <- read_handle filepath ;;
       version_of_header (take 12 data))
    (fun _ => ret None).

(** ** CodecTranscoder *)

(** [f"{x}"] for a [str | None] value. *)
Definition py_str (o : option string) : string :=
  match o with
  | Some s => s
  | None => "None"
  end.

(** Lines 136-160. *)
Definition decompress_blend (input_path output_path : string)
    (compression : option string) : M bool :=
  compression <- match compression with
                 | None => get_compression_type input_path
                 | Some _ => ret compression
                 end ;;
  try_except
    (if is_str compression "zstd" then
       if negb (HAS_ZSTD E) then
         print "  [!] zstandard module not installed. Install with: pip install zstandard" ;;
         ret false
       else
         open_rb input_path ;;
         open_wb output_path ;;
         data <- read_handle input_path ;;
         copy_stream (zstd_decompress E data) output_path ;;
         ret true
     else if is_str compression "gzip" then
       open_rb input_path ;;
       open_wb output_path ;;
       data <- read_handle input_path ;;
       copy_stream (gzip_decompress E data) output_path ;;
       ret true
     else
       print ("  [!] Unknown compression type: " +:+ py_str compression) ;;
       ret false)
    (fun e => print ("  [!] Decompression failed: " +:+ exn_str e) ;; ret false).

(** Lines 177-183 of [compress_blend]: the gzip branch, reached with the
    requested codec or after the fallback from zstd. *)
Definition compress_gzip_or_fail (input_path output_path : string)
    (compression : option string) : M bool :=
  if is_str compression "gzip" then
    open_rb input_path ;;
    open_wb output_path ;;
    data <- read_handle input_path ;;
    write_handle output_path (gzip_compress E data) ;;
    ret true
  else ret false.

(** Lines 163-186. *)
Definition compress_blend (input_path output_path : string)
    (compression : option string) : M bool :=
  try_except
    (if is_str compression "zstd" then
       if negb (HAS_ZSTD E) then
         print "  [!] zstandard module not installed, falling back to gzip" ;;
         compress_gzip_or_fail input_path output_path (Some "gzip")
       else
         open_rb input_path ;;
         open_wb output_path ;;
         data <- read_handle input_path ;;
         write_handle output_path (zstd_compress E data) ;;
         ret true
     else compress_gzip_or_fail input_path output_path compression)
    (fun e => print ("  [!] Compression failed: " +:+ exn_str e) ;; ret false).

(** ** Temporary files and the external process *)

(** [with tempfile.NamedTemporaryFile(suffix=..., delete=False) as f]: a new
    empty file under the name the environment picks.  The temporary
    directory is taken to be writable: creating the file does not raise. *)
Definition NamedTemporaryFile (suffix : string) : M string :=
  fun st =>
    let name := mkstemp E suffix (fs st) in
    (Ok name, set_fs <[name := Data []]> st).

(** [subprocess.run(argv, capture_output=True, text=True, timeout=t)] *)
Definition run_process (argv : list string) (timeout : nat) : M CompletedProcess :=
  fun st =>
    match subprocess_run E argv timeout (fs st) with
    | (r, fs') => (r, mkState fs' (stdout st))
    end.

(** [if os.path.exists(p): os.unlink(p)] *)
Definition unlink_if_exists (p : string) : M unit :=
  ex <- path_exists p ;;
  if ex then unlink p else ret tt.

(** ** Strategy 1 *)

(** Lines 189-228. *)
Definition repair_compression (input_path output_path : string) : M bool :=
  print (nl +:+ "[Strategy 1] Attempting decompression/recompression repair...") ;;
  compression <- get_compression_type input_path ;;
  print ("  Detected compression: " +:+ str_or compression "none") ;;
  if is_str compression "zstd" && negb (HAS_ZSTD E) then
    print "  [!] zstandard module required for this file." ;;
    print "  [!] Install with: pip install zstandard" ;;
    ret false
  else if negb (truthy compression) || is_str compression "unknown" then
    print "  File is not compressed or unknown format, trying to compress it..." ;;
    compress_blend input_path output_path (Some "zstd")
  else
    tmp_path <- NamedTemporaryFile ".blend" ;;
    try_finally
      (print "  Decompressing file..." ;;
       ok <- decompress_blend input_path tmp_path compression ;;
       if negb ok then ret false
       else
         valid <- is_blend_file tmp_path ;;
         if negb valid then
           print "  [!] Decompressed data is not valid" ;;
           ret false
         else
           print "  Recompressing file..." ;;
           ok <- compress_blend tmp_path output_path compression ;;
           if ok then
             print "  [✓] Compression repair successful" ;;
             ret true
           else ret false)
      (unlink_if_exists tmp_path).

(** ** ProcessRunner *)

(** [f.write(script)] and the end of the [with] block that flushes it
    (lines 233-235), on a temporary directory that takes [room] more bytes;
    [None] is a directory that takes whatever is written.  A script that
    does not fit raises [OSError], and what did fit stays in the file. *)
Definition write_script (room : option nat) (p : string) (d : bytes) : M unit :=
  match room with
  | Some n =>
      if bool_decide (length d <= n) then write_handle p d
      else (write_handle p (take n d) ;;
            raise (OSError "[Errno 28] No space left on device"))
  | None => write_handle p d
  end.

(** Lines 231-252.  The temporary file is created and written before the
    [try] statement is entered: an error of the write reaches the caller,
    and the [finally] clause is not there to remove the file. *)
Definition run_blender_script_on (room : option nat) (blender_path script : string)
    (timeout : nat) : M (bool * string) :=
  script_path <- NamedTemporaryFile ".py" ;;
  write_script room script_path (b script) ;;
  try_finally
    (try_except
       (result <- run_process
                    [blender_path; "--background"; "--factory-startup"; "--python"; script_path]
                    timeout ;;
        let output := proc_stdout result +:+ proc_stderr result in
        ret (Z.eqb (returncode result) 0, output))
       (fun e =>
          match e with
          | TimeoutExpired => ret (false, "Blender process timed out")
          | _ => ret (false, exn_str e)
          end))
    (unlink_if_exists script_path).

(** [run_blender_script] where the temporary directory has room for the
    script: the function as the strategies and the session call it. *)
Definition run_blender_script : string -> string -> nat -> M (bool * string) :=
  run_blender_script_on None.

(** ** Strategies 2 to 4 and the scripts they hand to Blender *)

(** The text of a script: its lines joined by line feeds. *)
Definition lines (ls : list string) : string := String.concat nl ls.

(** [for x in xs: body x] *)
Fixpoint for_each {A} (xs : list A) (body : A -> M unit) : M unit :=
  match xs with
  | [] => ret tt
  | x :: rest => body x ;; for_each rest body
  end.

(** Lines 261-281. *)
Definition open_script (input_path output_path : string) : string :=
  lines
    [ "";
      "import bpy";
      "import sys";
      "";
      "input_file = r" +:+ dq +:+ input_path +:+ dq;
      "output_file = r" +:+ dq +:+ output_path +:+ dq;
      "";
      "try:";
      "    # Try to open with recovery enabled";
      "    bpy.ops.wm.open_mainfile(filepath=input_file, load_ui=False)";
      "    ";
      "    # Purge orphan data";
      "    bpy.ops.outliner.orphans_purge(do_local_ids=True, do_linked_ids=True, do_recursive=True)";
      "    ";
      "    # Save repaired file";
      "    bpy.ops.wm.save_as_mainfile(filepath=output_file, compress=True)";
      "    print(" +:+ dq +:+ "REPAIR_SUCCESS" +:+ dq +:+ ")";
      "except Exception as e:";
      "    print(f" +:+ dq +:+ "REPAIR_FAILED: {e}" +:+ dq +:+ ")";
      "    sys.exit(1)";
      "" ].

(** Lines 300-372. *)
Definition append_script (input_path output_path : string) : string :=
  lines
    [ "";
      "import bpy";
      "import sys";
      "import os";
      "";
      "input_file = r" +:+ dq +:+ input_path +:+ dq;
      "output_file = r" +:+ dq +:+ output_path +:+ dq;
      "";
      "# Start fresh";
      "bpy.ops.wm.read_factory_settings(use_empty=True)";
      "";
      "# Data types to attempt recovery";
      "data_types = [";
      "    'collections',";
      "    'objects', ";
      "    'meshes',";
      "    'materials',";
      "    'textures',";
      "    'images',";
      "    'armatures',";
      "    'cameras',";
      "    'lights',";
      "    'curves',";
      "    'fonts',";
      "    'grease_pencils',";
      "    'node_groups',";
      "    'particles',";
      "    'scenes',";
      "    'worlds',";
      "    'actions',";
      "]";
      "";
      "recovered_count = 0";
      "failed_types = []";
      "";
      "for data_type in data_types:";
      "    try:";
      "        # Get directory path for this data type";
      "        directory = os.path.join(input_file, data_type.title().replace('_', ''))";
      "        ";
      "        # Try to link/append all items of this type";
      "        with bpy.data.libraries.load(input_file, link=False) as (data_from, data_to):";
      "            source_data = getattr(data_from, data_type, [])";
      "            if source_data:";
      "                setattr(data_to, data_type, list(source_data))";
      "                recovered_count += len(source_data)";
      "                print(f" +:+ dq +:+ "Recovered {len(source_data)} {data_type}" +:+ dq +:+ ")";
      "    except Exception as e:";
      "        failed_types.append(data_type)";
      "";
      "if recovered_count > 0:";
      "    # Create a scene if none exists";
      "    if not bpy.data.scenes:";
      "        bpy.ops.scene.new(type='NEW')";
      "    ";
      "    # Link recovered objects to scene";
      "    scene = bpy.context.scene";
      "    for obj in bpy.data.objects:";
      "        if obj.name not in scene.collection.objects:";
      "            try:";
      "                scene.collection.objects.link(obj)";
      "            except:";
      "                pass";
      "    ";
      "    # Save recovered data";
      "    bpy.ops.wm.save_as_mainfile(filepath=output_file, compress=True)";
      "    print(f" +:+ dq +:+ "RECOVERY_SUCCESS: Recovered {recovered_count} data blocks" +:+ dq +:+ ")";
      "    if failed_types:";
      "        print(f" +:+ dq +:+ "Failed types: {', '.join(failed_types)}" +:+ dq +:+ ")";
      "else:";
      "    print(" +:+ dq +:+ "RECOVERY_FAILED: No data could be recovered" +:+ dq +:+ ")";
      "    sys.exit(1)";
      "" ].

(** Lines 395-461. *)
Definition selective_script (input_path output_path : string) : string :=
  lines
    [ "";
      "import bpy";
      "import sys";
      "";
      "input_file = r" +:+ dq +:+ input_path +:+ dq;
      "output_file = r" +:+ dq +:+ output_path +:+ dq;
      "";
      "# Start fresh";
      "bpy.ops.wm.read_factory_settings(use_empty=True)";
      "";
      "recovered = []";
      "failed = []";
      "";
      "# Get list of data blocks in the file";
      "try:";
      "    with bpy.data.libraries.load(input_file, link=False) as (data_from, data_to):";
      "        # Collect all available data";
      "        all_data = {}";
      "        for attr in dir(data_from):";
      "            if not attr.startswith('_'):";
      "                try:";
      "                    items = list(getattr(data_from, attr, []))";
      "                    if items:";
      "                        all_data[attr] = items";
      "                except:";
      "                    pass";
      "        ";
      "        # Copy all data";
      "        for attr, items in all_data.items():";
      "            try:";
      "                setattr(data_to, attr, items)";
      "                recovered.extend([(attr, name) for name in items])";
      "            except Exception as e:";
      "                failed.append((attr, str(e)))";
      "";
      "except Exception as e:";
      "    print(f" +:+ dq +:+ "RECOVERY_FAILED: Could not read file: {e}" +:+ dq +:+ ")";
      "    sys.exit(1)";
      "";
      "if recovered:";
      "    # Setup scene";
      "    if not bpy.data.scenes:";
      "        bpy.ops.scene.new(type='NEW')";
      "    ";
      "    scene = bpy.context.scene";
      "    ";
      "    # Link objects to scene";
      "    for obj in bpy.data.objects:";
      "        try:";
      "            if obj.name not in scene.collection.objects:";
      "                scene.collection.objects.link(obj)";
      "        except:";
      "            pass";
      "    ";
      "    # Purge broken references";
      "    try:";
      "        bpy.ops.outliner.orphans_purge(do_local_ids=True, do_linked_ids=True, do_recursive=True)";
      "    except:";
      "        pass";
      "    ";
      "    # Save";
      "    bpy.ops.wm.save_as_mainfile(filepath=output_file, compress=True)";
      "    print(f" +:+ dq +:+ "RECOVERY_SUCCESS: Recovered {len(recovered)} items" +:+ dq +:+ ")";
      "else:";
      "    print(" +:+ dq +:+ "RECOVERY_FAILED: No data recovered" +:+ dq +:+ ")";
      "    sys.exit(1)";
      "" ].

(** Lines 529-533. *)
Definition verify_script (output_path : string) : string :=
  lines
    [ "";
      "import bpy";
      "bpy.ops.wm.open_mainfile(filepath=r" +:+ dq +:+ output_path +:+ dq +:+ ", load_ui=False)";
      "print(" +:+ dq +:+ "VERIFY_SUCCESS" +:+ dq +:+ ")";
      "" ].

(** Lines 255-290. *)
Definition repair_with_blender_open (blender_path input_path output_path : string) : M bool :=
  print (nl +:+ "[Strategy 2] Attempting Blender background mode repair...") ;;
  r <- run_blender_script blender_path (open_script input_path output_path) 180 ;;
  let success := r.1 in
  let output := r.2 in
  if success && contains "REPAIR_SUCCESS" output then
    print "  [✓] Background mode repair successful" ;;
    ret true
  else
    print "  [!] Background mode repair failed" ;;
    ret false.

(** Lines 293-385. *)
Definition repair_with_append (blender_path input_path output_path : string) : M bool :=
  print (nl +:+ "[Strategy 3] Attempting append-based recovery...") ;;
  r <- run_blender_script blender_path (append_script input_path output_path) 300 ;;
  let success := r.1 in
  let output := r.2 in
  if success && contains "RECOVERY_SUCCESS" output then
    print "  [✓] Append-based recovery successful" ;;
    for_each (split_on (ascii_of_nat 10) output)
      (fun line =>
         if contains "Recovered" line || contains "RECOVERY_SUCCESS" line
         then print ("  " +:+ line)
         else ret tt) ;;
    ret true
  else
    print "  [!] Append-based recovery failed" ;;
    ret false.

(** Lines 388-473. *)
Definition repair_selective_recovery (blender_path input_path output_path : string) : M bool :=
  print (nl +:+ "[Strategy 4] Attempting selective data block recovery...") ;;
  r <- run_blender_script blender_path (selective_script input_path output_path) 300 ;;
  let success := r.1 in
  let output := r.2 in
  if success && contains "RECOVERY_SUCCESS" output then
    print "  [✓] Selective recovery successful" ;;
    for_each (split_on (ascii_of_nat 10) output)
      (fun line =>
         if contains "RECOVERY_SUCCESS" line
         then print ("  " +:+ line)
         else ret tt) ;;
    ret true
  else
    print "  [!] Selective recovery failed" ;;
    ret false.

(** ** The strategy controller and the repair session *)

(** [f"{'='*60}"] *)
Definition rule : string :=
  "============================================================".

(** Lines 544-570 of [repair_blend_file]: what runs once strategy 1 has
    failed or its output has failed verification. *)
Definition remaining_strategies (blender_path : option string) (input_path output_path : string)
    : M bool :=
  let blender := py_str blender_path in
  if negb (truthy blender_path) then
    print (nl +:+ "[!] Cannot continue without Blender. Please install Blender and try again.") ;;
    ret false
  else
  ok2 <- repair_with_blender_open blender input_path output_path ;;
  if ok2 then
    print (nl +:+ "[✓] Repair successful! Saved to: " +:+ output_path) ;;
    ret true
  else
  ok3 <- repair_with_append blender input_path output_path ;;
  if ok3 then
    print (nl +:+ "[✓] Repair successful! Saved to: " +:+ output_path) ;;
    ret true
  else
  ok4 <- repair_selective_recovery blender input_path output_path ;;
  if ok4 then
    print (nl +:+ "[✓] Repair successful! Saved to: " +:+ output_path) ;;
    ret true
  else
    print (nl +:+ "[✗] All repair strategies failed.") ;;
    print (nl +:+ "Additional suggestions:") ;;
    print "  1. Check if Blender auto-save files exist in ~/.config/blender/*/autosave/" ;;
    print "  2. Look for .blend1, .blend2 backup files in the same directory" ;;
    print "  3. Try opening the file in an older Blender version" ;;
    print "  4. If the file is from cloud storage, check for version history" ;;
    ret false.

(** Lines 524-570 of [repair_blend_file]: strategy 1, its verification, and
    the strategies after it. *)
Definition strategy_controller (blender_path : option string) (input_path output_path : string)
    : M bool :=
  let blender := py_str blender_path in
  ok1 <- repair_compression input_path output_path ;;
  if ok1 then
    if truthy blender_path then
      print (nl +:+ "Verifying repaired file...") ;;
      r <- run_blender_script blender (verify_script output_path) 60 ;;
      let output := r.2 in
      if contains "VERIFY_SUCCESS" output then
        print (nl +:+ "[✓] Repair successful! Saved to: " +:+ output_path) ;;
        ret true
      else
        print "  Verification failed, trying other strategies..." ;;
        remaining_strategies blender_path input_path output_path
    else
      print (nl +:+ "[✓] Compression repair complete (unverified): " +:+ output_path) ;;
      ret true
  else remaining_strategies blender_path input_path output_path.

(** Lines 490-494 of [repair_blend_file]: the output path, already absolute
    input path given. *)
Definition resolve_output (input_path : string) (output_path : option string) : string :=
  let output_path :=
    match output_path with
    | None => let (base, ext) := splitext E input_path in base +:+ "_repaired" +:+ ext
    | Some o => o
    end in
  abspath E output_path.

(** Lines 516-517 of [repair_blend_file]. *)
Definition resolve_blender (blender_path : option string) : option string :=
  match blender_path with
  | None => find_blender
  | Some _ => blender_path
  end.

(** Lines 476-570. *)
Definition repair_blend_file (input_path : string) (output_path blender_path : option string)
    : M bool :=
  let input_path := abspath E input_path in
  ex <- path_exists input_path ;;
  if negb ex then
    print ("Error: File not found: " +:+ input_path) ;;
    ret false
  else
  valid <- is_blend_file input_path ;;
  if negb valid then
    print ("Error: Not a valid .blend file: " +:+ input_path) ;;
    ret false
  else
  let output_path := resolve_output input_path output_path in
  let backup_path := input_path +:+ ".backup" in
  backed_up <- path_exists backup_path ;;
  (if negb backed_up then
     print ("Creating backup: " +:+ backup_path) ;;
     copy2 input_path backup_path
   else ret tt) ;;
  print (nl +:+ rule) ;;
  print "Blender File Repair Tool" ;;
  print rule ;;
  print ("Input:  " +:+ input_path) ;;
  print ("Output: " +:+ output_path) ;;
  version <- get_blend_version input_path ;;
  (if truthy version then print ("Blender version: " +:+ py_str version) else ret tt) ;;
  compression <- get_compression_type input_path ;;
  print ("Compression: " +:+ str_or compression "none") ;;
  let blender_path := resolve_blender blender_path in
  (if truthy blender_path then print ("Blender executable: " +:+ py_str blender_path)
   else print "Warning: Blender not found. Some repair strategies unavailable.") ;;
  strategy_controller blender_path input_path output_path.

(** *** The same controller with a history of its attempts *)

(** The four strategies, in the order the docstring of the module lists them. *)
Inductive Strategy : Type :=
| Strategy1
| Strategy2
| Strategy3
| Strategy4.

(** [remaining_strategies], [strategy_controller] and [repair_blend_file]
    again, each returning beside its result the strategies it ran with their
    verdicts.  The verdict of strategy 1 is the one the controller acts on:
    [repair_compression] returned [True] and, when there is an executable,
    the verification run printed its sentinel.  Nothing reads the history;
    [repair_session_erasure] shows that dropping it gives [repair_blend_file]
    back. *)
Definition remaining_strategies_traced (blender_path : option string) (input_path output_path : string)
    : M (bool * list (Strategy * bool)) :=
  let blender := py_str blender_path in
  if negb (truthy blender_path) then
    print (nl +:+ "[!] Cannot continue without Blender. Please install Blender and try again.") ;;
    ret (false, [(Strategy1, false)])
  else
  ok2 <- repair_with_blender_open blender input_path output_path ;;
  if ok2 then
    print (nl +:+ "[✓] Repair successful! Saved to: " +:+ output_path) ;;
    ret (true, [(Strategy1, false); (Strategy2, true)])
  else
  ok3 <- repair_with_append blender input_path output_path ;;
  if ok3 then
    print (nl +:+ "[✓] Repair successful! Saved to: " +:+ output_path) ;;
    ret (true, [(Strategy1, false); (Strategy2, false); (Strategy3, true)])
  else
  ok4 <- repair_selective_recovery blender input_path output_path ;;
  if ok4 then
    print (nl +:+ "[✓] Repair successful! Saved to: " +:+ output_path) ;;
    ret (true, [(Strategy1, false); (Strategy2, false); (Strategy3, false); (Strategy4, true)])
  else
    print (nl +:+ "[✗] All repair strategies failed.") ;;
    print (nl +:+ "Additional suggestions:") ;;
    print "  1. Check if Blender auto-save files exist in ~/.config/blender/*/autosave/" ;;
    print "  2. Look for .blend1, .blend2 backup files in the same directory" ;;
    print "  3. Try opening the file in an older Blender version" ;;
    print "  4. If the file is from cloud storage, check for version history" ;;
    ret (false, [(Strategy1, false); (Strategy2, false); (Strategy3, false); (Strategy4, false)]).

Definition strategy_controller_traced (blender_path : option string) (input_path output_path : string)
    : M (bool * list (Strategy * bool)) :=
  let blender := py_str blender_path in
  ok1 <- repair_compression input_path output_path ;;
  if ok1 then
    if truthy blender_path then
      print (nl +:+ "Verifying repaired file...") ;;
      r <- run_blender_script blender (verify_script output_path) 60 ;;
      let output := r.2 in
      if contains "VERIFY_SUCCESS" output then
        print (nl +:+ "[✓] Repair successful! Saved to: " +:+ output_path) ;;
        ret (true, [(Strategy1, true)])
      else
        print "  Verification failed, trying other strategies..." ;;
        remaining_strategies_traced blender_path input_path output_path
    else
      print (nl +:+ "[✓] Compression repair complete (unverified): " +:+ output_path) ;;
      ret (true, [(Strategy1, true)])
  else remaining_strategies_traced blender_path input_path output_path.

Definition repair_session (input_path : string) (output_path blender_path : option string)
    : M (bool * list (Strategy * bool)) :=
  let input_path := abspath E input_path in
  ex <- path_exists input_path ;;
  if negb ex then
    print ("Error: File not found: " +:+ input_path) ;;
    ret (false, [])
  else
  valid <- is_blend_file input_path ;;
  if negb valid then
    print ("Error: Not a valid .blend file: " +:+ input_path) ;;
    ret (false, [])
  else
  let output_path := resolve_output input_path output_path in
  let backup_path := input_path +:+ ".backup" in
  backed_up <- path_exists backup_path ;;
  (if negb backed_up then
     print ("Creating backup: " +:+ backup_path) ;;
     copy2 input_path backup_path
   else ret tt) ;;
  print (nl +:+ rule) ;;
  print "Blender File Repair Tool" ;;
  print rule ;;
  print ("Input:  " +:+ input_path) ;;
  print ("Output: " +:+ output_path) ;;
  version <- get_blend_version input_path ;;
  (if truthy version then print ("Blender version: " +:+ py_str version) else ret tt) ;;
  compression <- get_compression_type input_path ;;
  print ("Compression: " +:+ str_or compression "none") ;;
  let blender_path := resolve_blender blender_path in
  (if truthy blender_path then print ("Blender executable: " +:+ py_str blender_path)
   else print "Warning: Blender not found. Some repair strategies unavailable.") ;;
  strategy_controller_traced blender_path input_path output_path.

(** The strategy a console line announces, if it is the first line a
    strategy prints. *)
Definition banner_of (line : string) : option Strategy :=
  if String.eqb line (nl +:+ "[Strategy 1] Attempting decompression/recompression repair...")
  then Some Strategy1
  else if String.eqb line (nl +:+ "[Strategy 2] Attempting Blender background mode repair...")
  then Some Strategy2
  else if String.eqb line (nl +:+ "[Strategy 3] Attempting append-based recovery...")
  then Some Strategy3
  else if String.eqb line (nl +:+ "[Strategy 4] Attempting selective data block recovery...")
  then Some Strategy4
  else None.

Definition banners (console : list string) : list Strategy := omap banner_of console.

(** What [subprocess.run] returns when [run_blender_script] launches Blender
    from the file system [f]: the script is in its temporary file by then. *)
Definition launched (blender_path script : string) (timeout : nat) (f : gmap string node)
    : Res CompletedProcess * gmap string node :=
  let script_path := mkstemp E ".py" f in
  subprocess_run E
    [blender_path; "--background"; "--factory-startup"; "--python"; script_path]
    timeout (<[script_path := Data (b script)]> f).

(** What [run_blender_script] makes of the outcome of [subprocess.run]. *)
Definition outcome_of (r : Res CompletedProcess) : bool * string :=
  match r with
  | Ok result => (Z.eqb (returncode result) 0, proc_stdout result +:+ proc_stderr result)
  | Raise TimeoutExpired => (false, "Blender process timed out")
  | Raise e => (false, exn_str e)
  end.

End Program.

(** ** A concrete world

    Stand-ins for the libraries, small enough to run the embedding on: codecs
    that frame their input with the real magic bytes, temporary names that
    are longer than every name in use, and the POSIX [splitext]. *)
Module Sample.

Definition gzip_magic : bytes := [x1f; x8b].
Definition zstd_magic : bytes := [x28; xb5; x2f; xfd].

Definition frame (magic d : bytes) : bytes := magic ++ d.

Definition unframe (magic : bytes) (err : string) (d : bytes) : stream :=
  if bool_decide (take (length magic) d = magic)
  then mkStream (drop (length magic) d) None
  else mkStream [] (Some err).

(** A name under [/tmp] that is longer than every path of [f]. *)
Definition tmp_name (suffix : string) (f : gmap string node) : string :=
  let longest := max_list (String.length <$> (map_to_list f).*1) in
  "/tmp/tmp" +:+ string_of_list_ascii (replicate (S longest) "x"%char) +:+ suffix.

(** [p.rfind(c)], with [-1] for no occurrence. *)
Fixpoint rfind_from (c : ascii) (cs : list ascii) (i acc : Z) : Z :=
  match cs with
  | [] => acc
  | x :: rest => rfind_from c rest (i + 1) (if Ascii.eqb x c then i else acc)
  end.

Definition rfind (c : ascii) (cs : list ascii) : Z := rfind_from c cs 0 (-1).

(** [posixpath.splitext] *)
Definition posix_splitext (p : string) : string * string :=
  let cs := list_ascii_of_string p in
  let sepIndex := rfind "/" cs in
  let dotIndex := rfind "." cs in
  let name_start := Z.to_nat (sepIndex + 1) in
  if (sepIndex <? dotIndex)%Z &&
     existsb (fun x => negb (Ascii.eqb x "."))
       (take (Z.to_nat dotIndex - name_start) (drop name_start cs))
  then (string_of_list_ascii (take (Z.to_nat dotIndex) cs),
        string_of_list_ascii (drop (Z.to_nat dotIndex) cs))
  else (p, "").

(** [os.path.abspath] for a process whose working directory is [/work]. *)
Definition posix_abspath (p : string) : string :=
  if String.prefix "/" p then p else "/work/" +:+ p.

(** A machine with or without zstandard, with a given Blender process and a
    given answer of [shutil.which]. *)
Definition env (has_zstd : bool)
    (blender : list string -> nat -> gmap string node -> Res CompletedProcess * gmap string node)
    (installed : option string) : Env :=
  {| HAS_ZSTD := has_zstd;
     gzip_compress := frame gzip_magic;
     gzip_decompress := unframe gzip_magic "Not a gzipped file";
     zstd_compress := frame zstd_magic;
     zstd_decompress := unframe zstd_magic "zstd decompress error: Unknown frame descriptor";
     subprocess_run := blender;
     mkstemp := tmp_name;
     which := fun _ => installed;
     is_executable := fun _ => false;
     expanduser := fun p => p;
     abspath := posix_abspath;
     splitext := posix_splitext |}.

(** A Blender that cannot open anything: every script exits with status 1
    and leaves the file system as it found it. *)
Definition broken_blender (argv : list string) (timeout : nat) (f : gmap string node)
    : Res CompletedProcess * gmap string node :=
  (Ok (mkCompleted 1 "" "Error: File format is not supported"), f).

(** A Blender that never answers in time. *)
Definition hanging_blender (argv : list string) (timeout : nat) (f : gmap string node)
    : Res CompletedProcess * gmap string node :=
  (Raise TimeoutExpired, f).

(** A Blender that runs every script to its success sentinel and saves
    nothing. *)
Definition cheerful_blender (argv : list string) (timeout : nat) (f : gmap string node)
    : Res CompletedProcess * gmap string node :=
  (Ok (mkCompleted 0 "REPAIR_SUCCESS RECOVERY_SUCCESS VERIFY_SUCCESS" ""), f).

(** Uncompressed containers of Blender 4.0 and of a version [005], a
    two-byte file, and a gzip file that holds the first container. *)
Definition blend400 : bytes := b "BLENDER-v400REND".
Definition blend005 : bytes := b "BLENDER_V005REND".
Definition two_bytes : bytes := [x1f; x8b].
Definition gzipped400 : bytes := frame gzip_magic blend400.

Definition disk : gmap string node :=
  {[ "/work/scene.blend" := Data blend400;
     "/work/old.blend" := Data blend005;
     "/work/packed.blend" := Data gzipped400;
     "/work/short.blend" := Data two_bytes;
     "/work/locked.blend" := Denied ]}.

Definition boot : State := mkState disk [].

End Sample.

(** * Vocabulary of the properties *)

(** [m] run from [st] returns normally, with a result and a state in [Q]. *)
Definition returns {A} (m : M A) (st : State) (Q : A -> State -> Prop) : Prop :=
  exists a st', m st = (Ok a, st') /\ Q a st'.

(** A run of an instrumented function with its history dropped. *)
Definition erase {A B} (r : Res (A * B) * State) : Res A * State :=
  (match r.1 with Ok x => Ok x.1 | Raise e => Raise e end, r.2).

(** [is_blend_file] on the bytes of a file. *)
Definition valid_container (data : bytes) : bool :=
  let header := take 12 data in
  bool_decide (take 7 header = b "BLENDER")
  || bool_decide (take 2 header = [x1f; x8b])
  || bool_decide (take 4 header = [x28; xb5; x2f; xfd]).

(** The file system once the backup is in place. *)
Definition with_backup (input_path : string) (data : bytes) (f : gmap string node)
    : gmap string node :=
  let backup_path := input_path +:+ ".backup" in
  match f !! backup_path with
  | Some _ => f
  | None => <[backup_path := Data data]> f
  end.

(** The line that reports a session stopped for want of an executable, and
    the line that reports strategy 1 accepted without verification. *)
Definition early_exhaustion : string :=
  nl +:+ "[!] Cannot continue without Blender. Please install Blender and try again.".

Definition unverified (output_path : string) : string :=
  nl +:+ "[✓] Compression repair complete (unverified): " +:+ output_path.

(** The histories the controller can return. *)
Definition controller_outcomes : list (bool * list (Strategy * bool)) :=
  [ (true, [(Strategy1, true)]);
    (false, [(Strategy1, false)]);
    (true, [(Strategy1, false); (Strategy2, true)]);
    (true, [(Strategy1, false); (Strategy2, false); (Strategy3, true)]);
    (true, [(Strategy1, false); (Strategy2, false); (Strategy3, false); (Strategy4, true)]);
    (false, [(Strategy1, false); (Strategy2, false); (Strategy3, false); (Strategy4, false)]) ].

(** The strategies in the order the controller knows them. *)
Definition all_strategies : list Strategy := [Strategy1; Strategy2; Strategy3; Strategy4].

(** A history [tr] with session result [ok] is one of a controller that
    tries the strategies in their fixed order, moves on after a failure
    only, and stops with success at the first success. *)
Definition first_success_wins (ok : bool) (tr : list (Strategy * bool)) : Prop :=
  (exists k, tr.*1 = take k all_strategies) /\
  (forall i s v, tr !! i = Some (s, v) -> (v = true <-> S i = length tr /\ ok = true)) /\
  (ok = true -> tr <> []).

(** ["<major>.<minor>"] as the spec words it: the first digit, a dot, and
    the other two digits without their leading zero, or ["0"] when nothing
    is left. *)
Definition format_version (d0 d1 d2 : ascii) : string :=
  let major := String d0 "" in
  let minor :=
    if Ascii.eqb d1 "0"
    then (if Ascii.eqb d2 "0" then "0" else String d2 "")
    else String d1 (String d2 "") in
  major +:+ "." +:+ minor.

Definition is_digit (x : byte) : Prop := 48 <= Byte.to_nat x <= 57.

(** The process exited with status zero and [sentinel] is in its standard
    output followed by its standard error. *)
Definition clean_exit_with (sentinel : string) (r : Res CompletedProcess) : Prop :=
  exists result,
    r = Ok result /\
    returncode result = 0%Z /\
    contains sentinel (proc_stdout result +:+ proc_stderr result) = true.

Section Vocabulary.

Variable E : Env.

(** Temporary names are new: [NamedTemporaryFile] never hands out a path
    that exists. *)
Definition names_fresh : Prop :=
  forall (suffix : string) (f : gmap string node), f !! mkstemp E suffix f = None.

(** The external process leaves the path [q] as it found it. *)
Definition process_keeps (q : string) : Prop :=
  forall (argv : list string) (timeout : nat) (f : gmap string node),
    (subprocess_run E argv timeout f).2 !! q = f !! q.

(** From [st] to [st'] the console gained the banners [bs], and every
    existing path outside [W] that the external process keeps still
    holds what it held. *)
Definition effect (bs : list Strategy) (W : list string) (st st' : State) : Prop :=
  banners (stdout st') = banners (stdout st) ++ bs /\
  forall q, names_fresh -> process_keeps q -> is_Some (fs st !! q) -> q ∉ W ->
            fs st' !! q = fs st !! q.

(** [m], which may raise, prints no banner and writes no path outside [W]. *)
Definition quiet {A} (W : list string) (m : M A) : Prop :=
  forall st, exists r st', m st = (r, st') /\ effect [] W st st'.

(** [m] run from [st] returns normally; on the way the console gains some
    banners [bs] and no path outside [W] is written; [Q] holds of the result,
    the banners and the final state. *)
Definition acts {A} (W : list string) (m : M A) (st : State)
    (Q : A -> list Strategy -> State -> Prop) : Prop :=
  exists a st' bs, m st = (Ok a, st') /\ effect bs W st st' /\ Q a bs st'.

(** The verdict of a strategy that runs [script] and looks for [sentinel]. *)
Definition verdict (blender_path script sentinel : string) (timeout : nat)
    (f : gmap string node) : bool :=
  let r := outcome_of (launched E blender_path script timeout f).1 in
  r.1 && contains sentinel r.2.

(** The codec [compress_blend] ends up using for a request. *)
Definition encoder (compression : string) : bytes -> bytes :=
  if String.eqb compression "zstd" && HAS_ZSTD E then zstd_compress E else gzip_compress E.

End Vocabulary.

(** ** A history against the calls that were made *)

(** From [st] to [st'] the program only printed, and no banner: the files
    are as they were. *)
Definition console_only (st st' : State) : Prop :=
  fs st' = fs st /\ exists new, stdout st' = stdout st ++ new /\ banners new = [].

(** Strategy 1 as the controller judges it (lines 524-542), run from [sa]
    to [sb] with verdict [v]: [repair_compression] was called and returned
    [ok1]; when [ok1] is true and there is an executable, the verification
    script was run, and [v] tells whether its output holds the sentinel;
    otherwise nothing more was run and [v] is [ok1]. *)
Definition strategy1_ran (E : Env) (blender_path : option string)
    (input_path output_path : string) (sa : State) (v : bool) (sb : State) : Prop :=
  exists ok1 s1,
    repair_compression E input_path output_path sa = (Ok ok1, s1) /\
    if ok1 && truthy blender_path then
      exists s1' r,
        console_only s1 s1' /\
        run_blender_script E (py_str blender_path) (verify_script output_path) 60 s1'
          = (Ok r, sb) /\
        v = contains "VERIFY_SUCCESS" r.2
    else sb = s1 /\ v = ok1.

(** Strategy [s] was called in the state [sa] and returned the verdict [v],
    leaving the state [sb]. *)
Definition ran (E : Env) (blender_path : option string) (input_path output_path : string)
    (s : Strategy) (sa : State) (v : bool) (sb : State) : Prop :=
  match s with
  | Strategy1 => strategy1_ran E blender_path input_path output_path sa v sb
  | Strategy2 =>
      repair_with_blender_open E (py_str blender_path) input_path output_path sa = (Ok v, sb)
  | Strategy3 =>
      repair_with_append E (py_str blender_path) input_path output_path sa = (Ok v, sb)
  | Strategy4 =>
      repair_selective_recovery E (py_str blender_path) input_path output_path sa = (Ok v, sb)
  end.

(** The history [tr] is that of the calls made from [st] to [st']: its
    entries are the strategies that were called, one after the other, each
    with the verdict its call returned; before, between and after the calls
    the program only printed. *)
Fixpoint attempts (E : Env) (blender_path : option string) (input_path output_path : string)
    (tr : list (Strategy * bool)) (st st' : State) : Prop :=
  match tr with
  | [] => console_only st st'
  | (s, v) :: rest =>
      exists sa sb,
        console_only st sa /\
        ran E blender_path input_path output_path s sa v sb /\
        attempts E blender_path input_path output_path rest sb st'
  end.

(** The file system [f'] comes from [f] by runs of [run_blender_script]
    and nothing else: each run hands its script to the external process and
    removes the script file afterwards. *)
Inductive by_processes (E : Env) : gmap string node -> gmap string node -> Prop :=
| by_processes_refl (f : gmap string node) : by_processes E f f
| by_processes_step (f f' : gmap string node) (blender_path script : string) (timeout : nat) :
    by_processes E
      (delete (mkstemp E ".py" f) (launched E blender_path script timeout f).2) f' ->
    by_processes E f f'.

(** Every line [m] prints is in [P], at least when its outcome is in [Q]. *)
Definition says {A} (P : string -> Prop) (Q : Res A -> Prop) (m : M A) : Prop :=
  forall st, exists r st' new,
    m st = (r, st') /\ stdout st' = stdout st ++ new /\ (Q r -> Forall P new).

(** A Blender that fails every script after it has written a few bytes to
    the output path of the sample session. *)
Definition scribbling_blender (argv : list string) (timeout : nat) (f : gmap string node)
    : Res CompletedProcess * gmap string node :=
  (Ok (mkCompleted 1 "" "Error: out of memory"),
   <["/work/scene_repaired.blend" := Data (b "BLENDER-v4")]> f).

(** ** Vocabulary of the further properties *)

(** From [st] to [st'] no path outside [W] has changed. *)
Definition untouched_outside (W : list string) (st st' : State) : Prop :=
  forall q, q ∉ W -> fs st' !! q = fs st !! q.

(** [m], whether it returns or raises, changes no path outside [W]. *)
Definition tidy {A} (W : list string) (m : M A) : Prop :=
  forall st, exists r st', m st = (r, st') /\ untouched_outside W st st'.

(** [m] returns normally from every state and changes no path outside [W]. *)
Definition settles {A} (W : list string) (m : M A) : Prop :=
  forall st, exists a st', m st = (Ok a, st') /\ untouched_outside W st st'.

(** The bytes [packed] show the magic of [codec], the machine has that
    codec, and its decoder turns them into [payload] without an error. *)
Definition decodes_to (E : Env) (packed : bytes) (codec : string) (payload : bytes) : Prop :=
  codec = "gzip" /\ take 2 packed = [x1f; x8b] /\
    gzip_decompress E packed = mkStream payload None \/
  codec = "zstd" /\ take 4 packed = [x28; xb5; x2f; xfd] /\ HAS_ZSTD E = true /\
    zstd_decompress E packed = mkStream payload None.

(** [s] holds no line feed. *)
Definition one_line (s : string) : bool :=
  forallb (fun c => negb (Ascii.eqb c (ascii_of_nat 10))) (list_ascii_of_string s).

(** What strategies 3 and 4 echo of the output of Blender: the lines that
    [keep] selects, in their order, each behind two spaces. *)
Definition echoed (keep : string -> bool) (output : string) : list string :=
  (fun line => "  " +:+ line) <$> List.filter keep (split_on (ascii_of_nat 10) output).


(** Lines 37-46 of [find_blender]: the usual locations, in the order in
    which they are tried. *)
Definition possible_paths (E : Env) : list string :=
  [ "blender";
    "/usr/bin/blender";
    "/usr/local/bin/blender";
    "/snap/bin/blender";
    "/opt/blender/blender";
    expanduser E "~/blender/blender";
    "/var/lib/flatpak/exports/bin/org.blender.Blender" ].

(** * Properties *)

(** ** How the primitives run *)

Lemma bind_run {A B} (m : M A) (k : A -> M B) (st : State) :
  bind m k st =
    match m st with
    | (Ok a, st') => k a st'
    | (Raise e, st') => (Raise e, st')
    end.
Proof. reflexivity. Qed.

Lemma bind_ok {A B} (m : M A) (k : A -> M B) (st st' : State) (a : A) :
  m st = (Ok a, st') -> bind m k st = k a st'.
Proof. intros H. unfold bind. now rewrite H. Qed.

Lemma print_run (s : string) (st : State) :
  print s st = (Ok tt, mkState (fs st) (stdout st ++ [s])).
Proof. reflexivity. Qed.

Lemma path_exists_run (p : string) (st : State) :
  path_exists p st = (Ok (bool_decide (is_Some (fs st !! p))), st).
Proof. reflexivity. Qed.

Lemma unlink_if_exists_run (p : string) (st : State) :
  unlink_if_exists p st = (Ok tt, set_fs (delete p) st).
Proof.
  unfold unlink_if_exists, bind, path_exists, unlink, ret.
  case_bool_decide as Hex.
  - destruct Hex as [x Hx]. now rewrite Hx.
  - apply eq_None_not_Some in Hex. unfold set_fs.
    rewrite delete_id by done. now destruct st.
Qed.

(** ** The sniffers only read *)

Lemma get_compression_type_run (filepath : string) (st : State) :
  get_compression_type filepath st =
    (Ok match fs st !! filepath with
        | Some (Data data) =>
            let magic := take 4 data in
            if bool_decide (take 2 magic = [x1f; x8b]) then Some "gzip"
            else if bool_decide (magic = [x28; xb5; x2f; xfd]) then Some "zstd"
            else if bool_decide (take 4 magic = b "BLEN") then None
            else Some "unknown"
        | _ => Some "unknown"
        end, st).
Proof.
  unfold get_compression_type, try_except, bind, open_rb, read_handle, ret.
  destruct (fs st !! filepath) as [[data|]|] eqn:Hf; simpl; try reflexivity.
  rewrite Hf. repeat case_bool_decide; reflexivity.
Qed.

Lemma is_blend_file_run (filepath : string) (st : State) :
  is_blend_file filepath st =
    (Ok match fs st !! filepath with
        | Some (Data data) =>
            let header := take 12 data in
            bool_decide (take 7 header = b "BLENDER")
            || bool_decide (take 2 header = [x1f; x8b])
            || bool_decide (take 4 header = [x28; xb5; x2f; xfd])
        | _ => false
        end, st).
Proof.
  unfold is_blend_file, try_except, bind, open_rb, read_handle, ret.
  destruct (fs st !! filepath) as [[data|]|] eqn:Hf; simpl; try reflexivity.
  rewrite Hf. repeat case_bool_decide; reflexivity.
Qed.

Lemma is_blend_file_true_data (filepath : string) (st : State) :
  (is_blend_file filepath st).1 = Ok true ->
  exists data, fs st !! filepath = Some (Data data).
Proof.
  rewrite is_blend_file_run. simpl.
  destruct (fs st !! filepath) as [[data|]|]; [eauto|discriminate..].
Qed.

Section ProgramFacts.

Variable E : Env.

Lemma version_of_header_pure (header : bytes) (st : State) :
  exists r, version_of_header header st = (r, st).
Proof.
  unfold version_of_header, bind, decode_ascii, str_head, ret, raise.
  case_bool_decide; [|eauto].
  destruct (forallb _ _); [|eauto].
  destruct (string_of_list_byte _); eauto.
Qed.

Lemma stream_read_pure (s : stream) (n : nat) (st : State) :
  exists r, stream_read s n st = (r, st).
Proof.
  unfold stream_read, ret, raise. case_bool_decide; [eauto|].
  destruct (failure s); eauto.
Qed.

Lemma get_blend_version_pure (filepath : string) (st : State) :
  exists version, get_blend_version E filepath st = (Ok version, st).
Proof.
  unfold get_blend_version, try_except. rewrite bind_run, get_compression_type_run.
  assert (Hread : forall (dec : bytes -> stream),
    exists r, (open_rb filepath ;; data <- read_handle filepath ;;
               header <- stream_read (dec data) 12 ;; version_of_header header) st = (r, st)).
  { intros dec. unfold bind, open_rb, read_handle.
    destruct (fs st !! filepath) as [[data|]|] eqn:Hf; eauto.
    rewrite Hf.
    destruct (stream_read_pure (dec data) 12 st) as [[h|e] ->]; eauto.
    apply version_of_header_pure. }
  assert (Hplain :
    exists r, (open_rb filepath ;; data <- read_handle filepath ;;
               version_of_header (take 12 data)) st = (r, st)).
  { unfold bind, open_rb, read_handle.
    destruct (fs st !! filepath) as [[data|]|] eqn:Hf; eauto.
    rewrite Hf. apply version_of_header_pure. }
  destruct (is_str _ "zstd").
  - destruct (HAS_ZSTD E); simpl; [|eauto].
    destruct (Hread (zstd_decompress E)) as [[v|e] ->]; eauto.
  - destruct (is_str _ "gzip").
    + destruct (Hread (gzip_decompress E)) as [[v|e] ->]; eauto.
    + destruct Hplain as [[v|e] ->]; eauto.
Qed.

End ProgramFacts.

(** ** Banners on the console *)

Lemma banners_app (l1 l2 : list string) : banners (l1 ++ l2) = banners l1 ++ banners l2.
Proof. apply omap_app. Qed.

Lemma banner_of_prefix (line : string) (s : Strategy) :
  banner_of line = Some s -> String.prefix (nl +:+ "[S") line = true.
Proof.
  unfold banner_of.
  repeat match goal with
         | |- context [String.eqb line ?lit] =>
             destruct (String.eqb_spec line lit) as [->|_]; [reflexivity|]
         end.
  discriminate.
Qed.

Lemma not_banner (line : string) :
  String.prefix (nl +:+ "[S") line = false -> banner_of line = None.
Proof.
  intros H. destruct (banner_of line) eqn:Hb; [|reflexivity].
  apply banner_of_prefix in Hb. congruence.
Qed.

Lemma banners_indented (l : list string) : banners (map (String.append "  ") l) = [].
Proof. induction l as [|x l IH]; [reflexivity|]. apply IH. Qed.

(** ** Total runs and their footprint *)


Lemma returns_ret {A} (a : A) (st : State) (Q : A -> State -> Prop) :
  Q a st -> returns (ret a) st Q.
Proof. intros H. now exists a, st. Qed.

Lemma returns_bind {A B} (m : M A) (k : A -> M B) (st : State) (Q : B -> State -> Prop) :
  returns m st (fun a st1 => returns (k a) st1 Q) -> returns (bind m k) st Q.
Proof.
  intros (a & st1 & Hm & (r & st2 & Hk & HQ)).
  exists r, st2. split; [|exact HQ]. now rewrite (bind_ok _ _ _ _ _ Hm).
Qed.

Lemma returns_mono {A} (m : M A) (st : State) (Q Q' : A -> State -> Prop) :
  returns m st Q -> (forall a st', Q a st' -> Q' a st') -> returns m st Q'.
Proof. intros (a & st' & Hm & HQ) Himp. exists a, st'. eauto. Qed.

Lemma returns_print (s : string) (st : State) (Q : unit -> State -> Prop) :
  Q tt (mkState (fs st) (stdout st ++ [s])) -> returns (print s) st Q.
Proof. intros H. now exists tt, (mkState (fs st) (stdout st ++ [s])). Qed.

Lemma returns_try_finally {A} (m : M A) (c : M unit) (st : State) (Q : A -> State -> Prop) :
  returns m st (fun a st1 => returns c st1 (fun _ st2 => Q a st2)) ->
  returns (try_finally m c) st Q.
Proof.
  intros (a & st1 & Hm & ([] & st2 & Hc & HQ)).
  exists a, st2. split; [|exact HQ]. unfold try_finally. now rewrite Hm, Hc.
Qed.

Section Footprint.

Variable E : Env.




Lemma effect_refl (W : list string) (st : State) : effect E [] W st st.
Proof. split; [now rewrite app_nil_r|done]. Qed.

Lemma effect_trans (bs1 bs2 : list Strategy) (W : list string) (st st1 st2 : State) :
  effect E bs1 W st st1 -> effect E bs2 W st1 st2 -> effect E (bs1 ++ bs2) W st st2.
Proof.
  intros [Hb1 Hf1] [Hb2 Hf2]. split.
  - now rewrite Hb2, Hb1, app_assoc.
  - intros q Hn Hp Hq Ho. rewrite <- (Hf1 q) by done.
    apply Hf2; try done. now rewrite Hf1.
Qed.

Lemma effect_weaken (bs : list Strategy) (W W' : list string) (st st' : State) :
  (forall q, q ∈ W -> q ∈ W') -> effect E bs W st st' -> effect E bs W' st st'.
Proof. intros Hsub [Hb Hf]. split; [done|]. intros q ? ? ? Hq. apply Hf; auto. Qed.

Lemma effect_print (s : string) (W : list string) (st : State) :
  String.prefix (nl +:+ "[S") s = false ->
  effect E [] W st (mkState (fs st) (stdout st ++ [s])).
Proof.
  intros Hs. split; [|done]. simpl. rewrite banners_app. f_equal.
  unfold banners. simpl. now rewrite (not_banner _ Hs).
Qed.

Lemma effect_banner (s : string) (x : Strategy) (W : list string) (st : State) :
  banner_of s = Some x ->
  effect E [x] W st (mkState (fs st) (stdout st ++ [s])).
Proof.
  intros Hs. split; [|done]. simpl. rewrite banners_app. f_equal.
  unfold banners. simpl. now rewrite Hs.
Qed.

Lemma effect_write (p : string) (n : node) (st : State) :
  effect E [] [p] st (set_fs <[p := n]> st).
Proof.
  split; [now rewrite app_nil_r|]. intros q _ _ _ Hne. simpl.
  apply lookup_insert_ne. intros ->. apply Hne. left.
Qed.

Lemma effect_delete (p : string) (st : State) :
  effect E [] [p] st (set_fs (delete p) st).
Proof.
  split; [now rewrite app_nil_r|]. intros q _ _ _ Hne. simpl.
  apply lookup_delete_ne. intros ->. apply Hne. left.
Qed.

(** A temporary file is outside every path that existed before it. *)
Lemma effect_scoped (suffix : string) (bs : list Strategy) (W : list string)
    (st st1 st2 : State) :
  stdout st1 = stdout st ->
  (forall q, q <> mkstemp E suffix (fs st) -> fs st1 !! q = fs st !! q) ->
  effect E bs (mkstemp E suffix (fs st) :: W) st1 st2 ->
  effect E bs W st st2.
Proof.
  intros Hs Hf [Hb He]. split; [now rewrite Hb, Hs|].
  intros q Hn Hp [x Hq] HW.
  assert (Hne : q <> mkstemp E suffix (fs st)).
  { intros ->. rewrite Hn in Hq. discriminate. }
  rewrite <- (Hf q Hne). apply He; try done.
  - rewrite (Hf q Hne). eauto.
  - intros [->|Hin]%elem_of_cons; done.
Qed.

End Footprint.

Section StrategyFacts.

Variable E : Env.

(** ** Code that may raise but prints no banner and writes one path at most *)


Lemma quiet_ret {A} (W : list string) (a : A) : quiet E W (ret a).
Proof. intros st. eexists _, _. split; [reflexivity|apply effect_refl]. Qed.

Lemma quiet_raise {A} (W : list string) (e : exn) : quiet E W (@raise A e).
Proof. intros st. eexists _, _. split; [reflexivity|apply effect_refl]. Qed.

Lemma quiet_bind {A B} (W : list string) (m : M A) (k : A -> M B) :
  quiet E W m -> (forall a, quiet E W (k a)) -> quiet E W (bind m k).
Proof.
  intros Hm Hk st. destruct (Hm st) as (r & st1 & Hr & He).
  rewrite bind_run, Hr. destruct r as [a|e]; [|eauto].
  destruct (Hk a st1) as (r2 & st2 & -> & He2).
  eexists _, _. split; [reflexivity|].
  apply (effect_trans E [] [] _ _ _ _ He He2).
Qed.

Lemma quiet_print (W : list string) (s : string) :
  String.prefix (nl +:+ "[S") s = false -> quiet E W (print s).
Proof. intros Hs st. eexists _, _. split; [reflexivity|now apply effect_print]. Qed.

Lemma quiet_open_rb (W : list string) (p : string) : quiet E W (open_rb p).
Proof.
  intros st. unfold open_rb.
  destruct (fs st !! p) as [[d|]|]; eexists _, _; (split; [reflexivity|apply effect_refl]).
Qed.

Lemma quiet_read_handle (W : list string) (p : string) : quiet E W (read_handle p).
Proof.
  intros st. unfold read_handle.
  destruct (fs st !! p) as [[d|]|]; eexists _, _; (split; [reflexivity|apply effect_refl]).
Qed.

Lemma quiet_open_wb (p : string) : quiet E [p] (open_wb p).
Proof.
  intros st. unfold open_wb.
  destruct (fs st !! p) as [[d|]|]; eexists _, _;
    (split; [reflexivity|apply effect_write || apply effect_refl]).
Qed.

Lemma quiet_write_handle (p : string) (d : bytes) : quiet E [p] (write_handle p d).
Proof. intros st. eexists _, _. split; [reflexivity|apply effect_write]. Qed.

Lemma quiet_copy_stream (s : stream) (p : string) : quiet E [p] (copy_stream s p).
Proof.
  unfold copy_stream. apply quiet_bind; [apply quiet_write_handle|]. intros _.
  destruct (failure s); [apply quiet_raise|apply quiet_ret].
Qed.

(** A handler that prints one line, no banner, and returns a value. *)
Lemma caught_effect {A} (m : M A) (msg : exn -> string) (a : A) (W : list string)
    (st : State) :
  quiet E W m ->
  (forall e, String.prefix (nl +:+ "[S") (msg e) = false) ->
  returns (try_except m (fun e => print (msg e) ;; ret a)) st
    (fun _ st' => effect E [] W st st').
Proof.
  intros Hm Hmsg. destruct (Hm st) as (r & st1 & Hr & He).
  unfold try_except, returns. rewrite Hr.
  destruct r as [x|e]; [eauto|].
  eexists _, _. split; [reflexivity|].
  apply (effect_trans E [] [] _ _ _ _ He). now apply effect_print.
Qed.

(** ** The codecs write their output path only *)

Lemma quiet_compress_gzip_or_fail (input_path output_path : string)
    (compression : option string) :
  quiet E [output_path] (compress_gzip_or_fail E input_path output_path compression).
Proof.
  unfold compress_gzip_or_fail. destruct (is_str compression "gzip"); [|apply quiet_ret].
  apply quiet_bind; [apply quiet_open_rb|]. intros _.
  apply quiet_bind; [apply quiet_open_wb|]. intros _.
  apply quiet_bind; [apply quiet_read_handle|]. intros data.
  apply quiet_bind; [apply quiet_write_handle|]. intros _. apply quiet_ret.
Qed.

Lemma compress_blend_effect (input_path output_path : string)
    (compression : option string) (st : State) :
  returns (compress_blend E input_path output_path compression) st
    (fun _ st' => effect E [] [output_path] st st').
Proof.
  unfold compress_blend. apply caught_effect; [|reflexivity].
  destruct (is_str compression "zstd"); [destruct (HAS_ZSTD E); simpl|].
  - apply quiet_bind; [apply quiet_open_rb|]. intros _.
    apply quiet_bind; [apply quiet_open_wb|]. intros _.
    apply quiet_bind; [apply quiet_read_handle|]. intros data.
    apply quiet_bind; [apply quiet_write_handle|]. intros _. apply quiet_ret.
  - apply quiet_bind; [now apply quiet_print|]. intros _.
    apply quiet_compress_gzip_or_fail.
  - apply quiet_compress_gzip_or_fail.
Qed.

Lemma decompress_blend_effect (input_path output_path : string)
    (compression : option string) (st : State) :
  returns (decompress_blend E input_path output_path compression) st
    (fun _ st' => effect E [] [output_path] st st').
Proof.
  unfold decompress_blend. apply returns_bind.
  assert (Hkind : returns
            match compression with
            | Some _ => ret compression
            | None => get_compression_type input_path
            end st (fun _ st' => st' = st)).
  { destruct compression; [now apply returns_ret|].
    unfold returns. rewrite get_compression_type_run. eauto. }
  apply (returns_mono _ _ _ _ Hkind). intros kind ? ->.
  apply caught_effect; [|reflexivity].
  destruct (is_str kind "zstd"); [destruct (HAS_ZSTD E); simpl|destruct (is_str kind "gzip")].
  - apply quiet_bind; [apply quiet_open_rb|]. intros _.
    apply quiet_bind; [apply quiet_open_wb|]. intros _.
    apply quiet_bind; [apply quiet_read_handle|]. intros data.
    apply quiet_bind; [apply quiet_copy_stream|]. intros _. apply quiet_ret.
  - apply quiet_bind; [now apply quiet_print|]. intros _. apply quiet_ret.
  - apply quiet_bind; [apply quiet_open_rb|]. intros _.
    apply quiet_bind; [apply quiet_open_wb|]. intros _.
    apply quiet_bind; [apply quiet_read_handle|]. intros data.
    apply quiet_bind; [apply quiet_copy_stream|]. intros _. apply quiet_ret.
  - apply quiet_bind; [now apply quiet_print|]. intros _. apply quiet_ret.
Qed.

End StrategyFacts.

Section ControllerFacts.

Variable E : Env.

(** ** Runs that return, with the banners they print *)


Lemma acts_ret {A} (W : list string) (a : A) (st : State)
    (Q : A -> list Strategy -> State -> Prop) :
  Q a [] st -> acts E W (ret a) st Q.
Proof. intros H. exists a, st, []. split; [reflexivity|]. split; [apply effect_refl|exact H]. Qed.

Lemma acts_bind {A B} (W : list string) (m : M A) (k : A -> M B) (st : State)
    (Q : B -> list Strategy -> State -> Prop) :
  acts E W m st (fun a bs1 st1 => acts E W (k a) st1 (fun r bs2 st2 => Q r (bs1 ++ bs2) st2)) ->
  acts E W (bind m k) st Q.
Proof.
  intros (a & st1 & bs1 & Hm & He1 & (r & st2 & bs2 & Hk & He2 & HQ)).
  exists r, st2, (bs1 ++ bs2). rewrite (bind_ok _ _ _ _ _ Hm).
  split; [exact Hk|]. split; [|exact HQ]. exact (effect_trans E _ _ _ _ _ _ He1 He2).
Qed.

Lemma acts_mono {A} (W : list string) (m : M A) (st : State)
    (Q Q' : A -> list Strategy -> State -> Prop) :
  acts E W m st Q -> (forall a bs st', Q a bs st' -> Q' a bs st') -> acts E W m st Q'.
Proof. intros (a & st' & bs & Hm & He & HQ) Himp. exists a, st', bs. eauto. Qed.

Lemma acts_weaken {A} (W W' : list string) (m : M A) (st : State)
    (Q : A -> list Strategy -> State -> Prop) :
  (forall q, q ∈ W -> q ∈ W') -> acts E W m st Q -> acts E W' m st Q.
Proof.
  intros Hsub (a & st' & bs & Hm & He & HQ). exists a, st', bs.
  split; [exact Hm|]. split; [now apply (effect_weaken E bs W W')|exact HQ].
Qed.

Lemma acts_print (W : list string) (s : string) (st : State)
    (Q : unit -> list Strategy -> State -> Prop) :
  String.prefix (nl +:+ "[S") s = false ->
  Q tt [] (mkState (fs st) (stdout st ++ [s])) -> acts E W (print s) st Q.
Proof.
  intros Hs HQ. exists tt, (mkState (fs st) (stdout st ++ [s])), [].
  split; [reflexivity|]. split; [now apply effect_print|exact HQ].
Qed.

Lemma acts_banner (W : list string) (s : string) (x : Strategy) (st : State)
    (Q : unit -> list Strategy -> State -> Prop) :
  banner_of s = Some x ->
  Q tt [x] (mkState (fs st) (stdout st ++ [s])) -> acts E W (print s) st Q.
Proof.
  intros Hs HQ. exists tt, (mkState (fs st) (stdout st ++ [s])), [x].
  split; [reflexivity|]. split; [now apply effect_banner|exact HQ].
Qed.

Lemma acts_returns {A} (W : list string) (m : M A) (st : State)
    (Q : A -> list Strategy -> State -> Prop) :
  returns m st (fun a st' => effect E [] W st st' /\ Q a [] st') -> acts E W m st Q.
Proof. intros (a & st' & Hm & He & HQ). now exists a, st', []. Qed.

Lemma acts_try_finally {A} (W : list string) (m : M A) (c : M unit) (st : State)
    (Q : A -> list Strategy -> State -> Prop) :
  acts E W m st (fun a bs1 st1 => acts E W c st1 (fun _ bs2 st2 => Q a (bs1 ++ bs2) st2)) ->
  acts E W (try_finally m c) st Q.
Proof.
  intros (a & st1 & bs1 & Hm & He1 & ([] & st2 & bs2 & Hc & He2 & HQ)).
  exists a, st2, (bs1 ++ bs2). unfold try_finally. rewrite Hm, Hc.
  split; [reflexivity|]. split; [|exact HQ]. exact (effect_trans E _ _ _ _ _ _ He1 He2).
Qed.

(** The sniffers, as steps of a run: the state stays as it is. *)
Lemma acts_get_compression_type (W : list string) (p : string) (st : State)
    (Q : option string -> list Strategy -> State -> Prop) :
  (forall kind, (get_compression_type p st).1 = Ok kind -> Q kind [] st) ->
  acts E W (get_compression_type p) st Q.
Proof.
  intros HQ. rewrite get_compression_type_run in HQ. simpl in HQ.
  eexists _, st, []. rewrite get_compression_type_run.
  split; [reflexivity|]. split; [apply effect_refl|]. now apply HQ.
Qed.

Lemma acts_is_blend_file (W : list string) (p : string) (st : State)
    (Q : bool -> list Strategy -> State -> Prop) :
  (forall valid, (is_blend_file p st).1 = Ok valid -> Q valid [] st) ->
  acts E W (is_blend_file p) st Q.
Proof.
  intros HQ. rewrite is_blend_file_run in HQ. simpl in HQ.
  eexists _, st, []. rewrite is_blend_file_run.
  split; [reflexivity|]. split; [apply effect_refl|]. now apply HQ.
Qed.

Lemma acts_path_exists (W : list string) (p : string) (st : State)
    (Q : bool -> list Strategy -> State -> Prop) :
  Q (bool_decide (is_Some (fs st !! p))) [] st -> acts E W (path_exists p) st Q.
Proof.
  intros HQ. eexists _, st, []. split; [reflexivity|]. split; [apply effect_refl|exact HQ].
Qed.

Lemma acts_get_blend_version (W : list string) (p : string) (st : State)
    (Q : option string -> list Strategy -> State -> Prop) :
  (forall version, Q version [] st) -> acts E W (get_blend_version E p) st Q.
Proof.
  intros HQ. destruct (get_blend_version_pure E p st) as [v Hv].
  exists v, st, []. split; [exact Hv|]. split; [apply effect_refl|apply HQ].
Qed.

(** ** The temporary files *)

Lemma acts_NamedTemporaryFile {A} (W : list string) (suffix : string) (k : string -> M A)
    (st : State) (Q : A -> list Strategy -> State -> Prop) :
  (let tmp := mkstemp E suffix (fs st) in
   acts E (tmp :: W) (k tmp) (set_fs <[tmp := Data []]> st) Q) ->
  acts E W (bind (NamedTemporaryFile E suffix) k) st Q.
Proof.
  intros (a & st2 & bs & Hk & He & HQ). exists a, st2, bs.
  split; [exact Hk|]. split; [|exact HQ].
  eapply effect_scoped; [| |exact He]; [reflexivity|].
  intros q Hq. simpl. now apply lookup_insert_ne.
Qed.

Lemma acts_unlink_if_exists (W : list string) (p : string) (st : State)
    (Q : unit -> list Strategy -> State -> Prop) :
  p ∈ W ->
  Q tt [] (set_fs (delete p) st) ->
  acts E W (unlink_if_exists p) st Q.
Proof.
  intros Hp HQ. eexists _, _, []. rewrite unlink_if_exists_run.
  split; [reflexivity|]. split; [|exact HQ].
  apply (effect_weaken E [] [p]); [|apply effect_delete].
  intros q ->%list_elem_of_singleton. exact Hp.
Qed.

Lemma acts_codec (W : list string) (out : string) (m : M bool) (st : State)
    (Q : bool -> list Strategy -> State -> Prop) :
  out ∈ W ->
  returns m st (fun _ st' => effect E [] [out] st st') ->
  (forall ok st', Q ok [] st') ->
  acts E W m st Q.
Proof.
  intros Hout (a & st' & Hm & He) HQ. exists a, st', [].
  split; [exact Hm|]. split; [|apply HQ].
  apply (effect_weaken E [] [out]); [|exact He].
  intros q ->%list_elem_of_singleton. exact Hout.
Qed.

End ControllerFacts.

Ltac act_print := apply acts_bind; apply acts_print; [reflexivity|]; cbv beta.

Section StrategyRuns.

Variable E : Env.

(** ** Strategy 1 *)

Lemma repair_compression_acts (input_path output_path : string) (st : State) :
  acts E [output_path] (repair_compression E input_path output_path) st
    (fun _ bs _ => bs = [Strategy1]).
Proof.
  unfold repair_compression.
  apply acts_bind, (acts_banner E _ _ Strategy1); [reflexivity|]. cbv beta.
  apply acts_bind, acts_get_compression_type. intros compression _.
  apply acts_bind, acts_print.
  { destruct compression as [s|]; [|reflexivity]. simpl. now destruct (String.eqb s ""). }
  cbv beta.
  destruct (is_str compression "zstd" && negb (HAS_ZSTD E)).
  { do 2 act_print. now apply acts_ret. }
  destruct (negb (truthy compression) || is_str compression "unknown").
  { act_print. apply (acts_codec E _ output_path); [left|apply compress_blend_effect|done]. }
  apply acts_NamedTemporaryFile. intros tmp.
  apply acts_try_finally.
  set (cleanup := fun (_ : bool) (bs1 : list Strategy) (st1 : State) =>
         acts E (tmp :: [output_path]) (unlink_if_exists tmp) st1
           (fun _ bs2 _ => [Strategy1] ++ [] ++ [] ++ bs1 ++ bs2 = [Strategy1])).
  assert (Hclean : forall ok st1, cleanup ok [] st1).
  { intros ok st1. apply acts_unlink_if_exists; [left|reflexivity]. }
  act_print.
  apply acts_bind, (acts_codec E _ tmp); [left|apply decompress_blend_effect|].
  intros ok st1. cbv beta.
  destruct ok; simpl; [|apply acts_ret, Hclean].
  apply acts_bind, acts_is_blend_file. intros valid _.
  destruct valid; simpl; [|act_print; apply acts_ret, Hclean].
  act_print.
  apply acts_bind, (acts_codec E _ output_path);
    [right; left|apply compress_blend_effect|].
  intros ok st2. cbv beta.
  destruct ok; [act_print|]; apply acts_ret, Hclean.
Qed.

End StrategyRuns.

Section ProcessRuns.

Variable E : Env.

(** ** ProcessRunner *)

Lemma run_blender_script_run (blender_path script : string) (timeout : nat) (st : State) :
  run_blender_script E blender_path script timeout st =
    (Ok (outcome_of (launched E blender_path script timeout (fs st)).1),
     mkState (delete (mkstemp E ".py" (fs st))
                (launched E blender_path script timeout (fs st)).2)
             (stdout st)).
Proof.
  unfold run_blender_script, run_blender_script_on, write_script, launched,
    NamedTemporaryFile, write_handle, try_finally, try_except, run_process, bind, ret. simpl.
  rewrite insert_insert_eq.
  destruct (subprocess_run E _ timeout _) as [[result|e] f2]; simpl.
  - now rewrite unlink_if_exists_run.
  - destruct e; now rewrite unlink_if_exists_run.
Qed.

Lemma acts_run_blender_script (W : list string) (blender_path script : string)
    (timeout : nat) (st : State) (Q : bool * string -> list Strategy -> State -> Prop) :
  (forall st', fs st' !! mkstemp E ".py" (fs st) = None ->
               stdout st' = stdout st ->
               Q (outcome_of (launched E blender_path script timeout (fs st)).1) [] st') ->
  acts E W (run_blender_script E blender_path script timeout) st Q.
Proof.
  intros HQ. eexists _, _, []. rewrite run_blender_script_run.
  split; [reflexivity|]. split; [|apply HQ; [apply lookup_delete_eq|reflexivity]].
  split; [now rewrite app_nil_r|].
  intros q Hn Hp [x Hq] _. simpl.
  assert (Hne : mkstemp E ".py" (fs st) <> q).
  { intros <-. rewrite Hn in Hq. discriminate. }
  rewrite lookup_delete_ne by done. unfold launched.
  rewrite Hp. now apply lookup_insert_ne.
Qed.

Lemma acts_print_matching (W : list string) (keep : string -> bool) (ls : list string)
    (st : State) (Q : unit -> list Strategy -> State -> Prop) :
  (forall st', fs st' = fs st -> Q tt [] st') ->
  acts E W (for_each ls (fun line => if keep line then print ("  " +:+ line) else ret tt)) st Q.
Proof.
  revert st. induction ls as [|l ls IH]; intros st HQ; simpl.
  - now apply acts_ret, HQ.
  - apply acts_bind. destruct (keep l).
    + apply acts_print; [reflexivity|]. apply IH. intros st' Hfs. now apply HQ.
    + apply acts_ret, IH. intros st' Hfs. now apply HQ.
Qed.

(** ** Strategies 2 to 4 *)


Lemma repair_with_blender_open_acts (W : list string)
    (blender_path input_path output_path : string) (st : State) :
  acts E W (repair_with_blender_open E blender_path input_path output_path) st
    (fun ok bs _ =>
       bs = [Strategy2] /\
       ok = verdict E blender_path (open_script input_path output_path) "REPAIR_SUCCESS" 180 (fs st)).
Proof.
  unfold repair_with_blender_open.
  apply acts_bind, (acts_banner E _ _ Strategy2); [reflexivity|]. cbv beta.
  apply acts_bind, acts_run_blender_script. intros st1 _ _. unfold verdict. simpl fs.
  destruct (_ && _); act_print; now apply acts_ret.
Qed.

Lemma repair_with_append_acts (W : list string)
    (blender_path input_path output_path : string) (st : State) :
  acts E W (repair_with_append E blender_path input_path output_path) st
    (fun ok bs _ =>
       bs = [Strategy3] /\
       ok = verdict E blender_path (append_script input_path output_path) "RECOVERY_SUCCESS" 300 (fs st)).
Proof.
  unfold repair_with_append.
  apply acts_bind, (acts_banner E _ _ Strategy3); [reflexivity|]. cbv beta.
  apply acts_bind, acts_run_blender_script. intros st1 _ _. unfold verdict. simpl fs.
  destruct (_ && _); act_print; [|now apply acts_ret].
  apply acts_bind, (acts_print_matching W
    (fun line => contains "Recovered" line || contains "RECOVERY_SUCCESS" line)).
  intros st2 _. now apply acts_ret.
Qed.

Lemma repair_selective_recovery_acts (W : list string)
    (blender_path input_path output_path : string) (st : State) :
  acts E W (repair_selective_recovery E blender_path input_path output_path) st
    (fun ok bs _ =>
       bs = [Strategy4] /\
       ok = verdict E blender_path (selective_script input_path output_path) "RECOVERY_SUCCESS" 300 (fs st)).
Proof.
  unfold repair_selective_recovery.
  apply acts_bind, (acts_banner E _ _ Strategy4); [reflexivity|]. cbv beta.
  apply acts_bind, acts_run_blender_script. intros st1 _ _. unfold verdict. simpl fs.
  destruct (_ && _); act_print; [|now apply acts_ret].
  apply acts_bind, (acts_print_matching W (fun line => contains "RECOVERY_SUCCESS" line)).
  intros st2 _. now apply acts_ret.
Qed.

End ProcessRuns.

Section ControllerRuns.

Variable E : Env.


Lemma last_snoc_line (l : list string) (s : string) : last (l ++ [s]) = Some s.
Proof. apply last_snoc. Qed.

Lemma remaining_strategies_traced_acts (blender_path : option string)
    (input_path output_path : string) (st : State) :
  acts E [] (remaining_strategies_traced E blender_path input_path output_path) st
    (fun r bs st' =>
       Strategy1 :: bs = r.2.*1 /\
       r.2 !! 0 = Some (Strategy1, false) /\
       r ∈ controller_outcomes /\
       (truthy blender_path = false ->
        r = (false, [(Strategy1, false)]) /\ last (stdout st') = Some early_exhaustion)).
Proof.
  unfold remaining_strategies_traced. cbv zeta.
  destruct (truthy blender_path) eqn:Hbp; cbn [negb]; cbv iota.
  2:{ act_print. apply acts_ret. simpl. rewrite last_snoc.
      repeat split; try done. set_solver. }
  apply acts_bind. eapply acts_mono; [apply repair_with_blender_open_acts|].
  intros ok2 bs2 st2 [-> _]. cbv beta.
  destruct ok2.
  { act_print. apply acts_ret. repeat split; try done. set_solver. }
  apply acts_bind. eapply acts_mono; [apply repair_with_append_acts|].
  intros ok3 bs3 st3 [-> _]. cbv beta.
  destruct ok3.
  { act_print. apply acts_ret. repeat split; try done. set_solver. }
  apply acts_bind. eapply acts_mono; [apply repair_selective_recovery_acts|].
  intros ok4 bs4 st4 [-> _]. cbv beta.
  destruct ok4.
  { act_print. apply acts_ret. repeat split; try done. set_solver. }
  do 6 act_print. apply acts_ret. repeat split; try done. set_solver.
Qed.

Lemma strategy_controller_traced_spec (blender_path : option string)
    (input_path output_path : string) (st : State) :
  exists ok1 st1 r st',
    repair_compression E input_path output_path st = (Ok ok1, st1) /\
    effect E [Strategy1] [output_path] st st1 /\
    strategy_controller_traced E blender_path input_path output_path st = (Ok r, st') /\
    effect E (tail r.2.*1) [] st1 st' /\
    r ∈ controller_outcomes /\
    (r.2 !! 0 = Some (Strategy1, true) -> ok1 = true) /\
    (truthy blender_path = false ->
     r = (ok1, [(Strategy1, ok1)]) /\
     last (stdout st') = Some (if ok1 then unverified output_path else early_exhaustion)).
Proof.
  destruct (repair_compression_acts E input_path output_path st)
    as (ok1 & st1 & bs1 & Hrc & He1 & ->).
  exists ok1, st1.
  enough (Hrest : acts E []
            (if ok1 then
               if truthy blender_path then
                 print (nl +:+ "Verifying repaired file...") ;;
                 r <- run_blender_script E (py_str blender_path) (verify_script output_path) 60 ;;
                 if contains "VERIFY_SUCCESS" r.2 then
                   print (nl +:+ "[✓] Repair successful! Saved to: " +:+ output_path) ;;
                   ret (true, [(Strategy1, true)])
                 else
                   print "  Verification failed, trying other strategies..." ;;
                   remaining_strategies_traced E blender_path input_path output_path
               else
                 print (nl +:+ "[✓] Compression repair complete (unverified): " +:+ output_path) ;;
                 ret (true, [(Strategy1, true)])
             else remaining_strategies_traced E blender_path input_path output_path)
            st1
            (fun r bs st' =>
               Strategy1 :: bs = r.2.*1 /\
               r ∈ controller_outcomes /\
               (r.2 !! 0 = Some (Strategy1, true) -> ok1 = true) /\
               (truthy blender_path = false ->
                r = (ok1, [(Strategy1, ok1)]) /\
                last (stdout st') =
                  Some (if ok1 then unverified output_path else early_exhaustion)))).
  { destruct Hrest as (r & st' & bs & Hrun & He & Hbs & Hin & Hv & Hno).
    exists r, st'. split; [exact Hrc|]. split; [exact He1|].
    split; [|split; [now rewrite <- Hbs|done]].
    unfold strategy_controller_traced. cbv zeta. rewrite (bind_ok _ _ _ _ _ Hrc).
    exact Hrun. }
  destruct ok1.
  - destruct (truthy blender_path) eqn:Hbp.
    + act_print. apply acts_bind, acts_run_blender_script. intros st2 _ _.
      destruct (contains "VERIFY_SUCCESS" _).
      * act_print. apply acts_ret. repeat split; try done. set_solver.
      * act_print. eapply acts_mono; [apply remaining_strategies_traced_acts|].
        intros r bs st' (Hbs & H0 & Hin & _). repeat split; try done.
    + act_print. apply acts_ret. simpl. rewrite last_snoc.
      repeat split; try done. set_solver.
  - eapply acts_mono; [apply remaining_strategies_traced_acts|].
    intros r bs st' (Hbs & H0 & Hin & Hno). repeat split; try done.
    + rewrite H0. discriminate.
    + now apply Hno.
    + now apply Hno.
Qed.

End ControllerRuns.

Section SessionRuns.

Variable E : Env.

(** ** Dropping the history *)


Lemma erase_bind {A B C} (m : M A) (k : A -> M B) (k' : A -> M (B * C)) (st : State) :
  (forall a st1, k a st1 = erase (k' a st1)) ->
  bind m k st = erase (bind m k' st).
Proof.
  intros Hk. unfold bind. destruct (m st) as [[a|e] st1]; [apply Hk|reflexivity].
Qed.

Lemma erase_if {A B} (c : bool) (m1 m2 : M A) (m1' m2' : M (A * B)) (st : State) :
  m1 st = erase (m1' st) -> m2 st = erase (m2' st) ->
  (if c then m1 else m2) st = erase ((if c then m1' else m2') st).
Proof. now destruct c. Qed.

Lemma remaining_strategies_erasure (blender_path : option string)
    (input_path output_path : string) (st : State) :
  remaining_strategies E blender_path input_path output_path st =
  erase (remaining_strategies_traced E blender_path input_path output_path st).
Proof.
  unfold remaining_strategies, remaining_strategies_traced. cbv zeta.
  repeat first
    [ reflexivity
    | apply erase_if
    | apply erase_bind; intros ].
Qed.

Lemma strategy_controller_erasure (blender_path : option string)
    (input_path output_path : string) (st : State) :
  strategy_controller E blender_path input_path output_path st =
  erase (strategy_controller_traced E blender_path input_path output_path st).
Proof.
  unfold strategy_controller, strategy_controller_traced. cbv zeta.
  repeat first
    [ reflexivity
    | apply remaining_strategies_erasure
    | apply erase_if
    | apply erase_bind; intros ].
Qed.

Lemma repair_session_erasure (input_path : string) (output_path blender_path : option string)
    (st : State) :
  repair_blend_file E input_path output_path blender_path st =
  erase (repair_session E input_path output_path blender_path st).
Proof.
  unfold repair_blend_file, repair_session. cbv zeta.
  repeat first
    [ reflexivity
    | apply strategy_controller_erasure
    | apply erase_if
    | apply erase_bind; intros ].
Qed.

(** ** The session before its first strategy *)


Lemma string_length_app (s t : string) :
  String.length (s +:+ t) = String.length s + String.length t.
Proof. induction s as [|c s IH]; simpl; [reflexivity|now rewrite IH]. Qed.

Lemma string_app_neq (s t : string) : t <> "" -> s +:+ t <> s.
Proof.
  intros Ht Heq. apply (f_equal String.length) in Heq.
  rewrite string_length_app in Heq. destruct t; [done|]. simpl in Heq. lia.
Qed.

Lemma create_backup_run (input_path : string) (data : bytes) (st : State) :
  fs st !! input_path = Some (Data data) ->
  let backup_path := input_path +:+ ".backup" in
  exists new,
    (if negb (bool_decide (is_Some (fs st !! backup_path))) then
       print ("Creating backup: " +:+ backup_path) ;; copy2 input_path backup_path
     else ret tt) st =
    (Ok tt, mkState (with_backup input_path data (fs st)) (stdout st ++ new)) /\
    banners new = [].
Proof.
  intros Hin backup_path. unfold with_backup. fold backup_path.
  assert (Hne : backup_path <> input_path) by (apply string_app_neq; done).
  clearbody backup_path.
  destruct (fs st !! backup_path) as [n|] eqn:Hb.
  - rewrite bool_decide_eq_true_2 by eauto. exists []. simpl.
    rewrite app_nil_r. now destruct st.
  - rewrite bool_decide_eq_false_2 by (intros [? ?]; done). cbn [negb]. cbv iota.
    exists ["Creating backup: " +:+ backup_path]. split; [|reflexivity].
    unfold copy2, bind, print, open_rb, open_wb, read_handle, write_handle, set_fs. simpl.
    rewrite Hin. simpl. rewrite Hb. simpl.
    rewrite lookup_insert_ne by done.
    rewrite Hin. simpl. now rewrite insert_insert_eq.
Qed.

(** What [repair_session] does before it hands over to the controller. *)
Lemma repair_session_run (input : string) (output blender : option string) (st : State) :
  let input_path := abspath E input in
  let output_path := resolve_output E input_path output in
  match fs st !! input_path with
  | None =>
      repair_session E input output blender st =
      (Ok (false, []),
       mkState (fs st) (stdout st ++ ["Error: File not found: " +:+ input_path]))
  | Some (Data data) =>
      if valid_container data then
        exists new,
          banners new = [] /\
          repair_session E input output blender st =
          strategy_controller_traced E (resolve_blender E blender) input_path output_path
            (mkState (with_backup input_path data (fs st)) (stdout st ++ new))
      else
        repair_session E input output blender st =
        (Ok (false, []),
         mkState (fs st) (stdout st ++ ["Error: Not a valid .blend file: " +:+ input_path]))
  | Some Denied =>
      repair_session E input output blender st =
      (Ok (false, []),
       mkState (fs st) (stdout st ++ ["Error: Not a valid .blend file: " +:+ input_path]))
  end.
Proof.
  intros input_path output_path. unfold repair_session. cbv zeta.
  fold input_path. fold output_path.
  rewrite bind_run, path_exists_run. cbv beta iota.
  destruct (fs st !! input_path) as [[data|]|] eqn:Hin.
  3:{ rewrite bool_decide_eq_false_2 by (intros [? ?]; done). reflexivity. }
  2:{ rewrite bool_decide_eq_true_2 by eauto. cbn [negb]. cbv iota.
      rewrite bind_run, is_blend_file_run, Hin. reflexivity. }
  rewrite bool_decide_eq_true_2 by eauto. cbn [negb]. cbv iota.
  rewrite bind_run, is_blend_file_run, Hin. cbv beta iota zeta.
  unfold valid_container. cbv zeta.
  destruct (_ || _ || _); cbn [negb]; cbv iota; [|reflexivity].
  rewrite bind_run, path_exists_run. cbv beta iota.
  destruct (create_backup_run input_path data st Hin) as (new0 & Hcopy & Hnew0).
  rewrite (bind_ok _ _ _ _ _ Hcopy).
  do 5 (rewrite bind_run, print_run; cbv beta iota; cbn [fs stdout]).
  rewrite bind_run.
  match goal with
  | |- context [get_blend_version _ ?p ?s] =>
      destruct (get_blend_version_pure E p s) as [version Hv]; rewrite Hv
  end.
  cbv beta iota.
  assert (Hversion : exists line,
            banners line = [] /\
            forall s, (if truthy version then print ("Blender version: " +:+ py_str version)
                       else ret tt) s = (Ok tt, mkState (fs s) (stdout s ++ line))).
  { destruct (truthy version).
    - exists ["Blender version: " +:+ py_str version]. split; [reflexivity|].
      intros s. reflexivity.
    - exists []. split; [reflexivity|]. intros s. unfold ret. rewrite app_nil_r.
      now destruct s. }
  destruct Hversion as (line1 & Hline1 & Hrun1).
  rewrite bind_run, Hrun1. cbv beta iota. cbn [fs stdout].
  rewrite bind_run, get_compression_type_run. cbv beta iota.
  rewrite bind_run, print_run. cbv beta iota. cbn [fs stdout].
  assert (Hblender : exists line,
            banners line = [] /\
            forall s, (if truthy (resolve_blender E blender)
                       then print ("Blender executable: " +:+ py_str (resolve_blender E blender))
                       else print "Warning: Blender not found. Some repair strategies unavailable.")
                        s = (Ok tt, mkState (fs s) (stdout s ++ line))).
  { destruct (truthy (resolve_blender E blender)).
    - exists ["Blender executable: " +:+ py_str (resolve_blender E blender)].
      split; [reflexivity|intros s; reflexivity].
    - exists ["Warning: Blender not found. Some repair strategies unavailable."].
      split; [reflexivity|intros s; reflexivity]. }
  destruct Hblender as (line2 & Hline2 & Hrun2).
  rewrite bind_run, Hrun2. cbv beta iota. cbn [fs stdout].
  rewrite <- !app_assoc.
  eexists. split; [|reflexivity].
  rewrite !banners_app, Hnew0, Hline1, Hline2. reflexivity.
Qed.

End SessionRuns.

(** Evaluating the comparisons of a codec name with a literal. *)
Ltac eval_tests :=
  repeat match goal with
         | |- context [is_str (Some ?a) ?l] =>
             let v := eval vm_compute in (is_str (Some a) l) in
             change (is_str (Some a) l) with v
         | |- context [is_str None ?l] => change (is_str None l) with false
         | |- context [truthy None] => change (truthy None) with false
         | |- context [String.eqb ?a ?l] =>
             let v := eval vm_compute in (String.eqb a l) in
             match v with
             | true => change (String.eqb a l) with true
             | false => change (String.eqb a l) with false
             end
         end;
  cbn [andb orb negb]; cbv iota.

Section CodecRuns.

Variable E : Env.


(** ** What the codecs leave on disk *)


(** Opening [src] for reading and [dst] for writing, then reading [src]:
    the bytes that come out when the two paths differ. *)
Lemma open_pair_run {A} (src dst : string) (data : bytes) (k : bytes -> M A) (st : State) :
  fs st !! src = Some (Data data) ->
  src <> dst ->
  fs st !! dst <> Some Denied ->
  (open_rb src ;; open_wb dst ;; bind (read_handle src) k) st =
  k data (set_fs <[dst := Data []]> st).
Proof.
  intros Hsrc Hne Hdst. unfold bind, open_rb, open_wb, read_handle.
  rewrite Hsrc.
  destruct (fs st !! dst) as [[old|]|] eqn:Hd; [|done|]; simpl;
    rewrite lookup_insert_ne by done; now rewrite Hsrc.
Qed.

Lemma compress_blend_run (src dst compression : string) (data : bytes) (st : State) :
  compression = "gzip" \/ compression = "zstd" ->
  fs st !! src = Some (Data data) ->
  src <> dst ->
  fs st !! dst <> Some Denied ->
  exists new,
    compress_blend E src dst (Some compression) st =
      (Ok true, mkState (<[dst := Data (encoder E compression data)]> (fs st)) (stdout st ++ new)) /\
    banners new = [].
Proof.
  intros Hc Hsrc Hne Hdst. unfold compress_blend, compress_gzip_or_fail, try_except, encoder.
  destruct Hc as [-> | ->]; eval_tests.
  - rewrite (open_pair_run src dst data) by done.
    exists []. unfold bind, write_handle, ret, set_fs. simpl.
    now rewrite insert_insert_eq, app_nil_r.
  - destruct (HAS_ZSTD E); cbn [negb andb]; cbv iota.
    + rewrite (open_pair_run src dst data) by done.
      exists []. unfold bind, write_handle, ret, set_fs. simpl.
      now rewrite insert_insert_eq, app_nil_r.
    + rewrite bind_run, print_run. cbv beta iota. eval_tests.
      rewrite (open_pair_run src dst data) by done.
      eexists [_]. unfold bind, write_handle, ret, set_fs. simpl.
      now rewrite insert_insert_eq.
Qed.

Lemma decompress_blend_run (src dst compression : string) (packed data : bytes) (st : State) :
  compression = "gzip" /\ gzip_decompress E packed = mkStream data None \/
  compression = "zstd" /\ HAS_ZSTD E = true /\ zstd_decompress E packed = mkStream data None ->
  fs st !! src = Some (Data packed) ->
  src <> dst ->
  fs st !! dst <> Some Denied ->
  decompress_blend E src dst (Some compression) st =
    (Ok true, mkState (<[dst := Data data]> (fs st)) (stdout st)).
Proof.
  intros Hc Hsrc Hne Hdst. unfold decompress_blend. rewrite bind_run. unfold ret at 1.
  cbv beta iota. unfold try_except.
  destruct Hc as [[-> Hdec] | (-> & Hz & Hdec)]; eval_tests.
  - rewrite (open_pair_run src dst packed) by done.
    unfold copy_stream, bind, write_handle, ret, set_fs. rewrite Hdec. simpl.
    now rewrite insert_insert_eq.
  - rewrite Hz. cbn [negb andb]. cbv iota.
    rewrite (open_pair_run src dst packed) by done.
    unfold copy_stream, bind, write_handle, ret, set_fs. rewrite Hdec. simpl.
    now rewrite insert_insert_eq.
Qed.

(** Strategy 1 on an uncompressed container: it is compressed afresh. *)
Lemma repair_compression_uncompressed (input_path output_path : string) (data : bytes)
    (st : State) :
  fs st !! input_path = Some (Data data) ->
  take 4 data = b "BLEN" ->
  input_path <> output_path ->
  fs st !! output_path <> Some Denied ->
  exists new,
    repair_compression E input_path output_path st =
      (Ok true,
       mkState (<[output_path := Data (encoder E "zstd" data)]> (fs st)) (stdout st ++ new)).
Proof.
  intros Hin Hmagic Hne Hout. unfold repair_compression.
  rewrite bind_run, print_run. cbv beta iota.
  rewrite bind_run, get_compression_type_run. cbn [fs]. rewrite Hin. cbv beta iota zeta.
  rewrite !Hmagic.
  change (bool_decide (take 2 (b "BLEN") = [x1f; x8b])) with false.
  change (bool_decide (b "BLEN" = [x28; xb5; x2f; xfd])) with false.
  change (bool_decide (take 4 (b "BLEN") = b "BLEN")) with true. cbv iota.
  rewrite bind_run, print_run. cbv beta iota. eval_tests.
  rewrite bind_run, print_run. cbv beta iota.
  match goal with
  | |- context [compress_blend _ _ _ _ ?s] =>
      destruct (compress_blend_run input_path output_path "zstd" data s)
        as (new & Hrun & _); [now right|exact Hin|exact Hne|exact Hout|]
  end.
  rewrite Hrun. cbn [fs stdout]. rewrite <- !app_assoc. eauto.
Qed.

End CodecRuns.

(** ** The sample world keeps the promises of the libraries *)

Lemma length_replicate_string (n : nat) (c : ascii) :
  String.length (string_of_list_ascii (replicate n c)) = n.
Proof. induction n as [|n IH]; simpl; [reflexivity|now rewrite IH]. Qed.

Lemma sample_names_fresh (has_zstd : bool)
    (blender : list string -> nat -> gmap string node -> Res CompletedProcess * gmap string node)
    (installed : option string) :
  names_fresh (Sample.env has_zstd blender installed).
Proof.
  intros suffix f. simpl. apply eq_None_not_Some. intros [n Hn].
  apply elem_of_map_to_list in Hn.
  assert (Hlen : String.length (Sample.tmp_name suffix f)
                 <= max_list (String.length <$> (map_to_list f).*1)).
  { apply max_list_elem_of_le. apply list_elem_of_fmap. eexists. split; [reflexivity|].
    apply list_elem_of_fmap. now exists (Sample.tmp_name suffix f, n). }
  unfold Sample.tmp_name in Hlen at 1.
  rewrite !string_length_app, length_replicate_string in Hlen. simpl in Hlen. lia.
Qed.

Lemma sample_process_keeps (has_zstd : bool) (installed : option string) (q : string) :
  process_keeps (Sample.env has_zstd Sample.broken_blender installed) q.
Proof. intros argv timeout f. reflexivity. Qed.

Lemma sample_gzip_roundtrip (data : bytes) :
  Sample.unframe Sample.gzip_magic "Not a gzipped file" (Sample.frame Sample.gzip_magic data)
  = mkStream data None.
Proof. reflexivity. Qed.

Lemma sample_zstd_roundtrip (data : bytes) :
  Sample.unframe Sample.zstd_magic "zstd decompress error: Unknown frame descriptor"
    (Sample.frame Sample.zstd_magic data)
  = mkStream data None.
Proof. reflexivity. Qed.

(** ** The embedding at work on the sample world *)

Example sniffing_the_sample_disk :
  (get_compression_type "/work/scene.blend" Sample.boot).1 = Ok None /\
  (get_compression_type "/work/packed.blend" Sample.boot).1 = Ok (Some "gzip") /\
  (get_compression_type "/work/locked.blend" Sample.boot).1 = Ok (Some "unknown") /\
  (get_compression_type "/work/missing.blend" Sample.boot).1 = Ok (Some "unknown") /\
  (is_blend_file "/work/short.blend" Sample.boot).1 = Ok true /\
  (is_blend_file "/work/locked.blend" Sample.boot).1 = Ok false /\
  (is_compressed "/work/packed.blend" Sample.boot).1 = Ok true.
Proof. repeat split; vm_compute; reflexivity. Qed.

Example versions_on_the_sample_disk :
  (get_blend_version (Sample.env true Sample.broken_blender None)
     "/work/old.blend" Sample.boot).1 = Ok (Some "0.5") /\
  (get_blend_version (Sample.env true Sample.broken_blender None)
     "/work/packed.blend" Sample.boot).1 = Ok (Some "4.0") /\
  (get_blend_version (Sample.env true Sample.broken_blender None)
     "/work/short.blend" Sample.boot).1 = Ok None.
Proof. repeat split; vm_compute; reflexivity. Qed.

(** A gzip file is unpacked, checked, packed again and verified. *)
Example gzip_session_verified :
  (repair_session (Sample.env true Sample.cheerful_blender (Some "/usr/bin/blender"))
     "packed.blend" None None Sample.boot).1 = Ok (true, [(Strategy1, true)]) /\
  fs (repair_session (Sample.env true Sample.cheerful_blender (Some "/usr/bin/blender"))
        "packed.blend" None None Sample.boot).2 !! "/work/packed_repaired.blend"
    = Some (Data Sample.gzipped400) /\
  dom (fs (repair_session (Sample.env true Sample.cheerful_blender (Some "/usr/bin/blender"))
             "packed.blend" None None Sample.boot).2)
    = dom Sample.disk ∪ {[ "/work/packed.blend.backup"; "/work/packed_repaired.blend" ]}.
Proof. repeat split; vm_compute; reflexivity. Qed.

(** Every strategy runs once, in order, when Blender never answers. *)
Example hanging_blender_session :
  (repair_session (Sample.env true Sample.hanging_blender None)
     "scene.blend" None (Some "/opt/blender/blender") Sample.boot).1
    = Ok (false, [(Strategy1, false); (Strategy2, false); (Strategy3, false); (Strategy4, false)]) /\
  banners (stdout (repair_session (Sample.env true Sample.hanging_blender None)
                     "scene.blend" None (Some "/opt/blender/blender") Sample.boot).2)
    = [Strategy1; Strategy2; Strategy3; Strategy4].
Proof. split; vm_compute; reflexivity. Qed.

(** A file that cannot be read, and a file that is not there, stop the
    session before any strategy. *)
Example rejected_inputs :
  repair_session (Sample.env true Sample.cheerful_blender None)
    "locked.blend" None None Sample.boot
    = (Ok (false, []),
       mkState Sample.disk ["Error: Not a valid .blend file: /work/locked.blend"]) /\
  repair_session (Sample.env true Sample.cheerful_blender None)
    "missing.blend" None None Sample.boot
    = (Ok (false, []),
       mkState Sample.disk ["Error: File not found: /work/missing.blend"]).
Proof. split; vm_compute; reflexivity. Qed.

(** ** C3 and C10: the compression sniffer *)

(** C10.  [get_compression_type] never raises, whatever the path: it returns
    a kind and leaves the world as it was; and whenever the file cannot be
    opened and read (it is missing, or access is denied) the kind is
    ['unknown'], not [None], ['gzip'] or ['zstd']. *)
Theorem get_compression_type_never_raises (filepath : string) (st : State) :
  exists kind,
    get_compression_type filepath st = (Ok kind, st) /\
    match fs st !! filepath with
    | Some (Data _) => True
    | _ => kind = Some "unknown"
    end.
Proof.
  rewrite get_compression_type_run. eexists; split; [reflexivity|].
  destruct (fs st !! filepath) as [[data|]|]; done.
Qed.

(** C3, as the spec states it, fails: a file that holds just the two bytes
    [1F 8B] is shorter than four bytes and is classified ['gzip']. *)
Lemma short_gzip_magic_is_not_unknown :
  length Sample.two_bytes < 4 /\
  fs Sample.boot !! "/work/short.blend" = Some (Data Sample.two_bytes) /\
  get_compression_type "/work/short.blend" Sample.boot = (Ok (Some "gzip"), Sample.boot).
Proof. split; [simpl; lia|]. split; reflexivity. Qed.

(** C3, amended.  On a file shorter than four bytes [get_compression_type]
    never raises, and returns ['unknown'] unless the file starts with the two
    bytes of the gzip magic, in which case it returns ['gzip']; it never
    returns ['zstd'] or [None] for such a file. *)
Theorem get_compression_type_short (filepath : string) (st : State) (data : bytes) :
  fs st !! filepath = Some (Data data) ->
  length data < 4 ->
  get_compression_type filepath st =
    (Ok (if bool_decide (take 2 data = [x1f; x8b]) then Some "gzip" else Some "unknown"), st).
Proof.
  intros Hf Hlen. rewrite get_compression_type_run, Hf. cbv zeta.
  rewrite (take_ge data 4) by lia.
  case_bool_decide; [reflexivity|].
  rewrite bool_decide_eq_false_2.
  2:{ intros ->. simpl in Hlen. lia. }
  rewrite bool_decide_eq_false_2; [reflexivity|].
  rewrite take_ge by lia. intros ->. vm_compute in Hlen. lia.
Qed.

Lemma get_compression_type_short_witness :
  fs Sample.boot !! "/work/short.blend" = Some (Data Sample.two_bytes) /\
  length Sample.two_bytes < 4 /\
  get_compression_type "/work/short.blend" Sample.boot =
    (Ok (if bool_decide (take 2 Sample.two_bytes = [x1f; x8b])
         then Some "gzip" else Some "unknown"), Sample.boot).
Proof.
  assert (Hlen : length Sample.two_bytes < 4) by (simpl; lia).
  split; [reflexivity|]. split; [exact Hlen|].
  exact (get_compression_type_short "/work/short.blend" Sample.boot Sample.two_bytes
           eq_refl Hlen).
Defined.

(** ** C8: the version in the header *)


(** C8.  For an uncompressed file that starts with [BLENDER] and carries
    three ASCII digits at offset 9, [get_blend_version] returns
    ["<major>.<minor>"]: the first digit, then the other two with the
    leading zero stripped, ["0"] if nothing is left. *)
Theorem get_blend_version_format (E : Env) (filepath : string) (st : State)
    (p7 p8 d0 d1 d2 : byte) (rest : bytes) :
  fs st !! filepath = Some (Data (b "BLENDER" ++ [p7; p8; d0; d1; d2] ++ rest)) ->
  is_digit d0 -> is_digit d1 -> is_digit d2 ->
  get_blend_version E filepath st =
    (Ok (Some (format_version (ascii_of_byte d0) (ascii_of_byte d1) (ascii_of_byte d2))), st).
Proof.
  intros Hf H0 H1 H2.
  assert (Hkind : get_compression_type filepath st = (Ok None, st)).
  { rewrite get_compression_type_run, Hf. reflexivity. }
  assert (Hheader : take 12 (b "BLENDER" ++ [p7; p8; d0; d1; d2] ++ rest)
                    = b "BLENDER" ++ [p7; p8; d0; d1; d2]) by reflexivity.
  assert (Hparse : version_of_header (b "BLENDER" ++ [p7; p8; d0; d1; d2]) st =
            (Ok (Some (format_version (ascii_of_byte d0) (ascii_of_byte d1)
                         (ascii_of_byte d2))), st)).
  { unfold version_of_header.
    change (bool_decide (take 7 (b "BLENDER" ++ [p7; p8; d0; d1; d2]) = b "BLENDER"))
      with true. cbv iota.
    change (take 3 (drop 9 (b "BLENDER" ++ [p7; p8; d0; d1; d2]))) with [d0; d1; d2].
    unfold bind, decode_ascii. cbn [forallb]. unfold is_digit in *.
    rewrite !(proj2 (Nat.ltb_lt _ 128)) by lia. cbn [andb].
    unfold ret, str_head. cbn [string_of_list_byte map string_of_list_ascii].
    unfold format_version, str_slice.
    cbn [list_ascii_of_string drop take Nat.sub string_of_list_ascii lstrip0].
    destruct (Ascii.eqb (ascii_of_byte d1) "0");
      [destruct (Ascii.eqb (ascii_of_byte d2) "0")|]; reflexivity. }
  unfold get_blend_version, try_except.
  rewrite bind_run, Hkind. cbv beta iota.
  change (is_str None "zstd") with false. change (is_str None "gzip") with false.
  cbv iota.
  unfold bind at 1. unfold open_rb. rewrite Hf.
  unfold bind at 1. unfold read_handle. rewrite Hf.
  now rewrite Hheader, Hparse.
Qed.

(** Version bytes [400] give ["4.0"], and [005] give ["0.5"]. *)
Lemma get_blend_version_format_witness :
  (fs Sample.boot !! "/work/scene.blend"
     = Some (Data (b "BLENDER" ++ [x2d; x76; x34; x30; x30] ++ b "REND")) /\
   is_digit x34 /\ is_digit x30) /\
  get_blend_version (Sample.env true Sample.broken_blender None) "/work/scene.blend" Sample.boot
    = (Ok (Some "4.0"), Sample.boot).
Proof.
  assert (H4 : is_digit x34) by (unfold is_digit; simpl; lia).
  assert (H0 : is_digit x30) by (unfold is_digit; simpl; lia).
  split; [split; [reflexivity|split; assumption]|].
  exact (get_blend_version_format (Sample.env true Sample.broken_blender None)
           "/work/scene.blend" Sample.boot x2d x76 x34 x30 x30 (b "REND") eq_refl H4 H0 H0).
Defined.

Example version_400 :
  format_version "4" "0" "0" = "4.0" /\ format_version "0" "0" "5" = "0.5".
Proof. split; reflexivity. Qed.

(** ** C5: the process runner *)

(** C5, as the spec states it, fails: the function is not total.  The
    script is written before the [try] statement is entered, so when the
    temporary directory has no room for it the [OSError] of the write
    reaches the caller, no process is launched, and the temporary file, with
    what fitted of the script, is still there. *)
Lemma run_blender_script_write_fails :
  (run_blender_script_on (Sample.env true Sample.cheerful_blender None) (Some 6)
     "/usr/bin/blender" "import bpy" 60 Sample.boot).1
    = Raise (OSError "[Errno 28] No space left on device") /\
  fs (run_blender_script_on (Sample.env true Sample.cheerful_blender None) (Some 6)
        "/usr/bin/blender" "import bpy" 60 Sample.boot).2
    !! mkstemp (Sample.env true Sample.cheerful_blender None) ".py" (fs Sample.boot)
    = Some (Data (b "import")).
Proof. split; vm_compute; reflexivity. Qed.

(** With room for the script the function of the source is the one the
    strategies call. *)
Lemma run_blender_script_on_room (E : Env) (room : option nat)
    (blender_path script : string) (timeout : nat) (st : State) :
  (forall n, room = Some n -> length (b script) <= n) ->
  run_blender_script_on E room blender_path script timeout st =
  run_blender_script E blender_path script timeout st.
Proof.
  intros Hroom. unfold run_blender_script, run_blender_script_on, write_script.
  destruct room as [n|]; [|reflexivity].
  now rewrite bool_decide_eq_true_2 by (apply Hroom; reflexivity).
Qed.

(** C5, amended.  Once its temporary script file is written, which needs
    room for the script in the temporary directory, [run_blender_script]
    returns to its caller for every executable path, script and timeout and
    from every state: when [subprocess.run] times out it returns [False]
    with the text ["Blender process timed out"]; when constructing or
    launching the process raises anything else it returns [False] with the
    text of the exception; and in all cases, a completed process included,
    the temporary script file is gone from the file system when it
    returns. *)
Theorem run_blender_script_total (E : Env) (room : option nat)
    (blender_path script : string) (timeout : nat) (st : State) :
  (forall n, room = Some n -> length (b script) <= n) ->
  exists success output st',
    run_blender_script_on E room blender_path script timeout st
      = (Ok (success, output), st') /\
    fs st' !! mkstemp E ".py" (fs st) = None /\
    match (launched E blender_path script timeout (fs st)).1 with
    | Ok result =>
        success = Z.eqb (returncode result) 0 /\
        output = proc_stdout result +:+ proc_stderr result
    | Raise TimeoutExpired => success = false /\ output = "Blender process timed out"
    | Raise e => success = false /\ output = exn_str e
    end.
Proof.
  intros Hroom. rewrite (run_blender_script_on_room E room _ _ _ _ Hroom).
  rewrite run_blender_script_run.
  eexists _, _, _. split; [apply f_equal2; [apply f_equal; apply surjective_pairing|reflexivity]|].
  split; [apply lookup_delete_eq|].
  destruct (launched E blender_path script timeout (fs st)).1 as [result|e]; [done|].
  destruct e; done.
Qed.

(** A Blender that never answers, and a temporary directory with room for
    ten bytes, which the script needs. *)
Lemma run_blender_script_total_witness :
  exists success output st',
    run_blender_script_on (Sample.env true Sample.hanging_blender None) (Some 10)
      "/usr/bin/blender" "import bpy" 60 Sample.boot = (Ok (success, output), st') /\
    fs st' !! mkstemp (Sample.env true Sample.hanging_blender None) ".py" (fs Sample.boot)
      = None /\
    success = false /\ output = "Blender process timed out".
Proof.
  apply (run_blender_script_total (Sample.env true Sample.hanging_blender None) (Some 10)
           "/usr/bin/blender" "import bpy" 60 Sample.boot).
  intros n [= <-]. simpl. lia.
Defined.

(** ** C4: the verdict of strategies 2, 3 and 4 *)


Lemma verdict_true_iff (E : Env) (blender_path script sentinel : string) (timeout : nat)
    (f : gmap string node) :
  verdict E blender_path script sentinel timeout f = true <->
  clean_exit_with sentinel (launched E blender_path script timeout f).1.
Proof.
  unfold verdict, clean_exit_with.
  destruct (launched E blender_path script timeout f).1 as [result|e]; simpl.
  - rewrite andb_true_iff, Z.eqb_eq. split.
    + intros [Hrc Hs]. now exists result.
    + intros (result' & [= <-] & Hrc & Hs). done.
  - split; [|intros (result & [=] & _)].
    destruct e; simpl; discriminate.
Qed.

(** C4.  Each of strategies 2, 3 and 4 returns a verdict, and the verdict is
    [True] if and only if the Blender process exited with status zero and
    the strategy's sentinel ([REPAIR_SUCCESS] for strategy 2,
    [RECOVERY_SUCCESS] for strategies 3 and 4) occurs in its standard output
    followed by its standard error.  A clean exit without the sentinel, the
    sentinel with another exit status, a timeout and a failed launch all
    give [False]. *)
Theorem strategy_verdict (E : Env) (blender_path input_path output_path : string)
    (st : State) :
  (exists ok st',
     repair_with_blender_open E blender_path input_path output_path st = (Ok ok, st') /\
     (ok = true <->
      clean_exit_with "REPAIR_SUCCESS"
        (launched E blender_path (open_script input_path output_path) 180 (fs st)).1)) /\
  (exists ok st',
     repair_with_append E blender_path input_path output_path st = (Ok ok, st') /\
     (ok = true <->
      clean_exit_with "RECOVERY_SUCCESS"
        (launched E blender_path (append_script input_path output_path) 300 (fs st)).1)) /\
  (exists ok st',
     repair_selective_recovery E blender_path input_path output_path st = (Ok ok, st') /\
     (ok = true <->
      clean_exit_with "RECOVERY_SUCCESS"
        (launched E blender_path (selective_script input_path output_path) 300 (fs st)).1)).
Proof.
  split; [|split].
  - destruct (repair_with_blender_open_acts E [] blender_path input_path output_path st)
      as (ok & st' & bs & Hrun & _ & _ & ->).
    eexists _, st'. split; [exact Hrun|apply verdict_true_iff].
  - destruct (repair_with_append_acts E [] blender_path input_path output_path st)
      as (ok & st' & bs & Hrun & _ & _ & ->).
    eexists _, st'. split; [exact Hrun|apply verdict_true_iff].
  - destruct (repair_selective_recovery_acts E [] blender_path input_path output_path st)
      as (ok & st' & bs & Hrun & _ & _ & ->).
    eexists _, st'. split; [exact Hrun|apply verdict_true_iff].
Qed.

(** ** C9: compressing, then decompressing *)

(** C9.  Take a codec the machine supports, gzip or, where the zstandard
    module is present, zstd, and assume of the library what it promises:
    decoding what it encoded from [payload] yields [payload] and no error.
    Then [compress_blend] of a file holding [payload] followed by
    [decompress_blend] of the result with the same codec both return [True],
    and the restored file holds [payload] byte for byte. *)
Theorem decompress_compress_roundtrip (E : Env) (codec src packed restored : string)
    (payload : bytes) (st : State) :
  codec = "gzip" /\ gzip_decompress E (gzip_compress E payload) = mkStream payload None \/
  codec = "zstd" /\ HAS_ZSTD E = true /\
    zstd_decompress E (zstd_compress E payload) = mkStream payload None ->
  fs st !! src = Some (Data payload) ->
  src <> packed ->
  packed <> restored ->
  fs st !! packed <> Some Denied ->
  fs st !! restored <> Some Denied ->
  exists st1 st2,
    compress_blend E src packed (Some codec) st = (Ok true, st1) /\
    decompress_blend E packed restored (Some codec) st1 = (Ok true, st2) /\
    fs st2 !! restored = Some (Data payload).
Proof.
  intros Hcodec Hsrc Hsp Hpr Hpacked Hrestored.
  destruct (compress_blend_run E src packed codec payload st) as (new & Hc & _); try done.
  { destruct Hcodec as [[-> _]|[-> _]]; auto. }
  eexists _, _. split; [exact Hc|].
  rewrite (decompress_blend_run E packed restored codec (encoder E codec payload) payload).
  - split; [reflexivity|]. simpl. apply lookup_insert_eq.
  - unfold encoder. destruct Hcodec as [[-> Hrt]|(-> & Hz & Hrt)].
    + left. now split.
    + right. rewrite Hz. now repeat split.
  - simpl. apply lookup_insert_eq.
  - exact Hpr.
  - simpl. now rewrite lookup_insert_ne.
Qed.

Lemma decompress_compress_roundtrip_witness :
  exists st1 st2,
    compress_blend (Sample.env true Sample.broken_blender None)
      "/work/scene.blend" "/work/packed.blend" (Some "zstd") Sample.boot = (Ok true, st1) /\
    decompress_blend (Sample.env true Sample.broken_blender None)
      "/work/packed.blend" "/work/restored.blend" (Some "zstd") st1 = (Ok true, st2) /\
    fs st2 !! "/work/restored.blend" = Some (Data Sample.blend400).
Proof.
  apply (decompress_compress_roundtrip (Sample.env true Sample.broken_blender None) "zstd");
    try done.
  right. split; [reflexivity|]. split; [reflexivity|].
  apply sample_zstd_roundtrip.
Defined.

(** ** The calls behind a history *)

Lemma console_only_refl (st : State) : console_only st st.
Proof. split; [reflexivity|]. exists []. now rewrite app_nil_r. Qed.

Lemma console_only_trans (st1 st2 st3 : State) :
  console_only st1 st2 -> console_only st2 st3 -> console_only st1 st3.
Proof.
  intros [Hf1 (n1 & Hs1 & Hb1)] [Hf2 (n2 & Hs2 & Hb2)]. split; [congruence|].
  exists (n1 ++ n2). rewrite Hs2, Hs1, <- app_assoc. split; [reflexivity|].
  now rewrite banners_app, Hb1, Hb2.
Qed.

Lemma console_only_print (s : string) (st : State) :
  String.prefix (nl +:+ "[S") s = false ->
  console_only st (mkState (fs st) (stdout st ++ [s])).
Proof.
  intros Hs. split; [reflexivity|]. exists [s]. split; [reflexivity|].
  unfold banners. simpl. now rewrite (not_banner _ Hs).
Qed.

Lemma attempts_console (E : Env) (bp : option string) (i o : string)
    (tr : list (Strategy * bool)) (st sa st' : State) :
  console_only st sa -> attempts E bp i o tr sa st' -> attempts E bp i o tr st st'.
Proof.
  intros Hc. destruct tr as [|[s v] rest]; simpl.
  - now apply console_only_trans.
  - intros (sa' & sb & Hc' & Hran & Hrest). exists sa', sb.
    split; [exact (console_only_trans _ _ _ Hc Hc')|]. now split.
Qed.

Lemma for_each_print_run (keep : string -> bool) (ls : list string) (st : State) :
  for_each ls (fun line => if keep line then print ("  " +:+ line) else ret tt) st =
  (Ok tt, mkState (fs st)
            (stdout st ++ ((fun line => "  " +:+ line) <$> List.filter keep ls))).
Proof.
  revert st. induction ls as [|l ls IH]; intros st; simpl.
  - unfold ret. rewrite app_nil_r. now destruct st.
  - rewrite bind_run. destruct (keep l).
    + rewrite print_run, IH. cbn [fs stdout]. now rewrite <- app_assoc.
    + unfold ret at 1. apply IH.
Qed.

(** What strategies 2 to 4 do to the files is one run of
    [run_blender_script]. *)
Lemma strategy_files (E : Env) (bp : option string) (i o : string) (s : Strategy)
    (sa sb : State) (v : bool) :
  s <> Strategy1 ->
  ran E bp i o s sa v sb ->
  exists script timeout,
    fs sb = delete (mkstemp E ".py" (fs sa)) (launched E (py_str bp) script timeout (fs sa)).2.
Proof.
  intros Hs Hran. destruct s; [done|..]; simpl in Hran.
  - exists (open_script i o), 180. revert Hran. unfold repair_with_blender_open.
    rewrite bind_run, print_run. cbv beta iota.
    rewrite bind_run, run_blender_script_run. cbv beta iota zeta.
    destruct (_ && _); rewrite bind_run, print_run; intros [= _ <-]; reflexivity.
  - exists (append_script i o), 300. revert Hran. unfold repair_with_append.
    rewrite bind_run, print_run. cbv beta iota.
    rewrite bind_run, run_blender_script_run. cbv beta iota zeta.
    destruct (_ && _); rewrite bind_run, print_run; cbv beta iota.
    + rewrite bind_run, for_each_print_run. intros [= _ <-]. reflexivity.
    + intros [= _ <-]. reflexivity.
  - exists (selective_script i o), 300. revert Hran. unfold repair_selective_recovery.
    rewrite bind_run, print_run. cbv beta iota.
    rewrite bind_run, run_blender_script_run. cbv beta iota zeta.
    destruct (_ && _); rewrite bind_run, print_run; cbv beta iota.
    + rewrite bind_run, for_each_print_run. intros [= _ <-]. reflexivity.
    + intros [= _ <-]. reflexivity.
Qed.

Lemma by_processes_trans (E : Env) (f1 f2 f3 : gmap string node) :
  by_processes E f1 f2 -> by_processes E f2 f3 -> by_processes E f1 f3.
Proof.
  intros H12 H23. induction H12 as [f|f f' bp script timeout _ IH]; [exact H23|].
  eapply by_processes_step, IH, H23.
Qed.

Lemma attempts_by_processes (E : Env) (bp : option string) (i o : string)
    (tr : list (Strategy * bool)) (st st' : State) :
  Strategy1 ∉ tr.*1 ->
  attempts E bp i o tr st st' ->
  by_processes E (fs st) (fs st').
Proof.
  revert st. induction tr as [|[s v] rest IH]; intros st Hno; simpl.
  - intros [-> _]. constructor.
  - intros (sa & sb & [Hfa _] & Hran & Hrest).
    assert (Hs : s <> Strategy1). { intros ->. apply Hno. left. }
    destruct (strategy_files E bp i o s sa sb v Hs Hran) as (script & timeout & Hsb).
    rewrite <- Hfa. eapply by_processes_step. rewrite <- Hsb.
    apply IH; [|exact Hrest]. intros Hin. apply Hno. now right.
Qed.

(** What is at a path that the external process leaves alone, and that is
    there, stays through any number of runs. *)
Lemma by_processes_keeps (E : Env) (q : string) (f f' : gmap string node) :
  names_fresh E -> process_keeps E q ->
  by_processes E f f' -> is_Some (f !! q) -> f' !! q = f !! q.
Proof.
  intros Hfresh Hkeeps Hby. induction Hby as [f|f f' bp script timeout _ IH]; [done|].
  intros [x Hq].
  assert (Hne : mkstemp E ".py" f <> q).
  { intros <-. rewrite Hfresh in Hq. discriminate. }
  assert (Hstep : delete (mkstemp E ".py" f) (launched E bp script timeout f).2 !! q = f !! q).
  { rewrite lookup_delete_ne by done. unfold launched. rewrite Hkeeps.
    now apply lookup_insert_ne. }
  rewrite IH; [exact Hstep|]. rewrite Hstep, Hq. eauto.
Qed.

Ltac console_step :=
  split; [reflexivity|];
  eexists; split; [cbn [fs stdout]; rewrite <- ?app_assoc; reflexivity|reflexivity].

Ltac no_first :=
  let H := fresh in
  simpl; intros H;
  repeat (apply elem_of_cons in H as [H|H]; [discriminate H|]);
  now apply elem_of_nil in H.

(** With an executable, the strategies after the first: the history the
    controller returns is that of the calls it made. *)
Lemma remaining_strategies_traced_chain (E : Env) (bp : option string) (i o : string)
    (st : State) :
  truthy bp = true ->
  exists ok tl st',
    remaining_strategies_traced E bp i o st = (Ok (ok, (Strategy1, false) :: tl), st') /\
    attempts E bp i o tl st st' /\
    Strategy1 ∉ tl.*1.
Proof.
  intros Hbp. unfold remaining_strategies_traced. cbv zeta. rewrite Hbp. cbn [negb]. cbv iota.
  destruct (repair_with_blender_open_acts E [] (py_str bp) i o st)
    as (ok2 & st2 & bs2 & Hrun2 & _).
  rewrite (bind_ok _ _ _ _ _ Hrun2). destruct ok2.
  { rewrite bind_run, print_run. eexists _, [(Strategy2, true)], _.
    split; [reflexivity|]. split; [|no_first].
    exists st, st2. split; [apply console_only_refl|]. split; [exact Hrun2|console_step]. }
  destruct (repair_with_append_acts E [] (py_str bp) i o st2)
    as (ok3 & st3 & bs3 & Hrun3 & _).
  rewrite (bind_ok _ _ _ _ _ Hrun3). destruct ok3.
  { rewrite bind_run, print_run. eexists _, [(Strategy2, false); (Strategy3, true)], _.
    split; [reflexivity|]. split; [|no_first].
    exists st, st2. split; [apply console_only_refl|]. split; [exact Hrun2|].
    exists st2, st3. split; [apply console_only_refl|]. split; [exact Hrun3|console_step]. }
  destruct (repair_selective_recovery_acts E [] (py_str bp) i o st3)
    as (ok4 & st4 & bs4 & Hrun4 & _).
  rewrite (bind_ok _ _ _ _ _ Hrun4). destruct ok4.
  { rewrite bind_run, print_run.
    eexists _, [(Strategy2, false); (Strategy3, false); (Strategy4, true)], _.
    split; [reflexivity|]. split; [|no_first].
    exists st, st2. split; [apply console_only_refl|]. split; [exact Hrun2|].
    exists st2, st3. split; [apply console_only_refl|]. split; [exact Hrun3|].
    exists st3, st4. split; [apply console_only_refl|]. split; [exact Hrun4|console_step]. }
  do 6 (rewrite bind_run, print_run; cbv beta iota).
  eexists _, [(Strategy2, false); (Strategy3, false); (Strategy4, false)], _.
  split; [reflexivity|]. split; [|no_first].
  exists st, st2. split; [apply console_only_refl|]. split; [exact Hrun2|].
  exists st2, st3. split; [apply console_only_refl|]. split; [exact Hrun3|].
  exists st3, st4. split; [apply console_only_refl|]. split; [exact Hrun4|console_step].
Qed.

(** The controller: strategy 1 with its verification, then the others. *)
Lemma strategy_controller_traced_chain (E : Env) (bp : option string) (i o : string)
    (st : State) :
  exists ok1 st1 v sb ok tl st',
    repair_compression E i o st = (Ok ok1, st1) /\
    (if ok1 && truthy bp then
       exists s1' r,
         console_only st1 s1' /\
         run_blender_script E (py_str bp) (verify_script o) 60 s1' = (Ok r, sb) /\
         v = contains "VERIFY_SUCCESS" r.2
     else sb = st1 /\ v = ok1) /\
    by_processes E (fs st1) (fs sb) /\
    strategy_controller_traced E bp i o st = (Ok (ok, (Strategy1, v) :: tl), st') /\
    attempts E bp i o tl sb st' /\
    Strategy1 ∉ tl.*1.
Proof.
  destruct (repair_compression_acts E i o st) as (ok1 & st1 & bs1 & Hrc & _).
  exists ok1, st1. unfold strategy_controller_traced. cbv zeta.
  rewrite (bind_ok _ _ _ _ _ Hrc).
  destruct ok1; [destruct (truthy bp) eqn:Hbp|]; cbn [andb]; cbv iota.
  - rewrite bind_run, print_run. cbv beta iota.
    rewrite bind_run. cbv beta iota.
    pose proof (run_blender_script_run E (py_str bp) (verify_script o) 60
                  (mkState (fs st1) (stdout st1 ++ [nl +:+ "Verifying repaired file..."])))
      as Hv.
    rewrite Hv. cbv beta iota zeta. cbn [fs stdout snd] in Hv |- *.
    destruct (contains "VERIFY_SUCCESS" _) eqn:Hs.
    + rewrite bind_run, print_run. cbv beta iota.
      eexists true, _, _, [], _. split; [exact Hrc|]. split.
      { exists (mkState (fs st1) (stdout st1 ++ [nl +:+ "Verifying repaired file..."])).
        eexists. split; [apply console_only_print; reflexivity|].
        split; [exact Hv|]. cbn [snd]. now rewrite Hs. }
      split.
      { eapply by_processes_step. cbn [fs]. constructor. }
      split; [reflexivity|]. split; [console_step|no_first].
    + rewrite bind_run, print_run. cbv beta iota.
      match goal with
      | |- context [remaining_strategies_traced _ _ _ _ ?s] =>
          destruct (remaining_strategies_traced_chain E bp i o s Hbp)
            as (ok & tl & st' & -> & Hatt & Hno)
      end.
      eexists false, _, ok, tl, st'. split; [exact Hrc|]. split.
      { exists (mkState (fs st1) (stdout st1 ++ [nl +:+ "Verifying repaired file..."])).
        eexists. split; [apply console_only_print; reflexivity|].
        split; [exact Hv|]. cbn [snd]. now rewrite Hs. }
      split.
      { eapply by_processes_step. cbn [fs]. constructor. }
      split; [reflexivity|]. split; [|exact Hno].
      eapply attempts_console; [|exact Hatt]. apply console_only_print. reflexivity.
  - rewrite bind_run, print_run. cbv beta iota.
    eexists true, st1, true, [], _. split; [exact Hrc|]. split; [now split|].
    split; [constructor|]. split; [reflexivity|]. split; [console_step|no_first].
  - destruct (truthy bp) eqn:Hbp.
    + destruct (remaining_strategies_traced_chain E bp i o st1 Hbp)
        as (ok & tl & st' & -> & Hatt & Hno).
      eexists false, st1, ok, tl, st'. split; [exact Hrc|]. split; [now split|].
      split; [constructor|]. now split.
    + unfold remaining_strategies_traced. cbv zeta. rewrite Hbp. cbn [negb]. cbv iota.
      rewrite bind_run, print_run. cbv beta iota.
      eexists false, st1, false, [], _. split; [exact Hrc|]. split; [now split|].
      split; [constructor|]. split; [reflexivity|]. split; [console_step|no_first].
Qed.

(** ** C1: the order of the strategies *)


Lemma controller_outcomes_ordered (r : bool * list (Strategy * bool)) :
  r ∈ controller_outcomes -> first_success_wins r.1 r.2.
Proof.
  unfold controller_outcomes. intros Hr.
  repeat (apply elem_of_cons in Hr as [->|Hr]); [..|now apply elem_of_nil in Hr].
  all: split; [|split].
  all: try (simpl; intros ?; discriminate).
  all: try (simpl;
            first [ exists 1; reflexivity | exists 2; reflexivity
                  | exists 3; reflexivity | exists 4; reflexivity ]).
  all: intros i s v Hi; simpl in Hi |- *.
  all: repeat (destruct i as [|i]; simpl in Hi;
               [ injection Hi as <- <-;
                 split;
                 [ intros Hv; first [discriminate Hv | split; reflexivity]
                 | intros [Hlen Hok];
                   first [reflexivity | discriminate Hlen | discriminate Hok] ]
               | ]).
  all: discriminate Hi.
Qed.

(** C1.  Every repair session returns, and the strategies it ran, with the
    verdicts the controller acted on, form a history in which: the strategies
    are an initial segment of 1, 2, 3, 4 in that order (so none runs twice
    and none is revisited); a strategy is followed by another only if its own
    verdict was failure; a verdict of success is the last entry and makes the
    session succeed; and a session succeeds only through such a verdict.  The
    history is that of the calls the session made: from the state [st0] in
    which the session has validated its input, made its backup and printed
    its heading, each strategy of the history was called, in this order, and
    returned the verdict the history gives it (for strategy 1, what
    [repair_compression] returned and, where it was run, what the
    verification found), and between the calls the session only printed.
    The banners the session prints on the console are those of this history,
    and the result is that of [repair_blend_file]. *)
Theorem strategies_in_fixed_order (E : Env) (input : string) (output blender : option string)
    (st : State) :
  let input_path := abspath E input in
  let output_path := resolve_output E input_path output in
  exists ok tr st0 st',
    repair_session E input output blender st = (Ok (ok, tr), st') /\
    repair_blend_file E input output blender st = (Ok ok, st') /\
    banners (stdout st') = banners (stdout st) ++ tr.*1 /\
    first_success_wins ok tr /\
    (forall q, q <> input_path +:+ ".backup" -> fs st0 !! q = fs st !! q) /\
    banners (stdout st0) = banners (stdout st) /\
    attempts E (resolve_blender E blender) input_path output_path tr st0 st'.
Proof.
  intros input_path output_path.
  assert (Habort : forall line,
    repair_session E input output blender st =
      (Ok (false, []), mkState (fs st) (stdout st ++ [line])) ->
    String.prefix (nl +:+ "[S") line = false ->
    exists ok tr st0 st',
      repair_session E input output blender st = (Ok (ok, tr), st') /\
      repair_blend_file E input output blender st = (Ok ok, st') /\
      banners (stdout st') = banners (stdout st) ++ tr.*1 /\
      first_success_wins ok tr /\
      (forall q, q <> input_path +:+ ".backup" -> fs st0 !! q = fs st !! q) /\
      banners (stdout st0) = banners (stdout st) /\
      attempts E (resolve_blender E blender) input_path output_path tr st0 st').
  { intros line Hrun Hline. eexists _, _, st, _. split; [exact Hrun|].
    split; [now rewrite repair_session_erasure, Hrun|].
    split; [apply (effect_print E line [] st Hline)|].
    split; [split; [now exists 0|]; split; [intros i s v [=]|done]|].
    split; [done|]. split; [done|]. now apply console_only_print. }
  pose proof (repair_session_run E input output blender st) as Hrun. cbv zeta in Hrun.
  fold input_path in Hrun. fold output_path in Hrun.
  destruct (fs st !! input_path) as [[data|]|];
    [|now apply (Habort _ Hrun)..].
  destruct (valid_container data); [|now apply (Habort _ Hrun)].
  destruct Hrun as (new & Hnew & Hrun).
  set (st0 := mkState (with_backup input_path data (fs st)) (stdout st ++ new)) in *.
  destruct (strategy_controller_traced_spec E (resolve_blender E blender) input_path
              output_path st0)
    as (ok1 & st1 & [ok tr] & st' & _ & [Hb1 _] & Hctl & [Hb2 _] & Hin & _).
  destruct (strategy_controller_traced_chain E (resolve_blender E blender) input_path
              output_path st0)
    as (ok1' & st1' & v & sb & ok' & tl & st'' & Hrc & Hver & _ & Hctl' & Hatt & _).
  rewrite Hctl in Hctl'. injection Hctl' as -> -> ->.
  exists ok', ((Strategy1, v) :: tl), st0, st''. rewrite Hctl in Hrun.
  split; [exact Hrun|]. split; [now rewrite repair_session_erasure, Hrun|].
  pose proof (controller_outcomes_ordered _ Hin) as Hord.
  split; [|split; [exact Hord|]].
  - rewrite Hb2, Hb1. unfold st0. cbn [stdout].
    rewrite banners_app, Hnew, app_nil_r, <- app_assoc. reflexivity.
  - split; [|split].
    + intros q Hq. unfold st0, with_backup. cbn [fs]. cbv zeta.
      destruct (fs st !! (input_path +:+ ".backup")); [reflexivity|].
      now apply lookup_insert_ne.
    + unfold st0. cbn [stdout]. now rewrite banners_app, Hnew, app_nil_r.
    + exists st0, sb. split; [apply console_only_refl|]. split; [|exact Hatt].
      exists ok1', st1'. now split.
Qed.

(** ** C2: a session without an executable *)

(** C2, as the spec states it, fails: with no Blender to be found and an
    input that is a valid uncompressed container, strategy 1 compresses the
    file, and the session ends with the unverified-success line and the
    result [True]; the early-exhaustion line is never printed. *)
Lemma no_executable_uncompressed_succeeds :
  resolve_blender (Sample.env true Sample.broken_blender None) None = None /\
  get_compression_type "/work/scene.blend" Sample.boot = (Ok None, Sample.boot) /\
  is_blend_file "/work/scene.blend" Sample.boot = (Ok true, Sample.boot) /\
  (repair_blend_file (Sample.env true Sample.broken_blender None)
     "scene.blend" None None Sample.boot).1 = Ok true /\
  last (stdout (repair_blend_file (Sample.env true Sample.broken_blender None)
                  "scene.blend" None None Sample.boot).2)
    = Some (unverified "/work/scene_repaired.blend") /\
  early_exhaustion ∉
    stdout (repair_blend_file (Sample.env true Sample.broken_blender None)
              "scene.blend" None None Sample.boot).2.
Proof.
  repeat split; try (vm_compute; reflexivity).
  intros Hin. apply list_elem_of_In in Hin. vm_compute in Hin.
  repeat (destruct Hin as [Hin|Hin]; [discriminate Hin|]). exact Hin.
Qed.

(** ** A file transcoded onto itself *)

(** Reading a file into a handle opened for writing on the same path: the
    path is truncated when the handle is opened, so nothing is left to
    read. *)
Lemma transcode_in_place (path : string) (data : bytes) (enc : bytes -> bytes) (st : State) :
  fs st !! path = Some (Data data) ->
  (open_rb path ;; open_wb path ;; d <- read_handle path ;;
   write_handle path (enc d) ;; ret true) st =
  (Ok true, mkState (<[path := Data (enc [])]> (fs st)) (stdout st)).
Proof.
  intros Hf. unfold bind, open_rb, open_wb, read_handle, write_handle, ret, set_fs.
  rewrite Hf. simpl. rewrite Hf. simpl. rewrite lookup_insert_eq.
  cbn [fs stdout]. now rewrite insert_insert_eq.
Qed.

(** Strategy 1 on an uncompressed container whose output path is the input
    path. *)
Lemma repair_compression_in_place (E : Env) (path : string) (data : bytes) (st : State) :
  fs st !! path = Some (Data data) ->
  take 4 data = b "BLEN" ->
  exists new,
    repair_compression E path path st =
      (Ok true, mkState (<[path := Data (encoder E "zstd" [])]> (fs st)) (stdout st ++ new)).
Proof.
  intros Hin Hmagic. unfold repair_compression.
  rewrite bind_run, print_run. cbv beta iota.
  rewrite bind_run, get_compression_type_run. cbn [fs]. rewrite Hin. cbv beta iota zeta.
  rewrite !Hmagic.
  change (bool_decide (take 2 (b "BLEN") = [x1f; x8b])) with false.
  change (bool_decide (b "BLEN" = [x28; xb5; x2f; xfd])) with false.
  change (bool_decide (take 4 (b "BLEN") = b "BLEN")) with true. cbv iota.
  rewrite bind_run, print_run. cbv beta iota. eval_tests.
  rewrite bind_run, print_run. cbv beta iota.
  unfold compress_blend, compress_gzip_or_fail, try_except, encoder.
  change (is_str (Some "zstd") "zstd") with true. cbv iota.
  change ("zstd" =? "zstd")%string with true.
  destruct (HAS_ZSTD E); cbn [negb andb]; cbv iota.
  - rewrite (transcode_in_place path data) by exact Hin.
    cbn [fs stdout]. rewrite <- !app_assoc. eexists. reflexivity.
  - rewrite bind_run, print_run. cbv beta iota.
    change (is_str (Some "gzip") "gzip") with true. cbv iota.
    rewrite (transcode_in_place path data) by exact Hin.
    cbn [fs stdout]. rewrite <- !app_assoc. eexists. reflexivity.
Qed.

(** ** The lines a run prints *)

Lemma says_silent {A} (P : string -> Prop) (Q : Res A -> Prop) (m : M A) :
  (forall st, exists r st', m st = (r, st') /\ stdout st' = stdout st) -> says P Q m.
Proof.
  intros Hm st. destruct (Hm st) as (r & st' & Hrun & Hout).
  exists r, st', []. rewrite app_nil_r. now repeat split.
Qed.

Lemma says_ret {A} (P : string -> Prop) (Q : Res A -> Prop) (a : A) : says P Q (ret a).
Proof. apply says_silent. intros st. now eexists _, _. Qed.

Lemma says_raise {A} (P : string -> Prop) (Q : Res A -> Prop) (e : exn) :
  says P Q (@raise A e).
Proof. apply says_silent. intros st. now eexists _, _. Qed.

Lemma says_print (P : string -> Prop) (Q : Res unit -> Prop) (s : string) :
  P s -> says P Q (print s).
Proof.
  intros Hs st. eexists _, _, [s]. split; [reflexivity|]. split; [reflexivity|].
  intros _. now constructor.
Qed.

Lemma says_bind {A B} (P : string -> Prop) (Q : Res B -> Prop) (m : M A) (k : A -> M B) :
  says P (fun _ => True) m -> (forall a, says P Q (k a)) -> says P Q (bind m k).
Proof.
  intros Hm Hk st. destruct (Hm st) as (r & st1 & n1 & Hrun & Hout & HP).
  rewrite bind_run, Hrun. destruct r as [a|e].
  - destruct (Hk a st1) as (r2 & st2 & n2 & -> & Hout2 & HP2).
    exists r2, st2, (n1 ++ n2). split; [reflexivity|].
    split; [now rewrite Hout2, Hout, app_assoc|].
    intros HQ. apply Forall_app. split; [now apply HP|now apply HP2].
  - exists (Raise e), st1, n1. split; [reflexivity|]. split; [exact Hout|].
    intros _. now apply HP.
Qed.

Lemma says_try_except {A} (P : string -> Prop) (Q : Res A -> Prop) (m : M A)
    (h : exn -> M A) :
  says P (fun _ => True) m -> (forall e, says P Q (h e)) -> says P Q (try_except m h).
Proof.
  intros Hm Hh st. destruct (Hm st) as (r & st1 & n1 & Hrun & Hout & HP).
  unfold try_except. rewrite Hrun. destruct r as [a|e].
  - exists (Ok a), st1, n1. split; [reflexivity|]. split; [exact Hout|].
    intros _. now apply HP.
  - destruct (Hh e st1) as (r2 & st2 & n2 & -> & Hout2 & HP2).
    exists r2, st2, (n1 ++ n2). split; [reflexivity|].
    split; [now rewrite Hout2, Hout, app_assoc|].
    intros HQ. apply Forall_app. split; [now apply HP|now apply HP2].
Qed.

Lemma says_try_finally {A} (P : string -> Prop) (Q : Res A -> Prop) (m : M A)
    (c : M unit) :
  says P (fun _ => True) m -> says P (fun _ => True) c -> says P Q (try_finally m c).
Proof.
  intros Hm Hc st. destruct (Hm st) as (r & st1 & n1 & Hrun & Hout & HP).
  destruct (Hc st1) as (r2 & st2 & n2 & Hrun2 & Hout2 & HP2).
  unfold try_finally. rewrite Hrun, Hrun2.
  assert (Hall : Forall P (n1 ++ n2)).
  { apply Forall_app. split; [now apply HP|now apply HP2]. }
  destruct r2 as [[]|e]; eexists _, st2, (n1 ++ n2);
    (split; [reflexivity|]; split; [now rewrite Hout2, Hout, app_assoc|now intros _]).
Qed.

Lemma says_open_rb (P : string -> Prop) (Q : Res unit -> Prop) (p : string) :
  says P Q (open_rb p).
Proof.
  apply says_silent. intros st. unfold open_rb.
  destruct (fs st !! p) as [[d|]|]; now eexists _, _.
Qed.

Lemma says_open_wb (P : string -> Prop) (Q : Res unit -> Prop) (p : string) :
  says P Q (open_wb p).
Proof.
  apply says_silent. intros st. unfold open_wb.
  destruct (fs st !! p) as [[d|]|]; now eexists _, _.
Qed.

Lemma says_read_handle (P : string -> Prop) (Q : Res bytes -> Prop) (p : string) :
  says P Q (read_handle p).
Proof.
  apply says_silent. intros st. unfold read_handle.
  destruct (fs st !! p) as [[d|]|]; now eexists _, _.
Qed.

Lemma says_write_handle (P : string -> Prop) (Q : Res unit -> Prop) (p : string)
    (d : bytes) :
  says P Q (write_handle p d).
Proof. apply says_silent. intros st. now eexists _, _. Qed.

Lemma says_copy_stream (P : string -> Prop) (Q : Res unit -> Prop) (s : stream)
    (p : string) :
  says P Q (copy_stream s p).
Proof.
  unfold copy_stream. apply says_bind; [apply says_write_handle|]. intros _.
  destruct (failure s); [apply says_raise|apply says_ret].
Qed.

Lemma says_transcode (P : string -> Prop) (Q : Res bool -> Prop) (src dst : string)
    (k : bytes -> M unit) :
  (forall d, says P (fun _ => True) (k d)) ->
  says P Q (open_rb src ;; open_wb dst ;; data <- read_handle src ;; k data ;; ret true).
Proof.
  intros Hk.
  apply says_bind; [apply says_open_rb|]. intros _.
  apply says_bind; [apply says_open_wb|]. intros _.
  apply says_bind; [apply says_read_handle|]. intros data.
  apply says_bind; [apply Hk|]. intros _. apply says_ret.
Qed.

(** The early-exhaustion diagnostic is the one line of the program that
    starts with a line feed and [[!]]. *)
Lemma not_the_diagnostic (line : string) :
  String.prefix (nl +:+ "[!]") line = false -> line <> early_exhaustion.
Proof. intros Hp ->. discriminate Hp. Qed.

Ltac say :=
  first
    [ apply says_ret
    | apply says_print; apply not_the_diagnostic; reflexivity
    | apply says_bind; [say|intros ?] ].

Section Diagnostic.

Variable E : Env.

Let P (line : string) : Prop := line <> early_exhaustion.

Lemma compress_blend_says (Q : Res bool -> Prop) (i o : string) (c : option string) :
  says P Q (compress_blend E i o c).
Proof.
  unfold compress_blend.
  assert (Hgz : forall c', says P (fun _ => True) (compress_gzip_or_fail E i o c')).
  { intros c'. unfold compress_gzip_or_fail. destruct (is_str c' "gzip"); [|apply says_ret].
    apply (says_transcode P _ i o (fun data => write_handle o (gzip_compress E data))).
    intros d. apply says_write_handle. }
  apply says_try_except.
  - destruct (is_str c "zstd"); [destruct (negb (HAS_ZSTD E))|].
    + say. apply Hgz.
    + apply (says_transcode P _ i o (fun data => write_handle o (zstd_compress E data))).
      intros d. apply says_write_handle.
    + apply Hgz.
  - intros e. say. apply says_ret.
Qed.

Lemma decompress_blend_says (Q : Res bool -> Prop) (i o : string) (c : option string) :
  says P Q (decompress_blend E i o c).
Proof.
  unfold decompress_blend. apply says_bind.
  { destruct c; [apply says_ret|]. apply says_silent. intros st.
    rewrite get_compression_type_run. now eexists _, _. }
  intros kind. apply says_try_except.
  - destruct (is_str kind "zstd"); [destruct (negb (HAS_ZSTD E))|destruct (is_str kind "gzip")].
    + say. apply says_ret.
    + apply (says_transcode P _ i o (fun data => copy_stream (zstd_decompress E data) o)).
      intros d. apply says_copy_stream.
    + apply (says_transcode P _ i o (fun data => copy_stream (gzip_decompress E data) o)).
      intros d. apply says_copy_stream.
    + say. apply says_ret.
  - intros e. say. apply says_ret.
Qed.

Lemma repair_compression_says (Q : Res bool -> Prop) (i o : string) :
  says P Q (repair_compression E i o).
Proof.
  unfold repair_compression.
  say.
  apply says_bind.
  { apply says_silent. intros st. rewrite get_compression_type_run. now eexists _, _. }
  intros compression. say.
  destruct (is_str compression "zstd" && negb (HAS_ZSTD E)).
  { say. say. apply says_ret. }
  destruct (negb (truthy compression) || is_str compression "unknown").
  { say. apply compress_blend_says. }
  apply says_bind.
  { apply says_silent. intros st. now eexists _, _. }
  intros tmp. apply says_try_finally.
  - say. apply says_bind; [apply decompress_blend_says|]. intros ok.
    destruct ok; cbn [negb]; [|apply says_ret].
    apply says_bind.
    { apply says_silent. intros st. rewrite is_blend_file_run. now eexists _, _. }
    intros valid. destruct valid; cbn [negb]; [|say; apply says_ret].
    say. apply says_bind; [apply compress_blend_says|]. intros ok.
    destruct ok; [say|]; apply says_ret.
  - apply says_silent. intros st. rewrite unlink_if_exists_run. now eexists _, _.
Qed.

(** Without an executable, a session that returns [True] has not printed
    the diagnostic. *)
Lemma session_says (input : string) (output blender : option string) :
  truthy (resolve_blender E blender) = false ->
  says P (fun r => r = Ok true) (repair_blend_file E input output blender).
Proof.
  intros Hnone. unfold repair_blend_file. cbv zeta.
  apply says_bind; [apply says_silent; intros st; now eexists _, _|]. intros ex.
  destruct ex; cbn [negb]; [|say; apply says_ret].
  apply says_bind.
  { apply says_silent. intros st. rewrite is_blend_file_run. now eexists _, _. }
  intros valid. destruct valid; cbn [negb]; [|say; apply says_ret].
  apply says_bind; [apply says_silent; intros st; now eexists _, _|]. intros backed_up.
  apply says_bind.
  { destruct backed_up; cbn [negb]; [apply says_ret|]. say. unfold copy2.
    apply says_bind; [apply says_open_rb|]. intros _.
    apply says_bind; [apply says_open_wb|]. intros _.
    apply says_bind; [apply says_read_handle|]. intros d. apply says_write_handle. }
  intros _. do 5 say.
  apply says_bind.
  { apply says_silent. intros st.
    destruct (get_blend_version_pure E (abspath E input) st) as [v Hv]. rewrite Hv.
    now eexists _, _. }
  intros version. apply says_bind.
  { destruct (truthy version); [say|apply says_ret]. }
  intros _. apply says_bind.
  { apply says_silent. intros st. rewrite get_compression_type_run. now eexists _, _. }
  intros compression. say. rewrite Hnone. say.
  unfold strategy_controller. cbv zeta. rewrite Hnone.
  apply says_bind; [apply repair_compression_says|]. intros ok1.
  destruct ok1.
  - say. apply says_ret.
  - unfold remaining_strategies. cbv zeta. rewrite Hnone. cbn [negb]. cbv iota.
    intros st. eexists _, _, [_]. split; [reflexivity|]. split; [reflexivity|].
    intros [=].
Qed.

End Diagnostic.

(** C2, amended.  When no executable is resolved, a session that gets past
    validation runs strategy 1 and nothing else: [repair_compression] is
    called once, after the backup is made, and from its return to the end
    of the session the program only prints, so strategies 2 to 4 are not
    attempted and do not count as failed.  If strategy 1 fails the session
    fails and its last line is the early-exhaustion diagnostic; if strategy 1
    succeeds the session succeeds, its last line reports the unverified
    repair, and the diagnostic is not among the lines the session printed.
    Strategy 1 does succeed when the input is an uncompressed container and
    the output path can be written. *)
Theorem no_executable_runs_strategy1_only (E : Env) (input : string)
    (output blender : option string) (st : State) (data : bytes) :
  let input_path := abspath E input in
  let output_path := resolve_output E input_path output in
  truthy (resolve_blender E blender) = false ->
  fs st !! input_path = Some (Data data) ->
  valid_container data = true ->
  exists ok st0 st1 st' new,
    repair_session E input output blender st = (Ok (ok, [(Strategy1, ok)]), st') /\
    repair_blend_file E input output blender st = (Ok ok, st') /\
    fs st0 = with_backup input_path data (fs st) /\
    repair_compression E input_path output_path st0 = (Ok ok, st1) /\
    console_only st1 st' /\
    banners (stdout st') = banners (stdout st) ++ [Strategy1] /\
    last (stdout st') = Some (if ok then unverified output_path else early_exhaustion) /\
    stdout st' = stdout st ++ new /\
    (ok = true -> early_exhaustion ∉ new) /\
    (take 4 data = b "BLEN" -> fs st !! output_path <> Some Denied -> ok = true).
Proof.
  intros input_path output_path Hnone Hin Hvalid.
  pose proof (repair_session_run E input output blender st) as Hrun. cbv zeta in Hrun.
  fold input_path in Hrun. fold output_path in Hrun. rewrite Hin, Hvalid in Hrun.
  destruct Hrun as (new0 & Hnew & Hrun).
  set (st0 := mkState (with_backup input_path data (fs st)) (stdout st ++ new0)) in *.
  destruct (strategy_controller_traced_spec E (resolve_blender E blender) input_path
              output_path st0)
    as (ok1 & st1 & r & st' & Hrc & [Hb1 _] & Hctl & [Hb2 _] & _ & _ & Hno).
  destruct (Hno Hnone) as [-> Hlast]. clear Hno.
  destruct (strategy_controller_traced_chain E (resolve_blender E blender) input_path
              output_path st0)
    as (ok1' & st1' & v & sb & ok' & tl & st'' & Hrc' & Hver & _ & Hctl' & Hatt & _).
  rewrite Hrc in Hrc'. injection Hrc' as <- <-.
  rewrite Hctl in Hctl'. injection Hctl' as _ _ <- <-.
  rewrite Hnone, andb_false_r in Hver. destruct Hver as [-> _]. simpl in Hatt.
  rewrite Hctl in Hrun.
  assert (Hfile : repair_blend_file E input output blender st = (Ok ok1, st')).
  { now rewrite repair_session_erasure, Hrun. }
  destruct (session_says E input output blender Hnone st)
    as (r & st2 & new & Hsays & Hout & HP).
  rewrite Hfile in Hsays. injection Hsays as <- <-.
  exists ok1, st0, st1, st', new.
  split; [exact Hrun|]. split; [exact Hfile|]. split; [reflexivity|].
  split; [exact Hrc|]. split; [exact Hatt|].
  split; [|split; [exact Hlast|split; [exact Hout|split]]].
  - rewrite Hb2, Hb1. unfold st0. cbn [stdout]. now rewrite banners_app, Hnew, !app_nil_r.
  - intros -> Hthere. specialize (HP eq_refl).
    rewrite Forall_forall in HP. now apply (HP _ Hthere).
  - intros Hmagic Hout'.
    assert (Hin0 : fs st0 !! input_path = Some (Data data)).
    { unfold st0, with_backup. cbn [fs]. cbv zeta.
      destruct (fs st !! (input_path +:+ ".backup")); [exact Hin|].
      rewrite lookup_insert_ne by (apply string_app_neq; done). exact Hin. }
    destruct (decide (input_path = output_path)) as [Heq|Hne].
    + destruct (repair_compression_in_place E input_path data st0 Hin0 Hmagic)
        as (new' & Hrun'). rewrite <- Heq, Hrun' in Hrc. now injection Hrc.
    + destruct (repair_compression_uncompressed E input_path output_path data st0)
        as (new' & Hrun'); try done.
      * unfold st0, with_backup. cbn [fs]. cbv zeta.
        destruct (fs st !! (input_path +:+ ".backup")) eqn:Hb; [exact Hout'|].
        destruct (decide (input_path +:+ ".backup" = output_path)) as [<-|Hneq].
        -- now rewrite lookup_insert_eq.
        -- now rewrite lookup_insert_ne.
      * rewrite Hrun' in Hrc. now injection Hrc.
Qed.

Lemma no_executable_runs_strategy1_only_witness :
  exists ok st0 st1 st' new,
    repair_session (Sample.env true Sample.broken_blender None)
      "scene.blend" None None Sample.boot = (Ok (ok, [(Strategy1, ok)]), st') /\
    repair_blend_file (Sample.env true Sample.broken_blender None)
      "scene.blend" None None Sample.boot = (Ok ok, st') /\
    fs st0 = with_backup "/work/scene.blend" Sample.blend400 (fs Sample.boot) /\
    repair_compression (Sample.env true Sample.broken_blender None)
      "/work/scene.blend" "/work/scene_repaired.blend" st0 = (Ok ok, st1) /\
    console_only st1 st' /\
    banners (stdout st') = banners (stdout Sample.boot) ++ [Strategy1] /\
    last (stdout st') =
      Some (if ok then unverified "/work/scene_repaired.blend" else early_exhaustion) /\
    stdout st' = stdout Sample.boot ++ new /\
    (ok = true -> early_exhaustion ∉ new) /\
    (take 4 Sample.blend400 = b "BLEN" ->
     fs Sample.boot !! "/work/scene_repaired.blend" <> Some Denied -> ok = true).
Proof.
  exact (no_executable_runs_strategy1_only (Sample.env true Sample.broken_blender None)
           "scene.blend" None None Sample.boot Sample.blend400 eq_refl eq_refl eq_refl).
Defined.

(** ** C6: the backup *)

(** C6, as the spec states it, fails: the output path may be the backup
    path.  A first session creates the backup as a copy of the input; a
    second session on the same input, told to write its output to
    [<input>.backup], has strategy 1 overwrite the backup with compressed
    bytes. *)
Lemma backup_overwritten_when_output_is_backup :
  fs (repair_blend_file (Sample.env true Sample.broken_blender None)
        "scene.blend" None None Sample.boot).2 !! "/work/scene.blend.backup"
    = Some (Data Sample.blend400) /\
  fs (repair_blend_file (Sample.env true Sample.broken_blender None)
        "scene.blend" (Some "scene.blend.backup") None
        (repair_blend_file (Sample.env true Sample.broken_blender None)
           "scene.blend" None None Sample.boot).2).2 !! "/work/scene.blend.backup"
    = Some (Data (Sample.zstd_magic ++ Sample.blend400)).
Proof. split; vm_compute; reflexivity. Qed.

(** C6, amended.  Let the output path of the session differ from
    [<input>.backup], let temporary files get new names and let the external
    process leave the backup path alone.  Then the session returns, and the
    backup path holds afterwards exactly what it held before if it existed
    (so it is never overwritten or deleted, and a second session leaves the
    backup of the first untouched); if it did not exist, it holds a copy of
    the input when the input is a readable valid container, and still does
    not exist otherwise. *)
Theorem backup_written_once (E : Env) (input : string) (output blender : option string)
    (st : State) :
  let input_path := abspath E input in
  let backup_path := input_path +:+ ".backup" in
  names_fresh E ->
  process_keeps E backup_path ->
  resolve_output E input_path output <> backup_path ->
  exists ok st',
    repair_blend_file E input output blender st = (Ok ok, st') /\
    fs st' !! backup_path =
      match fs st !! backup_path with
      | Some old => Some old
      | None =>
          match fs st !! input_path with
          | Some (Data data) => if valid_container data then Some (Data data) else None
          | _ => None
          end
      end.
Proof.
  intros input_path backup_path Hfresh Hkeeps Hout.
  assert (Habort : forall line,
    repair_session E input output blender st =
      (Ok (false, []), mkState (fs st) (stdout st ++ [line])) ->
    forall other, (fs st !! backup_path = None -> other = None) ->
    exists ok st',
      repair_blend_file E input output blender st = (Ok ok, st') /\
      fs st' !! backup_path =
        match fs st !! backup_path with Some old => Some old | None => other end).
  { intros line Hrun other Hother. eexists _, _.
    split; [now rewrite repair_session_erasure, Hrun|]. cbn [erase fs snd].
    destruct (fs st !! backup_path); [reflexivity|now rewrite Hother]. }
  pose proof (repair_session_run E input output blender st) as Hrun. cbv zeta in Hrun.
  fold input_path in Hrun.
  destruct (fs st !! input_path) as [[data|]|] eqn:Hin;
    [|now apply (Habort _ Hrun)..].
  destruct (valid_container data); [|now apply (Habort _ Hrun)].
  destruct Hrun as (new & Hnew & Hrun).
  match type of Hrun with
  | _ = strategy_controller_traced _ ?bp ?i ?o ?s =>
      destruct (strategy_controller_traced_spec E bp i o s)
        as (ok1 & st1 & [ok tr] & st' & _ & [_ Hf1] & Hctl & [_ Hf2] & _)
  end.
  exists ok, st'. rewrite Hctl in Hrun.
  split; [now rewrite repair_session_erasure, Hrun|].
  cbn [fs] in Hf1.
  assert (Hheld : fs st1 !! backup_path = with_backup input_path data (fs st) !! backup_path).
  { apply Hf1; try done.
    - unfold with_backup. fold backup_path.
      destruct (fs st !! backup_path) eqn:Hb; [now rewrite Hb|].
      rewrite lookup_insert_eq. eauto.
    - intros ->%list_elem_of_singleton. done. }
  rewrite Hf2; try done.
  - rewrite Hheld. unfold with_backup. fold backup_path.
    destruct (fs st !! backup_path) eqn:Hb; [exact Hb|apply lookup_insert_eq].
  - rewrite Hheld. unfold with_backup. fold backup_path.
    destruct (fs st !! backup_path) eqn:Hb; [now rewrite Hb|].
    rewrite lookup_insert_eq. eauto.
  - apply not_elem_of_nil.
Qed.

(** A second session, whatever output and executable it is given, finds the
    backup of the first and leaves it as it is. *)
Lemma backup_written_once_witness :
  exists ok st',
    repair_blend_file (Sample.env true Sample.broken_blender None)
      "scene.blend" (Some "again.blend") (Some "/usr/bin/blender")
      (repair_blend_file (Sample.env true Sample.broken_blender None)
         "scene.blend" None None Sample.boot).2 = (Ok ok, st') /\
    fs st' !! "/work/scene.blend.backup" = Some (Data Sample.blend400).
Proof.
  exact (backup_written_once (Sample.env true Sample.broken_blender None)
           "scene.blend" (Some "again.blend") (Some "/usr/bin/blender")
           (repair_blend_file (Sample.env true Sample.broken_blender None)
              "scene.blend" None None Sample.boot).2
           (sample_names_fresh true Sample.broken_blender None)
           (sample_process_keeps true None "/work/scene.blend.backup")
           ltac:(vm_compute; discriminate)).
Defined.

(** ** C7: what a failed strategy leaves at the output path *)

(** C7, as the spec states it, fails: strategy 1 writes its candidate to the
    output path, its verification fails, strategies 2 to 4 fail, the session
    fails, and the candidate is still at the output path, which did not
    exist before. *)
Lemma failed_session_keeps_candidate :
  fs Sample.boot !! "/work/scene_repaired.blend" = None /\
  (repair_session (Sample.env false Sample.broken_blender (Some "/usr/bin/blender"))
     "scene.blend" None None Sample.boot).1
    = Ok (false, [(Strategy1, false); (Strategy2, false); (Strategy3, false); (Strategy4, false)]) /\
  (repair_blend_file (Sample.env false Sample.broken_blender (Some "/usr/bin/blender"))
     "scene.blend" None None Sample.boot).1 = Ok false /\
  fs (repair_blend_file (Sample.env false Sample.broken_blender (Some "/usr/bin/blender"))
        "scene.blend" None None Sample.boot).2 !! "/work/scene_repaired.blend"
    = Some (Data (Sample.gzip_magic ++ Sample.blend400)).
Proof. repeat split; vm_compute; reflexivity. Qed.

(** Once strategy 1 has returned, nothing the controller does removes or
    rewrites what is at the output path: not the verification, not the
    strategies that follow, not the end of a failed session. *)
Lemma controller_keeps_candidate (E : Env) (blender_path : option string)
    (input_path output_path : string) (st : State) :
  names_fresh E ->
  process_keeps E output_path ->
  exists ok1 st1 r st',
    repair_compression E input_path output_path st = (Ok ok1, st1) /\
    strategy_controller_traced E blender_path input_path output_path st = (Ok r, st') /\
    (is_Some (fs st1 !! output_path) -> fs st' !! output_path = fs st1 !! output_path).
Proof.
  intros Hfresh Hkeeps.
  destruct (strategy_controller_traced_spec E blender_path input_path output_path st)
    as (ok1 & st1 & r & st' & Hrc & _ & Hctl & [_ Hf2] & _).
  exists ok1, st1, r, st'. split; [exact Hrc|]. split; [exact Hctl|].
  intros Hthere. apply Hf2; try done. apply not_elem_of_nil.
Qed.

(** The same with a Blender that writes to the output path before it fails:
    each of strategies 2, 3 and 4 fails, the session fails, and what the
    process wrote is still at the output path. *)
Example scribbled_output_is_kept :
  (repair_blend_file (Sample.env true scribbling_blender (Some "/usr/bin/blender"))
     "scene.blend" None None Sample.boot).1 = Ok false /\
  fs (repair_blend_file (Sample.env true scribbling_blender (Some "/usr/bin/blender"))
        "scene.blend" None None Sample.boot).2 !! "/work/scene_repaired.blend"
    = Some (Data (b "BLENDER-v4")).
Proof. split; vm_compute; reflexivity. Qed.

(** C7, amended.  A strategy that fails does not clean the output path, and
    neither does the controller.  For an input that passes validation the
    session returns, and: [repair_compression] is called once, after the
    backup is made; from its return to the end of the session every change
    of the file system is a run of [run_blender_script], that is, the doing
    of a Blender process or the removal of the script file of that run;
    the history of the session is that of the calls made, and between two
    calls the program only prints, so the next strategy starts with what the
    one before left at the output path, and what the last one left is there
    at the end, on total failure too.  Hence, with temporary files under new
    names and an external process that leaves the output path alone, what
    was at the output path when [repair_compression] returned is there at
    the end; for an uncompressed container, with an output path that is
    neither the input nor its backup and can be written, that is the
    candidate strategy 1 wrote, the input compressed with zstd, or with gzip
    where the zstandard module is missing, whatever the result of the session
    and whichever strategies failed. *)
Theorem failed_strategy_output_is_kept (E : Env) (input : string)
    (output blender : option string) (st : State) (data : bytes) :
  let input_path := abspath E input in
  let output_path := resolve_output E input_path output in
  fs st !! input_path = Some (Data data) ->
  valid_container data = true ->
  exists ok tr st0 ok1 st1 st',
    repair_session E input output blender st = (Ok (ok, tr), st') /\
    repair_blend_file E input output blender st = (Ok ok, st') /\
    fs st0 = with_backup input_path data (fs st) /\
    repair_compression E input_path output_path st0 = (Ok ok1, st1) /\
    by_processes E (fs st1) (fs st') /\
    attempts E (resolve_blender E blender) input_path output_path tr st0 st' /\
    (names_fresh E -> process_keeps E output_path ->
     is_Some (fs st1 !! output_path) ->
     fs st' !! output_path = fs st1 !! output_path) /\
    (names_fresh E -> process_keeps E output_path ->
     take 7 data = b "BLENDER" ->
     output_path <> input_path ->
     output_path <> input_path +:+ ".backup" ->
     fs st !! output_path <> Some Denied ->
     fs st' !! output_path = Some (Data (encoder E "zstd" data))).
Proof.
  intros input_path output_path Hin Hvalid.
  pose proof (repair_session_run E input output blender st) as Hrun. cbv zeta in Hrun.
  fold input_path in Hrun. fold output_path in Hrun. rewrite Hin, Hvalid in Hrun.
  destruct Hrun as (new & Hnew & Hrun).
  set (st0 := mkState (with_backup input_path data (fs st)) (stdout st ++ new)) in *.
  destruct (strategy_controller_traced_chain E (resolve_blender E blender) input_path
              output_path st0)
    as (ok1 & st1 & v & sb & ok & tl & st' & Hrc & Hver & Hby1 & Hctl & Hatt & Hno).
  rewrite Hctl in Hrun.
  assert (Hby : by_processes E (fs st1) (fs st')).
  { eapply by_processes_trans; [exact Hby1|].
    exact (attempts_by_processes E _ _ _ tl sb st' Hno Hatt). }
  exists ok, ((Strategy1, v) :: tl), st0, ok1, st1, st'.
  split; [exact Hrun|]. split; [now rewrite repair_session_erasure, Hrun|].
  split; [reflexivity|]. split; [exact Hrc|]. split; [exact Hby|].
  split; [|split].
  - exists st0, sb. split; [apply console_only_refl|]. split; [|exact Hatt].
    exists ok1, st1. now split.
  - intros Hfresh Hkeeps Hthere. now apply (by_processes_keeps E output_path _ _ Hfresh Hkeeps).
  - intros Hfresh Hkeeps Hsig Hne Hnb Hout.
    assert (Hmagic : take 4 data = b "BLEN").
    { change 4 with (4 `min` 7). rewrite <- take_take, Hsig. reflexivity. }
    destruct (repair_compression_uncompressed E input_path output_path data st0)
      as (new' & Hrc'); try done.
    + unfold st0, with_backup. cbn [fs]. cbv zeta.
      destruct (fs st !! (input_path +:+ ".backup")); [exact Hin|].
      rewrite lookup_insert_ne by (apply string_app_neq; done). exact Hin.
    + unfold st0, with_backup. cbn [fs]. cbv zeta.
      destruct (fs st !! (input_path +:+ ".backup")); [exact Hout|].
      now rewrite lookup_insert_ne.
    + rewrite Hrc in Hrc'. injection Hrc' as -> ->.
      rewrite (by_processes_keeps E output_path _ _ Hfresh Hkeeps Hby).
      * cbn [fs]. apply lookup_insert_eq.
      * cbn [fs]. rewrite lookup_insert_eq. eauto.
Qed.

(** A session whose Blender writes to the output path and fails. *)
Lemma failed_strategy_output_is_kept_witness :
  exists ok tr st0 ok1 st1 st',
    repair_session (Sample.env false scribbling_blender (Some "/usr/bin/blender"))
      "scene.blend" None None Sample.boot = (Ok (ok, tr), st') /\
    repair_blend_file (Sample.env false scribbling_blender (Some "/usr/bin/blender"))
      "scene.blend" None None Sample.boot = (Ok ok, st') /\
    fs st0 = with_backup "/work/scene.blend" Sample.blend400 (fs Sample.boot) /\
    repair_compression (Sample.env false scribbling_blender (Some "/usr/bin/blender"))
      "/work/scene.blend" "/work/scene_repaired.blend" st0 = (Ok ok1, st1) /\
    by_processes (Sample.env false scribbling_blender (Some "/usr/bin/blender"))
      (fs st1) (fs st') /\
    attempts (Sample.env false scribbling_blender (Some "/usr/bin/blender"))
      (Some "/usr/bin/blender") "/work/scene.blend" "/work/scene_repaired.blend" tr st0 st' /\
    (names_fresh (Sample.env false scribbling_blender (Some "/usr/bin/blender")) ->
     process_keeps (Sample.env false scribbling_blender (Some "/usr/bin/blender"))
       "/work/scene_repaired.blend" ->
     is_Some (fs st1 !! "/work/scene_repaired.blend") ->
     fs st' !! "/work/scene_repaired.blend" = fs st1 !! "/work/scene_repaired.blend") /\
    (names_fresh (Sample.env false scribbling_blender (Some "/usr/bin/blender")) ->
     process_keeps (Sample.env false scribbling_blender (Some "/usr/bin/blender"))
       "/work/scene_repaired.blend" ->
     take 7 Sample.blend400 = b "BLENDER" ->
     "/work/scene_repaired.blend" <> "/work/scene.blend" ->
     "/work/scene_repaired.blend" <> "/work/scene.blend" +:+ ".backup" ->
     fs Sample.boot !! "/work/scene_repaired.blend" <> Some Denied ->
     fs st' !! "/work/scene_repaired.blend"
       = Some (Data (encoder (Sample.env false scribbling_blender (Some "/usr/bin/blender"))
                       "zstd" Sample.blend400))).
Proof.
  exact (failed_strategy_output_is_kept
           (Sample.env false scribbling_blender (Some "/usr/bin/blender"))
           "scene.blend" None None Sample.boot Sample.blend400 eq_refl eq_refl).
Defined.

(** * Further properties of the program *)

(** ** FormatSniffer *)

(** X1.  The compression kind of a file is decided by its first four bytes:
    two files that agree there are classified alike, whatever follows. *)
Theorem get_compression_type_first_four (p1 p2 : string) (st1 st2 : State)
    (d1 d2 : bytes) :
  fs st1 !! p1 = Some (Data d1) ->
  fs st2 !! p2 = Some (Data d2) ->
  take 4 d1 = take 4 d2 ->
  (get_compression_type p1 st1).1 = (get_compression_type p2 st2).1.
Proof.
  intros H1 H2 Heq. rewrite !get_compression_type_run, H1, H2. cbn [fst]. cbv zeta.
  now rewrite Heq.
Qed.

Lemma get_compression_type_first_four_witness :
  (get_compression_type "/work/scene.blend" Sample.boot).1 =
  (get_compression_type "/work/old.blend" Sample.boot).1.
Proof.
  exact (get_compression_type_first_four "/work/scene.blend" "/work/old.blend"
           Sample.boot Sample.boot Sample.blend400 Sample.blend005 eq_refl eq_refl eq_refl).
Defined.

(** X2.  [is_blend_file] never raises and changes nothing; it answers
    [False] for a path that does not exist, for a file that cannot be read
    and for an empty file. *)
Theorem is_blend_file_never_raises (filepath : string) (st : State) :
  exists valid,
    is_blend_file filepath st = (Ok valid, st) /\
    match fs st !! filepath with
    | Some (Data []) => valid = false
    | Some (Data _) => True
    | _ => valid = false
    end.
Proof.
  rewrite is_blend_file_run. eexists. split; [reflexivity|].
  destruct (fs st !! filepath) as [[[|x data]|]|]; done.
Qed.

(** X3.  The answer of [is_blend_file] is decided by the first seven bytes
    of the file. *)
Theorem is_blend_file_first_seven (p1 p2 : string) (st1 st2 : State) (d1 d2 : bytes) :
  fs st1 !! p1 = Some (Data d1) ->
  fs st2 !! p2 = Some (Data d2) ->
  take 7 d1 = take 7 d2 ->
  (is_blend_file p1 st1).1 = (is_blend_file p2 st2).1.
Proof.
  intros H1 H2 Heq. rewrite !is_blend_file_run, H1, H2. cbn [fst]. cbv zeta.
  assert (H2b : take 2 (take 12 d1) = take 2 (take 12 d2)).
  { rewrite !take_take. change (2 `min` 12) with (2 `min` 7).
    rewrite <- !take_take. now rewrite Heq. }
  assert (H4b : take 4 (take 12 d1) = take 4 (take 12 d2)).
  { rewrite !take_take. change (4 `min` 12) with (4 `min` 7).
    rewrite <- !take_take. now rewrite Heq. }
  assert (H7b : take 7 (take 12 d1) = take 7 (take 12 d2)).
  { rewrite !take_take. exact Heq. }
  now rewrite H2b, H4b, H7b.
Qed.

Lemma is_blend_file_first_seven_witness :
  (is_blend_file "/work/scene.blend" Sample.boot).1 =
  (is_blend_file "/work/old.blend" Sample.boot).1.
Proof.
  exact (is_blend_file_first_seven "/work/scene.blend" "/work/old.blend"
           Sample.boot Sample.boot Sample.blend400 Sample.blend005 eq_refl eq_refl eq_refl).
Defined.

(** X4.  [is_compressed] never raises, and answers [True] exactly for a
    readable file that starts with the two gzip magic bytes or whose first
    four bytes are the zstd magic. *)
Theorem is_compressed_iff_magic (filepath : string) (st : State) :
  exists compressed,
    is_compressed filepath st = (Ok compressed, st) /\
    (compressed = true <->
     exists data, fs st !! filepath = Some (Data data) /\
                  (take 2 data = [x1f; x8b] \/ take 4 data = [x28; xb5; x2f; xfd])).
Proof.
  unfold is_compressed. rewrite bind_run, get_compression_type_run. cbv beta iota.
  eexists. split; [reflexivity|].
  destruct (fs st !! filepath) as [[data|]|].
  - cbv zeta. rewrite take_take. change (2 `min` 4) with 2.
    repeat case_bool_decide; simpl; split; try done; eauto.
    all: intros (data' & [= <-] & [?|?]); done.
  - simpl. split; [done|]. intros (data & [=] & _).
  - simpl. split; [done|]. intros (data & [=] & _).
Qed.

(** X5.  Whatever [is_compressed] accepts, [is_blend_file] accepts too: a
    file with a compression magic passes validation without being opened
    up, however short it is. *)
Theorem compressed_files_are_accepted (filepath : string) (st : State) :
  (is_compressed filepath st).1 = Ok true ->
  (is_blend_file filepath st).1 = Ok true.
Proof.
  unfold is_compressed. rewrite bind_run, get_compression_type_run, is_blend_file_run.
  cbv beta iota. cbn [fst].
  destruct (fs st !! filepath) as [[data|]|]; [|discriminate..].
  cbv zeta. rewrite !take_take.
  change (2 `min` 4) with 2. change (2 `min` 12) with 2. change (4 `min` 12) with 4.
  change (4 `min` 4) with 4.
  repeat case_bool_decide; simpl; try done.
  all: rewrite ?orb_true_r; done.
Qed.

Lemma compressed_files_are_accepted_witness :
  (is_compressed "/work/short.blend" Sample.boot).1 = Ok true /\
  (is_blend_file "/work/short.blend" Sample.boot).1 = Ok true.
Proof.
  split; [reflexivity|].
  exact (compressed_files_are_accepted "/work/short.blend" Sample.boot eq_refl).
Defined.

(** X6.  Whatever [is_blend_file] accepts has a compression kind that
    [get_compression_type] knows: gzip, zstd, or none. *)
Theorem accepted_files_have_a_kind (filepath : string) (st : State) :
  (is_blend_file filepath st).1 = Ok true ->
  exists kind,
    (get_compression_type filepath st).1 = Ok kind /\
    (kind = None \/ kind = Some "gzip" \/ kind = Some "zstd").
Proof.
  rewrite get_compression_type_run, is_blend_file_run. cbn [fst].
  destruct (fs st !! filepath) as [[data|]|]; [|discriminate..].
  cbv zeta. rewrite !take_take.
  change (2 `min` 4) with 2. change (2 `min` 12) with 2. change (4 `min` 12) with 4.
  change (4 `min` 4) with 4. change (7 `min` 12) with 7.
  intros Hvalid. eexists. split; [reflexivity|].
  destruct (bool_decide (take 2 data = _)) eqn:Hgz; [auto|].
  destruct (bool_decide (take 4 data = [x28; xb5; x2f; xfd])) eqn:Hzs; [auto|].
  rewrite !orb_false_r in Hvalid. injection Hvalid as Hsig.
  apply bool_decide_eq_true_1 in Hsig.
  rewrite bool_decide_eq_true_2; [auto|].
  change 4 with (4 `min` 7). rewrite <- take_take, Hsig. reflexivity.
Qed.

Lemma accepted_files_have_a_kind_witness :
  exists kind,
    (get_compression_type "/work/scene.blend" Sample.boot).1 = Ok kind /\
    (kind = None \/ kind = Some "gzip" \/ kind = Some "zstd").
Proof.
  exact (accepted_files_have_a_kind "/work/scene.blend" Sample.boot eq_refl).
Defined.

(** ** The version in the header, beyond the plain case *)

(** X7.  [get_blend_version] is best effort: it never raises and changes
    nothing, and for a path that does not exist or cannot be read it
    returns [None]. *)
Theorem get_blend_version_best_effort (E : Env) (filepath : string) (st : State) :
  exists version,
    get_blend_version E filepath st = (Ok version, st) /\
    match fs st !! filepath with
    | Some (Data _) => True
    | _ => version = None
    end.
Proof.
  destruct (get_blend_version_pure E filepath st) as [version Hv].
  exists version. split; [exact Hv|].
  destruct (fs st !! filepath) as [[data|]|] eqn:Hf; [done| |].
  all: revert Hv; unfold get_blend_version, try_except;
    rewrite bind_run, get_compression_type_run, Hf; cbv beta iota;
    change (is_str (Some "unknown") "zstd") with false;
    change (is_str (Some "unknown") "gzip") with false; cbv iota;
    unfold bind, open_rb; rewrite Hf; unfold ret; now intros [= <-].
Qed.

(** X8.  A zstd file on a machine without the zstandard module has no
    version: [get_blend_version] returns [None] and does not try to read
    it. *)
Theorem get_blend_version_zstd_without_module (E : Env) (filepath : string) (st : State)
    (data : bytes) :
  HAS_ZSTD E = false ->
  fs st !! filepath = Some (Data data) ->
  take 4 data = [x28; xb5; x2f; xfd] ->
  get_blend_version E filepath st = (Ok None, st).
Proof.
  intros Hz Hf Hmagic. unfold get_blend_version, try_except.
  rewrite bind_run, get_compression_type_run, Hf. cbv beta iota zeta.
  rewrite !Hmagic.
  change (bool_decide (take 2 [x28; xb5; x2f; xfd] = [x1f; x8b])) with false.
  change (bool_decide ([x28; xb5; x2f; xfd] = [x28; xb5; x2f; xfd])) with true.
  cbv iota. change (is_str (Some "zstd") "zstd") with true. cbv iota.
  now rewrite Hz.
Qed.

Lemma get_blend_version_zstd_without_module_witness :
  get_blend_version (Sample.env false Sample.broken_blender None) "/z.blend"
    (mkState {[ "/z.blend" := Data (Sample.frame Sample.zstd_magic Sample.blend400) ]} [])
  = (Ok None,
     mkState {[ "/z.blend" := Data (Sample.frame Sample.zstd_magic Sample.blend400) ]} []).
Proof.
  exact (get_blend_version_zstd_without_module
           (Sample.env false Sample.broken_blender None) "/z.blend"
           (mkState {[ "/z.blend" := Data (Sample.frame Sample.zstd_magic Sample.blend400) ]} [])
           (Sample.frame Sample.zstd_magic Sample.blend400) eq_refl eq_refl eq_refl).
Defined.

(** X9.  A file of fewer than ten bytes that carries no compression magic
    has no version, even when it starts with [BLENDER]: the version field
    is missing and [get_blend_version] returns [None]. *)
Theorem get_blend_version_truncated_header (E : Env) (filepath : string) (st : State)
    (data : bytes) :
  fs st !! filepath = Some (Data data) ->
  length data < 10 ->
  take 2 data <> [x1f; x8b] ->
  take 4 data <> [x28; xb5; x2f; xfd] ->
  get_blend_version E filepath st = (Ok None, st).
Proof.
  intros Hf Hlen Hgz Hzs. unfold get_blend_version, try_except.
  rewrite bind_run, get_compression_type_run, Hf. cbv beta iota zeta.
  rewrite take_take. change (2 `min` 4) with 2.
  rewrite (bool_decide_eq_false_2 _ Hgz), (bool_decide_eq_false_2 _ Hzs).
  assert (Hrest : forall kind,
            is_str kind "zstd" = false -> is_str kind "gzip" = false ->
            (let (r, st') :=
               (if is_str kind "zstd"
                then if negb (HAS_ZSTD E) then ret None
                     else open_rb filepath ;; d <- read_handle filepath ;;
                          header <- stream_read (zstd_decompress E d) 12 ;;
                          version_of_header header
                else if is_str kind "gzip"
                then open_rb filepath ;; d <- read_handle filepath ;;
                     header <- stream_read (gzip_decompress E d) 12 ;;
                     version_of_header header
                else open_rb filepath ;; d <- read_handle filepath ;;
                     version_of_header (take 12 d)) st in
             match r with
             | Ok a => (Ok a, st')
             | Raise _ => ret None st'
             end) = (Ok None, st)).
  { intros kind -> ->. unfold bind at 1. unfold open_rb. rewrite Hf.
    unfold bind at 1. unfold read_handle. rewrite Hf.
    unfold version_of_header. case_bool_decide; [|reflexivity].
    rewrite (take_ge data 12) by lia. rewrite (drop_ge data 9) by lia.
    reflexivity. }
  case_bool_decide; apply Hrest; reflexivity.
Qed.

Lemma get_blend_version_truncated_header_witness :
  get_blend_version (Sample.env true Sample.broken_blender None) "/t.blend"
    (mkState {[ "/t.blend" := Data (b "BLENDER-v") ]} [])
  = (Ok None, mkState {[ "/t.blend" := Data (b "BLENDER-v") ]} []).
Proof.
  apply (get_blend_version_truncated_header
           (Sample.env true Sample.broken_blender None) "/t.blend"
           (mkState {[ "/t.blend" := Data (b "BLENDER-v") ]} []) (b "BLENDER-v")).
  - reflexivity.
  - simpl. lia.
  - discriminate.
  - discriminate.
Defined.

(** X10.  The version is read through the compression: for a gzip file, or
    a zstd file where the zstandard module is present, whose decoder yields
    a container with three ASCII digits at offset 9, [get_blend_version]
    returns the version of that container. *)
Theorem get_blend_version_through_codec (E : Env) (filepath : string) (st : State)
    (packed : bytes) (p7 p8 d0 d1 d2 : byte) (rest : bytes) :
  let payload := b "BLENDER" ++ [p7; p8; d0; d1; d2] ++ rest in
  fs st !! filepath = Some (Data packed) ->
  take 2 packed = [x1f; x8b] /\ gzip_decompress E packed = mkStream payload None \/
  take 4 packed = [x28; xb5; x2f; xfd] /\ HAS_ZSTD E = true /\
    zstd_decompress E packed = mkStream payload None ->
  is_digit d0 -> is_digit d1 -> is_digit d2 ->
  get_blend_version E filepath st =
    (Ok (Some (format_version (ascii_of_byte d0) (ascii_of_byte d1) (ascii_of_byte d2))), st).
Proof.
  intros payload Hf Hcodec H0 H1 H2.
  assert (Hparse : version_of_header (b "BLENDER" ++ [p7; p8; d0; d1; d2]) st =
            (Ok (Some (format_version (ascii_of_byte d0) (ascii_of_byte d1)
                         (ascii_of_byte d2))), st)).
  { unfold version_of_header.
    change (bool_decide (take 7 (b "BLENDER" ++ [p7; p8; d0; d1; d2]) = b "BLENDER"))
      with true. cbv iota.
    change (take 3 (drop 9 (b "BLENDER" ++ [p7; p8; d0; d1; d2]))) with [d0; d1; d2].
    unfold bind, decode_ascii. cbn [forallb]. unfold is_digit in *.
    rewrite !(proj2 (Nat.ltb_lt _ 128)) by lia. cbn [andb].
    unfold ret, str_head. cbn [string_of_list_byte map string_of_list_ascii].
    unfold format_version, str_slice.
    cbn [list_ascii_of_string drop take Nat.sub string_of_list_ascii lstrip0].
    destruct (Ascii.eqb (ascii_of_byte d1) "0");
      [destruct (Ascii.eqb (ascii_of_byte d2) "0")|]; reflexivity. }
  assert (Hread : stream_read (mkStream payload None) 12 st =
                  (Ok (b "BLENDER" ++ [p7; p8; d0; d1; d2]), st)).
  { unfold stream_read. cbn [produced failure].
    rewrite bool_decide_eq_true_2; [reflexivity|].
    unfold payload. rewrite !length_app. simpl. lia. }
  unfold get_blend_version, try_except.
  rewrite bind_run, get_compression_type_run, Hf. cbv beta iota zeta.
  rewrite take_take. change (2 `min` 4) with 2.
  destruct Hcodec as [[Hmagic Hdec]|(Hmagic & Hz & Hdec)].
  - rewrite Hmagic. rewrite (bool_decide_eq_true_2 ([x1f; x8b] = [x1f; x8b])) by done.
    change (is_str (Some "gzip") "zstd") with false.
    change (is_str (Some "gzip") "gzip") with true. cbv iota.
    unfold bind at 1. unfold open_rb. rewrite Hf.
    unfold bind at 1. unfold read_handle. rewrite Hf.
    rewrite Hdec. unfold bind. now rewrite Hread, Hparse.
  - rewrite Hmagic.
    assert (Hnot : take 2 packed <> [x1f; x8b]).
    { change 2 with (2 `min` 4). rewrite <- take_take, Hmagic. discriminate. }
    rewrite (bool_decide_eq_false_2 _ Hnot).
    rewrite (bool_decide_eq_true_2 ([x28; xb5; x2f; xfd] = _)) by done.
    change (is_str (Some "zstd") "zstd") with true. cbv iota. rewrite Hz. cbn [negb].
    cbv iota.
    unfold bind at 1. unfold open_rb. rewrite Hf.
    unfold bind at 1. unfold read_handle. rewrite Hf.
    rewrite Hdec. unfold bind. now rewrite Hread, Hparse.
Qed.

Lemma get_blend_version_through_codec_witness :
  get_blend_version (Sample.env true Sample.broken_blender None) "/work/packed.blend"
    Sample.boot
  = (Ok (Some "4.0"), Sample.boot).
Proof.
  assert (H4 : is_digit x34) by (unfold is_digit; simpl; lia).
  assert (H0 : is_digit x30) by (unfold is_digit; simpl; lia).
  exact (get_blend_version_through_codec (Sample.env true Sample.broken_blender None)
           "/work/packed.blend" Sample.boot Sample.gzipped400 x2d x76 x34 x30 x30 (b "REND")
           eq_refl (or_introl (conj eq_refl eq_refl)) H4 H0 H0).
Defined.

(** ** CodecTranscoder *)

Lemma untouched_refl (W : list string) (st : State) : untouched_outside W st st.
Proof. now intros q _. Qed.

Lemma untouched_trans (W : list string) (st st1 st2 : State) :
  untouched_outside W st st1 -> untouched_outside W st1 st2 -> untouched_outside W st st2.
Proof. intros H1 H2 q Hq. rewrite (H2 q Hq). now apply H1. Qed.

Lemma untouched_insert (p : string) (n : node) (st : State) :
  untouched_outside [p] st (set_fs <[p := n]> st).
Proof.
  intros q Hq. simpl. apply lookup_insert_ne. intros ->. apply Hq. left.
Qed.

Lemma tidy_ret {A} (W : list string) (a : A) : tidy W (ret a).
Proof. intros st. eexists _, _. split; [reflexivity|apply untouched_refl]. Qed.

Lemma tidy_raise {A} (W : list string) (e : exn) : tidy W (@raise A e).
Proof. intros st. eexists _, _. split; [reflexivity|apply untouched_refl]. Qed.

Lemma tidy_bind {A B} (W : list string) (m : M A) (k : A -> M B) :
  tidy W m -> (forall a, tidy W (k a)) -> tidy W (bind m k).
Proof.
  intros Hm Hk st. destruct (Hm st) as (r & st1 & Hr & H1).
  rewrite bind_run, Hr. destruct r as [a|e]; [|eauto].
  destruct (Hk a st1) as (r2 & st2 & -> & H2).
  eexists _, _. split; [reflexivity|]. exact (untouched_trans W _ _ _ H1 H2).
Qed.

Lemma tidy_try_except {A} (W : list string) (m : M A) (h : exn -> M A) :
  tidy W m -> (forall e, tidy W (h e)) -> tidy W (try_except m h).
Proof.
  intros Hm Hh st. destruct (Hm st) as (r & st1 & Hr & H1).
  unfold try_except. rewrite Hr. destruct r as [a|e]; [eauto|].
  destruct (Hh e st1) as (r2 & st2 & -> & H2).
  eexists _, _. split; [reflexivity|]. exact (untouched_trans W _ _ _ H1 H2).
Qed.

Lemma tidy_print (W : list string) (s : string) : tidy W (print s).
Proof. intros st. eexists _, _. split; [reflexivity|]. now intros q _. Qed.

Lemma tidy_open_rb (W : list string) (p : string) : tidy W (open_rb p).
Proof.
  intros st. unfold open_rb.
  destruct (fs st !! p) as [[d|]|]; eexists _, _; (split; [reflexivity|apply untouched_refl]).
Qed.

Lemma tidy_read_handle (W : list string) (p : string) : tidy W (read_handle p).
Proof.
  intros st. unfold read_handle.
  destruct (fs st !! p) as [[d|]|]; eexists _, _; (split; [reflexivity|apply untouched_refl]).
Qed.

Lemma tidy_open_wb (p : string) : tidy [p] (open_wb p).
Proof.
  intros st. unfold open_wb.
  destruct (fs st !! p) as [[d|]|]; eexists _, _;
    (split; [reflexivity|apply untouched_insert || apply untouched_refl]).
Qed.

Lemma tidy_write_handle (p : string) (d : bytes) : tidy [p] (write_handle p d).
Proof. intros st. eexists _, _. split; [reflexivity|apply untouched_insert]. Qed.

Lemma tidy_copy_stream (s : stream) (p : string) : tidy [p] (copy_stream s p).
Proof.
  unfold copy_stream. apply tidy_bind; [apply tidy_write_handle|]. intros _.
  destruct (failure s); [apply tidy_raise|apply tidy_ret].
Qed.

Lemma tidy_transcode (src dst : string) (k : bytes -> M unit) :
  (forall d, tidy [dst] (k d)) ->
  tidy [dst] (open_rb src ;; open_wb dst ;; data <- read_handle src ;; k data ;; ret true).
Proof.
  intros Hk.
  apply tidy_bind; [apply tidy_open_rb|]. intros _.
  apply tidy_bind; [apply tidy_open_wb|]. intros _.
  apply tidy_bind; [apply tidy_read_handle|]. intros data.
  apply tidy_bind; [apply Hk|]. intros _. apply tidy_ret.
Qed.

Lemma tidy_returns (W : list string) (m : M bool) (msg : exn -> string) (st : State) :
  tidy W m ->
  exists ok st',
    try_except m (fun e => print (msg e) ;; ret false) st = (Ok ok, st') /\
    untouched_outside W st st'.
Proof.
  intros Hm. destruct (Hm st) as (r & st1 & Hr & H1).
  unfold try_except. rewrite Hr. destruct r as [a|e]; [eauto|].
  eexists _, _. split; [reflexivity|]. intros q Hq. simpl. now apply H1.
Qed.

Lemma untouched_weaken (W W' : list string) (st st' : State) :
  (forall q, q ∈ W -> q ∈ W') -> untouched_outside W st st' -> untouched_outside W' st st'.
Proof. intros Hsub H q Hq. apply H. intros Hin. apply Hq, Hsub, Hin. Qed.

Lemma settles_weaken {A} (W W' : list string) (m : M A) :
  (forall q, q ∈ W -> q ∈ W') -> settles W m -> settles W' m.
Proof.
  intros Hsub Hm st. destruct (Hm st) as (a & st' & Hrun & Hfr).
  exists a, st'. split; [exact Hrun|]. exact (untouched_weaken W W' _ _ Hsub Hfr).
Qed.

Lemma settles_ret {A} (W : list string) (a : A) : settles W (ret a).
Proof. intros st. eexists _, _. split; [reflexivity|apply untouched_refl]. Qed.

Lemma settles_print (W : list string) (s : string) : settles W (print s).
Proof. intros st. eexists _, _. split; [reflexivity|]. now intros q _. Qed.

Lemma settles_bind {A B} (W : list string) (m : M A) (k : A -> M B) :
  settles W m -> (forall a, settles W (k a)) -> settles W (bind m k).
Proof.
  intros Hm Hk st. destruct (Hm st) as (a & st1 & Hr & H1).
  rewrite (bind_ok _ _ _ _ _ Hr).
  destruct (Hk a st1) as (r2 & st2 & -> & H2).
  eexists _, _. split; [reflexivity|]. exact (untouched_trans W _ _ _ H1 H2).
Qed.

Lemma settles_is_blend_file (W : list string) (p : string) : settles W (is_blend_file p).
Proof.
  intros st. rewrite is_blend_file_run. eexists _, _. split; [reflexivity|apply untouched_refl].
Qed.

Lemma settles_caught (W : list string) (m : M bool) (msg : exn -> string) :
  tidy W m -> settles W (try_except m (fun e => print (msg e) ;; ret false)).
Proof. intros Hm st. now apply tidy_returns. Qed.

Lemma compress_blend_settles (E : Env) (input_path output_path : string)
    (compression : option string) :
  settles [output_path] (compress_blend E input_path output_path compression).
Proof.
  unfold compress_blend. apply settles_caught.
  assert (Hgz : forall c, tidy [output_path]
                  (compress_gzip_or_fail E input_path output_path c)).
  { intros c. unfold compress_gzip_or_fail. destruct (is_str c "gzip"); [|apply tidy_ret].
    apply (tidy_transcode input_path output_path
             (fun data => write_handle output_path (gzip_compress E data))).
    intros d. apply tidy_write_handle. }
  destruct (is_str compression "zstd"); [destruct (negb (HAS_ZSTD E))|].
  - apply tidy_bind; [apply tidy_print|]. intros _. apply Hgz.
  - apply (tidy_transcode input_path output_path
             (fun data => write_handle output_path (zstd_compress E data))).
    intros d. apply tidy_write_handle.
  - apply Hgz.
Qed.

Lemma decompress_blend_settles (E : Env) (input_path output_path : string)
    (compression : option string) :
  settles [output_path] (decompress_blend E input_path output_path compression).
Proof.
  intros st. unfold decompress_blend. rewrite bind_run.
  assert (Hkind : exists kind,
            match compression with
            | Some _ => ret compression
            | None => get_compression_type input_path
            end st = (Ok kind, st)).
  { destruct compression; [now eexists|]. rewrite get_compression_type_run. eauto. }
  destruct Hkind as [kind ->].
  apply settles_caught.
  destruct (is_str kind "zstd"); [destruct (negb (HAS_ZSTD E))|destruct (is_str kind "gzip")].
  - apply tidy_bind; [apply tidy_print|]. intros _. apply tidy_ret.
  - apply (tidy_transcode input_path output_path
             (fun data => copy_stream (zstd_decompress E data) output_path)).
    intros d. apply tidy_copy_stream.
  - apply (tidy_transcode input_path output_path
             (fun data => copy_stream (gzip_decompress E data) output_path)).
    intros d. apply tidy_copy_stream.
  - apply tidy_bind; [apply tidy_print|]. intros _. apply tidy_ret.
Qed.

Lemma outside_singleton (p q : string) : q <> p -> q ∉ [p].
Proof. intros Hq ->%list_elem_of_singleton. done. Qed.

(** X11.  [compress_blend] and [decompress_blend] always return a verdict,
    never an exception, and whatever happens they change no file other than
    their output path. *)
Theorem codecs_write_output_only (E : Env) (input_path output_path : string)
    (compression : option string) (st : State) :
  (exists ok st',
     compress_blend E input_path output_path compression st = (Ok ok, st') /\
     forall q, q <> output_path -> fs st' !! q = fs st !! q) /\
  (exists ok st',
     decompress_blend E input_path output_path compression st = (Ok ok, st') /\
     forall q, q <> output_path -> fs st' !! q = fs st !! q).
Proof.
  split.
  - destruct (compress_blend_settles E input_path output_path compression st)
      as (ok & st' & Hrun & Hfr).
    exists ok, st'. split; [exact Hrun|]. intros q Hq. apply Hfr, outside_singleton, Hq.
  - destruct (decompress_blend_settles E input_path output_path compression st)
      as (ok & st' & Hrun & Hfr).
    exists ok, st'. split; [exact Hrun|]. intros q Hq. apply Hfr, outside_singleton, Hq.
Qed.

(** ** The footprint of strategy 1 *)

(** X12.  Strategy 1 as a whole: from every state in which the name its
    temporary file would get is free, [repair_compression] returns a verdict,
    never an exception, and changes no path other than the output path;
    in particular no temporary file is left behind, whether the strategy
    succeeded or not. *)
Theorem repair_compression_writes_output_only (E : Env) (input_path output_path : string)
    (st : State) :
  fs st !! mkstemp E ".blend" (fs st) = None ->
  exists ok st',
    repair_compression E input_path output_path st = (Ok ok, st') /\
    forall q, q <> output_path -> fs st' !! q = fs st !! q.
Proof.
  intros Htmp. unfold repair_compression.
  rewrite bind_run, print_run. cbv beta iota.
  rewrite bind_run, get_compression_type_run. cbn [fs].
  set (compression := match fs st !! input_path with Some (Data _) => _ | _ => _ end).
  clearbody compression. cbv beta iota.
  rewrite bind_run, print_run. cbv beta iota. cbn [fs stdout].
  set (st1 := mkState (fs st) _).
  destruct (is_str compression "zstd" && negb (HAS_ZSTD E)).
  { eexists _, _. split; [reflexivity|]. reflexivity. }
  destruct (negb (truthy compression) || is_str compression "unknown").
  { rewrite bind_run, print_run. cbv beta iota.
    match goal with
    | |- context [compress_blend _ _ _ _ ?s] =>
        destruct (compress_blend_settles E input_path output_path (Some "zstd") s)
          as (ok & st' & -> & Hfr)
    end.
    exists ok, st'. split; [reflexivity|]. intros q Hq.
    now rewrite (Hfr q (outside_singleton _ _ Hq)). }
  rewrite bind_run. unfold NamedTemporaryFile at 1.
  change (fs st1) with (fs st).
  set (tmp_path := mkstemp E ".blend" (fs st)) in *.
  set (st0 := set_fs _ st1).
  assert (Hbody : settles [output_path; tmp_path]
            (print "  Decompressing file..." ;;
             ok <- decompress_blend E input_path tmp_path compression ;;
             if negb ok then ret false
             else
               valid <- is_blend_file tmp_path ;;
               if negb valid then
                 print "  [!] Decompressed data is not valid" ;;
                 ret false
               else
                 print "  Recompressing file..." ;;
                 ok <- compress_blend E tmp_path output_path compression ;;
                 if ok then
                   print "  [✓] Compression repair successful" ;;
                   ret true
                 else ret false)).
  { apply settles_bind; [apply settles_print|]. intros _.
    apply settles_bind.
    { apply (settles_weaken [tmp_path]); [|apply decompress_blend_settles].
      intros q ->%list_elem_of_singleton. right. left. }
    intros ok. destruct ok; cbn [negb]; [|apply settles_ret].
    apply settles_bind; [apply settles_is_blend_file|]. intros valid.
    destruct valid; cbn [negb].
    2:{ apply settles_bind; [apply settles_print|]. intros _. apply settles_ret. }
    apply settles_bind; [apply settles_print|]. intros _.
    apply settles_bind.
    { apply (settles_weaken [output_path]); [|apply compress_blend_settles].
      intros q ->%list_elem_of_singleton. left. }
    intros ok. destruct ok; [|apply settles_ret].
    apply settles_bind; [apply settles_print|]. intros _. apply settles_ret. }
  destruct (Hbody st0) as (ok & st2 & Hrun & Hfr).
  unfold try_finally. rewrite Hrun, unlink_if_exists_run.
  eexists _, _. split; [reflexivity|]. intros q Hq. cbn [fs set_fs].
  destruct (decide (q = tmp_path)) as [->|Hqt].
  - now rewrite lookup_delete_eq, Htmp.
  - rewrite lookup_delete_ne by done. rewrite Hfr.
    + unfold st0, st1. cbn [fs set_fs]. now rewrite lookup_insert_ne.
    + intros [->|[->|[]%elem_of_nil]%elem_of_cons]%elem_of_cons; done.
Qed.

Lemma repair_compression_writes_output_only_witness :
  exists ok st',
    repair_compression (Sample.env true Sample.broken_blender None)
      "/work/packed.blend" "/work/out.blend" Sample.boot = (Ok ok, st') /\
    forall q, q <> "/work/out.blend" -> fs st' !! q = fs Sample.boot !! q.
Proof.
  apply (repair_compression_writes_output_only (Sample.env true Sample.broken_blender None)
           "/work/packed.blend" "/work/out.blend" Sample.boot).
  apply sample_names_fresh.
Defined.

(** ** The codecs on paths that fail or coincide *)

(** X13.  When the input cannot be opened, because it does not exist or
    access is denied, [compress_blend] returns [False] and the file system
    is exactly as before: the output file is neither created nor
    truncated. *)
Theorem compress_blend_unreadable_input (E : Env) (input_path output_path : string)
    (compression : option string) (st : State) :
  (forall data, fs st !! input_path <> Some (Data data)) ->
  exists new,
    compress_blend E input_path output_path compression st =
    (Ok false, mkState (fs st) (stdout st ++ new)).
Proof.
  intros Hin. unfold compress_blend, try_except.
  assert (Hopen : forall (k : M bool) (s : State),
            fs s = fs st ->
            exists e, (open_rb input_path ;; k) s = (Raise e, s)).
  { intros k s Hs. unfold bind, open_rb. rewrite Hs.
    destruct (fs st !! input_path) as [[d|]|] eqn:Hf; [now destruct (Hin d)|eauto..]. }
  assert (Hgz : forall c (s : State), fs s = fs st ->
            exists r, compress_gzip_or_fail E input_path output_path c s = (r, s) /\
                      r <> Ok true).
  { intros c s Hs. unfold compress_gzip_or_fail. destruct (is_str c "gzip").
    - destruct (Hopen (open_wb output_path ;; data <- read_handle input_path ;;
                       write_handle output_path (gzip_compress E data) ;; ret true) s Hs)
        as [e ->]. now eexists.
    - now eexists. }
  destruct (is_str compression "zstd"); [destruct (negb (HAS_ZSTD E))|].
  - rewrite bind_run, print_run. cbv beta iota.
    edestruct (Hgz (Some "gzip")) as (r & -> & Hr); [reflexivity|].
    destruct r as [[|]|e]; [done|..].
    + eexists. cbn [fs stdout]. reflexivity.
    + eexists. cbn. rewrite <- app_assoc. reflexivity.
  - destruct (Hopen (open_wb output_path ;; data <- read_handle input_path ;;
                     write_handle output_path (zstd_compress E data) ;; ret true) st eq_refl)
      as [e ->]. eexists. cbn. reflexivity.
  - destruct (Hgz compression st eq_refl) as (r & -> & Hr).
    destruct r as [[|]|e]; [done|..].
    + exists []. now rewrite app_nil_r; destruct st.
    + eexists. cbn. reflexivity.
Qed.

Lemma compress_blend_unreadable_input_witness :
  exists new,
    compress_blend (Sample.env true Sample.broken_blender None)
      "/work/locked.blend" "/work/scene.blend" (Some "gzip") Sample.boot =
    (Ok false, mkState (fs Sample.boot) (stdout Sample.boot ++ new)).
Proof.
  apply (compress_blend_unreadable_input (Sample.env true Sample.broken_blender None)
           "/work/locked.blend" "/work/scene.blend" (Some "gzip") Sample.boot).
  intros data. discriminate.
Defined.

(** X14.  Compressing a file onto itself destroys it: with the output path
    equal to the input path the file is truncated before it is read, and
    [compress_blend] returns [True] with the file holding the compressed
    form of no bytes at all. *)
Theorem compress_blend_in_place_loses_data (E : Env) (path compression : string)
    (data : bytes) (st : State) :
  compression = "gzip" \/ compression = "zstd" ->
  fs st !! path = Some (Data data) ->
  exists new,
    compress_blend E path path (Some compression) st =
    (Ok true, mkState (<[path := Data (encoder E compression [])]> (fs st)) (stdout st ++ new)).
Proof.
  intros Hc Hf. unfold compress_blend, compress_gzip_or_fail, try_except, encoder.
  destruct Hc as [-> | ->].
  - change (is_str (Some "gzip") "zstd") with false.
    change (is_str (Some "gzip") "gzip") with true. cbv iota.
    rewrite (transcode_in_place path data _ st Hf). exists []. now rewrite app_nil_r.
  - change (is_str (Some "zstd") "zstd") with true. cbv iota.
    change ("zstd" =? "zstd")%string with true.
    destruct (HAS_ZSTD E); cbn [negb andb]; cbv iota.
    + rewrite (transcode_in_place path data _ st Hf). exists []. now rewrite app_nil_r.
    + rewrite bind_run, print_run. cbv beta iota.
      change (is_str (Some "gzip") "gzip") with true. cbv iota.
      rewrite (transcode_in_place path data) by exact Hf. eexists [_]. reflexivity.
Qed.

Lemma compress_blend_in_place_loses_data_witness :
  exists new,
    compress_blend (Sample.env true Sample.broken_blender None)
      "/work/scene.blend" "/work/scene.blend" (Some "zstd") Sample.boot =
    (Ok true,
     mkState (<["/work/scene.blend" :=
                Data (encoder (Sample.env true Sample.broken_blender None) "zstd" [])]>
                (fs Sample.boot))
       (stdout Sample.boot ++ new)).
Proof.
  apply (compress_blend_in_place_loses_data (Sample.env true Sample.broken_blender None)
           "/work/scene.blend" "zstd" Sample.blend400 Sample.boot); [now right|reflexivity].
Defined.

(** X15.  [decompress_blend] refuses what it cannot decode: when the kind,
    given or detected from the input, is not gzip and is not a zstd the
    machine can handle, it prints one line, returns [False] and leaves every
    file as it was; an uncompressed container is such an input. *)
Theorem decompress_blend_unsupported (E : Env) (input_path output_path : string)
    (compression kind : option string) (st : State) :
  match compression with
  | None => (get_compression_type input_path st).1
  | Some _ => Ok compression
  end = Ok kind ->
  is_str kind "gzip" = false ->
  is_str kind "zstd" && HAS_ZSTD E = false ->
  exists line,
    decompress_blend E input_path output_path compression st =
    (Ok false, mkState (fs st) (stdout st ++ [line])).
Proof.
  intros Hkind Hgz Hzs. unfold decompress_blend. rewrite bind_run.
  assert (Hk : match compression with
               | Some _ => ret compression
               | None => get_compression_type input_path
               end st = (Ok kind, st)).
  { destruct compression; [now injection Hkind as ->|].
    rewrite get_compression_type_run in Hkind |- *. cbn [fst] in Hkind. f_equal. exact Hkind. }
  rewrite Hk. unfold try_except.
  destruct (is_str kind "zstd").
  - simpl in Hzs. rewrite Hzs. cbn [negb]. cbv iota. eexists. reflexivity.
  - rewrite Hgz. eexists. reflexivity.
Qed.

Lemma decompress_blend_unsupported_witness :
  exists line,
    decompress_blend (Sample.env true Sample.broken_blender None)
      "/work/scene.blend" "/work/out.blend" None Sample.boot =
    (Ok false, mkState (fs Sample.boot) (stdout Sample.boot ++ [line])).
Proof.
  exact (decompress_blend_unsupported (Sample.env true Sample.broken_blender None)
           "/work/scene.blend" "/work/out.blend" None None Sample.boot
           eq_refl eq_refl eq_refl).
Defined.

(** X16.  A decoder that fails midway leaves its partial output behind:
    [decompress_blend] catches the error, reports it and returns [False],
    and the output file holds the bytes decoded before the failure. *)
Theorem decompress_blend_partial_output (E : Env) (input_path output_path codec : string)
    (packed part : bytes) (msg : string) (st : State) :
  codec = "gzip" /\ gzip_decompress E packed = mkStream part (Some msg) \/
  codec = "zstd" /\ HAS_ZSTD E = true /\
    zstd_decompress E packed = mkStream part (Some msg) ->
  fs st !! input_path = Some (Data packed) ->
  input_path <> output_path ->
  fs st !! output_path <> Some Denied ->
  decompress_blend E input_path output_path (Some codec) st =
  (Ok false,
   mkState (<[output_path := Data part]> (fs st))
     (stdout st ++ ["  [!] Decompression failed: " +:+ msg])).
Proof.
  intros Hc Hin Hne Hout. unfold decompress_blend. rewrite bind_run. unfold ret at 1.
  cbv beta iota. unfold try_except.
  destruct Hc as [[-> Hdec] | (-> & Hz & Hdec)].
  - change (is_str (Some "gzip") "zstd") with false.
    change (is_str (Some "gzip") "gzip") with true. cbv iota.
    rewrite (open_pair_run input_path output_path packed) by done.
    unfold copy_stream, bind, write_handle, raise, set_fs. rewrite Hdec. simpl.
    now rewrite insert_insert_eq.
  - change (is_str (Some "zstd") "zstd") with true. cbv iota. rewrite Hz. cbn [negb].
    cbv iota.
    rewrite (open_pair_run input_path output_path packed) by done.
    unfold copy_stream, bind, write_handle, raise, set_fs. rewrite Hdec. simpl.
    now rewrite insert_insert_eq.
Qed.

Lemma decompress_blend_partial_output_witness :
  decompress_blend (Sample.env true Sample.broken_blender None)
    "/work/scene.blend" "/work/out.blend" (Some "gzip") Sample.boot =
  (Ok false,
   mkState (<["/work/out.blend" := Data []]> (fs Sample.boot))
     (stdout Sample.boot ++ ["  [!] Decompression failed: " +:+ "Not a gzipped file"])).
Proof.
  apply (decompress_blend_partial_output (Sample.env true Sample.broken_blender None)
           "/work/scene.blend" "/work/out.blend" "gzip" Sample.blend400 [] "Not a gzipped file"
           Sample.boot); try done.
  left. split; reflexivity.
Defined.

(** X17.  Compression and detection compose, the fallback included: let
    [compress_blend] write with the codec it ends up using (gzip when zstd
    is asked for on a machine without the module), and let that codec
    produce its magic bytes and decode its own output.  Then
    [decompress_blend], left to detect the kind by itself, restores the
    payload. *)
Theorem compress_then_detect_roundtrip (E : Env) (codec src packed restored : string)
    (payload : bytes) (st : State) :
  codec = "gzip" \/ codec = "zstd" ->
  (if String.eqb codec "zstd" && HAS_ZSTD E
   then take 4 (zstd_compress E payload) = [x28; xb5; x2f; xfd] /\
        zstd_decompress E (zstd_compress E payload) = mkStream payload None
   else take 2 (gzip_compress E payload) = [x1f; x8b] /\
        gzip_decompress E (gzip_compress E payload) = mkStream payload None) ->
  fs st !! src = Some (Data payload) ->
  src <> packed ->
  packed <> restored ->
  fs st !! packed <> Some Denied ->
  fs st !! restored <> Some Denied ->
  exists st1 st2,
    compress_blend E src packed (Some codec) st = (Ok true, st1) /\
    decompress_blend E packed restored None st1 = (Ok true, st2) /\
    fs st2 !! restored = Some (Data payload).
Proof.
  intros Hcodec Hlaw Hsrc Hsp Hpr Hpacked Hrestored.
  destruct (compress_blend_run E src packed codec payload st) as (new & Hc & _); try done.
  set (st1 := mkState (<[packed := Data (encoder E codec payload)]> (fs st)) (stdout st ++ new))
    in Hc.
  exists st1.
  cut (exists st2, decompress_blend E packed restored None st1 = (Ok true, st2) /\
                   fs st2 !! restored = Some (Data payload)).
  { intros (st2 & Hd & Hres). now exists st2. }
  assert (Hp1 : fs st1 !! packed = Some (Data (encoder E codec payload))).
  { apply lookup_insert_eq. }
  assert (Hr1 : fs st1 !! restored <> Some Denied).
  { unfold st1. cbn [fs]. now rewrite lookup_insert_ne. }
  unfold decompress_blend. rewrite bind_run, get_compression_type_run, Hp1.
  cbv beta iota zeta. rewrite take_take. change (2 `min` 4) with 2.
  unfold encoder in *. unfold try_except.
  destruct (String.eqb codec "zstd" && HAS_ZSTD E) eqn:Huse.
  - destruct Hlaw as [Hmagic Hrt]. apply andb_true_iff in Huse as [_ Hz].
    assert (Hnot : take 2 (zstd_compress E payload) <> [x1f; x8b]).
    { change 2 with (2 `min` 4). rewrite <- take_take, Hmagic. discriminate. }
    rewrite (bool_decide_eq_false_2 _ Hnot), (bool_decide_eq_true_2 _ Hmagic).
    change (is_str (Some "zstd") "zstd") with true. cbv iota. rewrite Hz. cbn [negb].
    cbv iota.
    rewrite (open_pair_run packed restored (zstd_compress E payload)) by done.
    unfold copy_stream, bind, write_handle, ret, set_fs. rewrite Hrt. simpl.
    eexists. split; [reflexivity|]. apply lookup_insert_eq.
  - destruct Hlaw as [Hmagic Hrt].
    rewrite (bool_decide_eq_true_2 _ Hmagic).
    change (is_str (Some "gzip") "zstd") with false.
    change (is_str (Some "gzip") "gzip") with true. cbv iota.
    rewrite (open_pair_run packed restored (gzip_compress E payload)) by done.
    unfold copy_stream, bind, write_handle, ret, set_fs. rewrite Hrt. simpl.
    eexists. split; [reflexivity|]. apply lookup_insert_eq.
Qed.

(** On a machine without zstandard, asking for zstd and detecting on the
    way back goes through gzip. *)
Lemma compress_then_detect_roundtrip_witness :
  exists st1 st2,
    compress_blend (Sample.env false Sample.broken_blender None)
      "/work/scene.blend" "/work/z.blend" (Some "zstd") Sample.boot = (Ok true, st1) /\
    decompress_blend (Sample.env false Sample.broken_blender None)
      "/work/z.blend" "/work/restored.blend" None st1 = (Ok true, st2) /\
    fs st2 !! "/work/restored.blend" = Some (Data Sample.blend400).
Proof.
  apply (compress_then_detect_roundtrip (Sample.env false Sample.broken_blender None) "zstd");
    first [done | now right | split; reflexivity].
Defined.

(** ** Strategy 1 on compressed input *)

(** X18.  A zstd file on a machine without the zstandard module: strategy 1
    gives up before it creates anything.  It returns [False], no temporary
    file is made, the output path is not touched, and the last line tells
    how to install the module. *)
Theorem repair_compression_zstd_without_module (E : Env) (input_path output_path : string)
    (data : bytes) (st : State) :
  HAS_ZSTD E = false ->
  fs st !! input_path = Some (Data data) ->
  take 4 data = [x28; xb5; x2f; xfd] ->
  exists new,
    repair_compression E input_path output_path st =
      (Ok false, mkState (fs st) (stdout st ++ new)) /\
    last new = Some "  [!] Install with: pip install zstandard".
Proof.
  intros Hz Hin Hmagic. unfold repair_compression.
  rewrite bind_run, print_run. cbv beta iota.
  rewrite bind_run, get_compression_type_run. cbn [fs]. rewrite Hin. cbv beta iota zeta.
  rewrite !Hmagic.
  rewrite (bool_decide_eq_false_2 (take 2 _ = _)) by discriminate.
  rewrite bool_decide_eq_true_2 by reflexivity. cbv iota.
  rewrite bind_run, print_run. cbv beta iota. eval_tests. rewrite Hz. cbn [negb]. cbv iota.
  unfold bind, print, ret. cbn [fs stdout]. rewrite <- !app_assoc.
  eexists. split; reflexivity.
Qed.

Lemma repair_compression_zstd_without_module_witness :
  exists new,
    repair_compression (Sample.env false Sample.broken_blender None)
      "/work/z.blend" "/work/out.blend"
      (mkState {[ "/work/z.blend" := Data (Sample.zstd_magic ++ Sample.blend400) ]} []) =
      (Ok false,
       mkState {[ "/work/z.blend" := Data (Sample.zstd_magic ++ Sample.blend400) ]}
         ([] ++ new)) /\
    last new = Some "  [!] Install with: pip install zstandard".
Proof.
  exact (repair_compression_zstd_without_module (Sample.env false Sample.broken_blender None)
           "/work/z.blend" "/work/out.blend" (Sample.zstd_magic ++ Sample.blend400)
           (mkState {[ "/work/z.blend" := Data (Sample.zstd_magic ++ Sample.blend400) ]} [])
           eq_refl eq_refl eq_refl).
Defined.

(** Strategy 1 up to the end of its decompression, for an input the codec
    it detects can decode: the payload is in the temporary file. *)
Lemma repair_compression_decoded (E : Env) (input_path output_path codec : string)
    (packed payload : bytes) (st : State) :
  decodes_to E packed codec payload ->
  fs st !! input_path = Some (Data packed) ->
  let tmp_path := mkstemp E ".blend" (fs st) in
  fs st !! tmp_path = None ->
  exists new,
    repair_compression E input_path output_path st =
    try_finally
      (valid <- is_blend_file tmp_path ;;
       if negb valid then
         print "  [!] Decompressed data is not valid" ;;
         ret false
       else
         print "  Recompressing file..." ;;
         ok <- compress_blend E tmp_path output_path (Some codec) ;;
         if ok then
           print "  [✓] Compression repair successful" ;;
           ret true
         else ret false)
      (unlink_if_exists tmp_path)
      (mkState (<[tmp_path := Data payload]> (fs st)) (stdout st ++ new)).
Proof.
  intros Hdec Hin tmp_path Htmp. unfold repair_compression.
  assert (Hne : input_path <> tmp_path) by (intros ->; congruence).
  rewrite bind_run, print_run. cbv beta iota.
  rewrite bind_run, get_compression_type_run. cbn [fs]. rewrite Hin. cbv beta iota zeta.
  rewrite take_take. change (2 `min` 4) with 2.
  assert (Hkind : (if bool_decide (take 2 packed = [x1f; x8b]) then Some "gzip"
                   else if bool_decide (take 4 packed = [x28; xb5; x2f; xfd]) then Some "zstd"
                   else if bool_decide (take 4 (take 4 packed) = b "BLEN") then None
                   else Some "unknown") = Some codec).
  { destruct Hdec as [(-> & Hm & _) | (-> & Hm & _)].
    - now rewrite (bool_decide_eq_true_2 _ Hm).
    - rewrite bool_decide_eq_false_2.
      + now rewrite (bool_decide_eq_true_2 _ Hm).
      + change 2 with (2 `min` 4). rewrite <- take_take, Hm. discriminate. }
  rewrite Hkind. clear Hkind.
  rewrite bind_run, print_run. cbv beta iota.
  assert (Hgo : is_str (Some codec) "zstd" && negb (HAS_ZSTD E) = false /\
                negb (truthy (Some codec)) || is_str (Some codec) "unknown" = false).
  { destruct Hdec as [(-> & _) | (-> & _ & -> & _)]; split; reflexivity. }
  destruct Hgo as [-> ->].
  rewrite bind_run. unfold NamedTemporaryFile at 1. cbn [fs stdout]. fold tmp_path.
  unfold try_finally at 1.
  rewrite bind_run, print_run. cbv beta iota.
  rewrite bind_run.
  rewrite (decompress_blend_run E input_path tmp_path codec packed payload).
  - cbv beta iota. cbn [negb fs stdout]. unfold set_fs. cbn [fs stdout].
    rewrite insert_insert_eq. rewrite <- !app_assoc.
    eexists. unfold try_finally. reflexivity.
  - destruct Hdec as [(-> & _ & Hd) | (-> & _ & Hz & Hd)]; [left|right]; auto.
  - cbn [fs]. unfold set_fs. cbn [fs]. now rewrite lookup_insert_ne.
  - exact Hne.
  - cbn [fs]. unfold set_fs. cbn [fs]. now rewrite lookup_insert_eq.
Qed.

(** X19.  A compressed input whose payload is not a .blend container:
    strategy 1 decodes it into a temporary file, rejects the payload,
    removes the temporary file and returns [False]; the file system is
    exactly as before, so nothing is written to the output path. *)
Theorem repair_compression_rejects_payload (E : Env) (input_path output_path codec : string)
    (packed payload : bytes) (st : State) :
  decodes_to E packed codec payload ->
  valid_container payload = false ->
  fs st !! input_path = Some (Data packed) ->
  fs st !! mkstemp E ".blend" (fs st) = None ->
  exists new,
    repair_compression E input_path output_path st =
      (Ok false, mkState (fs st) (stdout st ++ new)) /\
    last new = Some "  [!] Decompressed data is not valid".
Proof.
  intros Hdec Hbad Hin Htmp.
  destruct (repair_compression_decoded E input_path output_path codec packed payload st
              Hdec Hin Htmp) as [new ->].
  unfold try_finally. rewrite bind_run, is_blend_file_run. cbn [fs].
  rewrite lookup_insert_eq. fold (valid_container payload). rewrite Hbad. cbn [negb].
  cbv iota. rewrite bind_run, print_run. cbv beta iota. unfold ret.
  rewrite unlink_if_exists_run. unfold set_fs. cbn [fs stdout].
  rewrite delete_insert_id by done.
  exists (new ++ ["  [!] Decompressed data is not valid"]).
  rewrite app_assoc. split; [reflexivity|apply last_snoc].
Qed.

Lemma repair_compression_rejects_payload_witness :
  exists new,
    repair_compression (Sample.env true Sample.broken_blender None)
      "/work/short.blend" "/work/out.blend" Sample.boot =
      (Ok false, mkState (fs Sample.boot) (stdout Sample.boot ++ new)) /\
    last new = Some "  [!] Decompressed data is not valid".
Proof.
  apply (repair_compression_rejects_payload (Sample.env true Sample.broken_blender None)
           "/work/short.blend" "/work/out.blend" "gzip" Sample.two_bytes []).
  - left. repeat split; reflexivity.
  - reflexivity.
  - reflexivity.
  - apply sample_names_fresh.
Defined.

(** X20.  A compressed input with a valid payload is decoded and encoded
    again with the codec it came in: strategy 1 returns [True], the output
    path holds the re-encoded payload, the temporary file is gone and no
    other path has changed.  The output may be the input itself: the
    payload has left the input before the output is opened. *)
Theorem repair_compression_recompresses (E : Env) (input_path output_path codec : string)
    (packed payload : bytes) (st : State) :
  decodes_to E packed codec payload ->
  valid_container payload = true ->
  fs st !! input_path = Some (Data packed) ->
  fs st !! mkstemp E ".blend" (fs st) = None ->
  mkstemp E ".blend" (fs st) <> output_path ->
  fs st !! output_path <> Some Denied ->
  exists new,
    repair_compression E input_path output_path st =
      (Ok true,
       mkState (<[output_path := Data (encoder E codec payload)]> (fs st))
         (stdout st ++ new)) /\
    last new = Some "  [✓] Compression repair successful".
Proof.
  intros Hdec Hgood Hin Htmp Hne Hout.
  destruct (repair_compression_decoded E input_path output_path codec packed payload st
              Hdec Hin Htmp) as [new ->].
  unfold try_finally. rewrite bind_run, is_blend_file_run. cbn [fs].
  rewrite lookup_insert_eq. fold (valid_container payload). rewrite Hgood. cbn [negb].
  cbv iota. rewrite bind_run, print_run. cbv beta iota. rewrite bind_run.
  match goal with
  | |- context [compress_blend _ ?t _ _ ?s] =>
      destruct (compress_blend_run E t output_path codec payload s) as (new' & -> & _)
  end.
  - destruct Hdec as [(-> & _) | (-> & _)]; auto.
  - cbn [fs]. apply lookup_insert_eq.
  - exact Hne.
  - cbn [fs]. now rewrite lookup_insert_ne.
  - cbv beta iota. rewrite bind_run, print_run. cbv beta iota. unfold ret.
    rewrite unlink_if_exists_run. unfold set_fs. cbn [fs stdout].
    rewrite delete_insert_ne by done. rewrite delete_insert_id by done.
    rewrite <- !app_assoc.
    eexists. split; [reflexivity|].
    rewrite !app_assoc. apply last_snoc.
Qed.

(** The gzip file of the sample disk, repaired in place. *)
Lemma repair_compression_recompresses_witness :
  exists new,
    repair_compression (Sample.env true Sample.broken_blender None)
      "/work/packed.blend" "/work/packed.blend" Sample.boot =
      (Ok true,
       mkState (<["/work/packed.blend" :=
                    Data (encoder (Sample.env true Sample.broken_blender None) "gzip"
                            Sample.blend400)]> (fs Sample.boot))
         (stdout Sample.boot ++ new)) /\
    last new = Some "  [✓] Compression repair successful".
Proof.
  apply (repair_compression_recompresses (Sample.env true Sample.broken_blender None)
           "/work/packed.blend" "/work/packed.blend" "gzip" Sample.gzipped400 Sample.blend400).
  - left. repeat split; reflexivity.
  - reflexivity.
  - reflexivity.
  - apply sample_names_fresh.
  - discriminate.
  - discriminate.
Defined.

(** ** ProcessRunner and the strategies that use it *)

(** X21.  What [run_blender_script] itself does to the world is nothing
    but its temporary script: it prints nothing, and every other path holds
    when it returns what the Blender process left there. *)
Theorem run_blender_script_footprint (E : Env) (blender_path script : string) (timeout : nat)
    (st : State) :
  exists r st',
    run_blender_script E blender_path script timeout st = (Ok r, st') /\
    stdout st' = stdout st /\
    forall q, q <> mkstemp E ".py" (fs st) ->
              fs st' !! q = (launched E blender_path script timeout (fs st)).2 !! q.
Proof.
  rewrite run_blender_script_run. eexists _, _. split; [reflexivity|].
  split; [reflexivity|]. intros q Hq. cbn [fs]. now apply lookup_delete_ne.
Qed.

Lemma split_on_cons (sep : ascii) (s : string) : exists h t, split_on sep s = h :: t.
Proof.
  induction s as [|c s (h & t & IH)]; simpl; [eauto|].
  destruct (Ascii.eqb c sep); [eauto|]. rewrite IH. eauto.
Qed.

Lemma contains_prefix (needle hay : string) :
  String.prefix needle hay = true -> contains needle hay = true.
Proof. intros H. destruct hay; simpl in *; now rewrite H. Qed.

Lemma contains_tail (needle : string) (c : ascii) (hay : string) :
  contains needle hay = true -> contains needle (String c hay) = true.
Proof. intros H. cbn [contains]. rewrite H. apply orb_true_r. Qed.

Lemma prefix_first_line (needle hay : string) :
  one_line needle = true ->
  String.prefix needle hay = true ->
  exists h t, split_on (ascii_of_nat 10) hay = h :: t /\ String.prefix needle h = true.
Proof.
  revert hay. induction needle as [|a needle IH]; intros hay Hone Hpre.
  - destruct (split_on_cons (ascii_of_nat 10) hay) as (h & t & Hs).
    exists h, t. split; [exact Hs|]. now destruct h.
  - destruct hay as [|c hay]; [discriminate|]. simpl in Hpre.
    destruct (ascii_dec a c) as [<-|]; [|discriminate].
    unfold one_line in Hone. simpl in Hone. apply andb_true_iff in Hone as [Ha Hone].
    destruct (IH hay Hone Hpre) as (h & t & Hs & Hh).
    exists (String a h), t. simpl. apply negb_true_iff in Ha. rewrite Ha, Hs.
    split; [reflexivity|]. destruct (ascii_dec a a); [exact Hh|done].
Qed.

(** A text that contains a needle without line feeds has a line that
    contains it. *)
Lemma contains_some_line (needle hay : string) :
  one_line needle = true ->
  contains needle hay = true ->
  existsb (contains needle) (split_on (ascii_of_nat 10) hay) = true.
Proof.
  intros Hone. induction hay as [|c hay IH]; intros Hin.
  - simpl in *. now rewrite Hin.
  - cbn [contains] in Hin. apply orb_true_iff in Hin as [Hpre|Hrest].
    + destruct (prefix_first_line needle (String c hay) Hone Hpre) as (h & t & -> & Hh).
      simpl. now rewrite (contains_prefix _ _ Hh).
    + specialize (IH Hrest). simpl.
      destruct (Ascii.eqb c (ascii_of_nat 10)).
      * cbn [existsb]. rewrite IH. apply orb_true_r.
      * destruct (split_on (ascii_of_nat 10) hay) as [|h t]; [discriminate|].
        cbn [existsb] in *. apply orb_true_iff in IH as [Hh|Ht].
        -- now rewrite (contains_tail _ _ _ Hh).
        -- rewrite Ht. apply orb_true_r.
Qed.

Lemma filter_existsb {A} (f g : A -> bool) (l : list A) :
  (forall x, f x = true -> g x = true) ->
  existsb f l = true -> List.filter g l <> [].
Proof.
  intros Hfg. induction l as [|x l IH]; simpl; [discriminate|].
  intros [Hx|Hl]%orb_true_iff.
  - now rewrite (Hfg x Hx).
  - destruct (g x); [discriminate|auto].
Qed.

(** X22.  The report of strategies 3 and 4.  Each prints its banner, runs
    Blender once and returns its verdict.  After a failure it prints one
    line more and nothing else.  After a success it prints its success line
    and then echoes, in their order and behind two spaces, exactly those
    lines of the output of Blender that mention [RECOVERY_SUCCESS] (or, for
    strategy 3, [Recovered]); there is always at least one such line. *)
Theorem recovery_report (E : Env) (blender_path input_path output_path : string) (st : State) :
  (let output :=
     (outcome_of (launched E blender_path (append_script input_path output_path) 300
                    (fs st)).1).2 in
   let keep line := contains "Recovered" line || contains "RECOVERY_SUCCESS" line in
   exists ok st',
     repair_with_append E blender_path input_path output_path st = (Ok ok, st') /\
     stdout st' =
       stdout st ++
       (nl +:+ "[Strategy 3] Attempting append-based recovery...") ::
       (if ok then "  [✓] Append-based recovery successful" :: echoed keep output
        else ["  [!] Append-based recovery failed"]) /\
     (ok = true -> echoed keep output <> [])) /\
  (let output :=
     (outcome_of (launched E blender_path (selective_script input_path output_path) 300
                    (fs st)).1).2 in
   let keep line := contains "RECOVERY_SUCCESS" line in
   exists ok st',
     repair_selective_recovery E blender_path input_path output_path st = (Ok ok, st') /\
     stdout st' =
       stdout st ++
       (nl +:+ "[Strategy 4] Attempting selective data block recovery...") ::
       (if ok then "  [✓] Selective recovery successful" :: echoed keep output
        else ["  [!] Selective recovery failed"]) /\
     (ok = true -> echoed keep output <> [])).
Proof.
  assert (Hsome : forall (keep : string -> bool) output,
            (forall line, contains "RECOVERY_SUCCESS" line = true -> keep line = true) ->
            contains "RECOVERY_SUCCESS" output = true -> echoed keep output <> []).
  { intros keep output Hkeep Hin Hnil. unfold echoed in Hnil.
    apply fmap_nil_inv in Hnil. revert Hnil.
    apply (filter_existsb (contains "RECOVERY_SUCCESS")); [exact Hkeep|].
    now apply contains_some_line. }
  split; cbv zeta.
  - unfold repair_with_append.
    rewrite bind_run, print_run. cbv beta iota.
    rewrite bind_run, run_blender_script_run. cbv beta iota zeta. cbn [fs stdout].
    destruct (outcome_of _) as [success output].
    cbn [fst snd]. destruct (success && contains "RECOVERY_SUCCESS" output) eqn:Hv.
    + rewrite bind_run, print_run. cbv beta iota.
      rewrite bind_run, for_each_print_run. cbv beta iota. cbn [fs stdout].
      eexists _, _. split; [reflexivity|]. cbn [stdout]. split.
      * rewrite <- !app_assoc. reflexivity.
      * intros _. apply andb_true_iff in Hv as [_ Hin]. apply Hsome; [|exact Hin].
        intros line ->. apply orb_true_r.
    + rewrite bind_run, print_run. cbv beta iota.
      eexists _, _. split; [reflexivity|]. cbn [stdout]. split; [|discriminate].
      rewrite <- !app_assoc. reflexivity.
  - unfold repair_selective_recovery.
    rewrite bind_run, print_run. cbv beta iota.
    rewrite bind_run, run_blender_script_run. cbv beta iota zeta. cbn [fs stdout].
    destruct (outcome_of _) as [success output].
    cbn [fst snd]. destruct (success && contains "RECOVERY_SUCCESS" output) eqn:Hv.
    + rewrite bind_run, print_run. cbv beta iota.
      rewrite bind_run, for_each_print_run. cbv beta iota. cbn [fs stdout].
      eexists _, _. split; [reflexivity|]. cbn [stdout]. split.
      * rewrite <- !app_assoc. reflexivity.
      * intros _. apply andb_true_iff in Hv as [_ Hin]. now apply Hsome.
    + rewrite bind_run, print_run. cbv beta iota.
      eexists _, _. split; [reflexivity|]. cbn [stdout]. split; [|discriminate].
      rewrite <- !app_assoc. reflexivity.
Qed.

(** ** The verification of strategy 1 *)




(** ** Finding Blender *)

(** X24.  What [find_blender] returns.  An answer of [shutil.which] that is
    not empty is returned as it is, before any of the usual locations is
    looked at.  Otherwise the result is the first of the seven usual
    locations that is an executable file: it is executable and no location
    before it is; and [None] is returned exactly when none of the seven is
    executable. *)
Theorem find_blender_result (E : Env) :
  (truthy (which E "blender") = true -> find_blender E = which E "blender") /\
  (truthy (which E "blender") = false ->
   match find_blender E with
   | Some p =>
       exists i, possible_paths E !! i = Some p /\ is_executable E p = true /\
                 forall j q, j < i -> possible_paths E !! j = Some q ->
                             is_executable E q = false
   | None => forall q, q ∈ possible_paths E -> is_executable E q = false
   end).
Proof.
  unfold find_blender. cbv zeta. fold (possible_paths E).
  generalize (possible_paths E). intros usual.
  split; intros Hw; rewrite Hw; [reflexivity|].
  induction usual as [|x usual IH]; simpl.
  - intros q Hq. inversion Hq.
  - destruct (is_executable E x) eqn:Hx.
    + exists 0. split; [reflexivity|]. split; [exact Hx|]. intros j q Hj. lia.
    + destruct (List.find (is_executable E) usual) as [p|].
      * destruct IH as (i & Hi & Hp & Hfirst). exists (S i).
        split; [exact Hi|]. split; [exact Hp|].
        intros [|j] q Hj Hq; simpl in Hq.
        -- now injection Hq as <-.
        -- apply (Hfirst j q); [lia|exact Hq].
      * intros q [->|Hq]%elem_of_cons; [exact Hx|now apply IH].
Qed.

(** ** The session and the files around it *)

(** X25.  A session on an input that does not exist, cannot be read or
    does not start like a .blend file ends at once: the result is [False],
    the console gains one line that names the absolute input path, no
    strategy is attempted, and no file is created or changed, the backup
    included. *)
Theorem rejected_session_changes_nothing (E : Env) (input : string)
    (output blender : option string) (st : State) :
  let input_path := abspath E input in
  (forall data, fs st !! input_path = Some (Data data) -> valid_container data = false) ->
  let line :=
    (if bool_decide (is_Some (fs st !! input_path))
     then "Error: Not a valid .blend file: " else "Error: File not found: ") +:+ input_path in
  repair_session E input output blender st =
    (Ok (false, []), mkState (fs st) (stdout st ++ [line])) /\
  repair_blend_file E input output blender st =
    (Ok false, mkState (fs st) (stdout st ++ [line])).
Proof.
  intros input_path Hbad line.
  assert (Hrun : repair_session E input output blender st =
                 (Ok (false, []), mkState (fs st) (stdout st ++ [line]))).
  { pose proof (repair_session_run E input output blender st) as Hs. cbv zeta in Hs.
    fold input_path in Hs. unfold line.
    destruct (fs st !! input_path) as [[data|]|] eqn:Hin.
    - rewrite (Hbad data eq_refl) in Hs. rewrite bool_decide_eq_true_2 by eauto. exact Hs.
    - rewrite bool_decide_eq_true_2 by eauto. exact Hs.
    - rewrite bool_decide_eq_false_2 by (intros [? ?]; done). exact Hs. }
  split; [exact Hrun|]. rewrite repair_session_erasure, Hrun. reflexivity.
Qed.

Lemma rejected_session_changes_nothing_witness :
  repair_session (Sample.env true Sample.broken_blender None)
    "locked.blend" None None Sample.boot =
    (Ok (false, []),
     mkState (fs Sample.boot)
       (stdout Sample.boot ++ ["Error: Not a valid .blend file: /work/locked.blend"])) /\
  repair_blend_file (Sample.env true Sample.broken_blender None)
    "locked.blend" None None Sample.boot =
    (Ok false,
     mkState (fs Sample.boot)
       (stdout Sample.boot ++ ["Error: Not a valid .blend file: /work/locked.blend"])).
Proof.
  apply (rejected_session_changes_nothing (Sample.env true Sample.broken_blender None)
           "locked.blend" None None Sample.boot).
  intros data Hin. discriminate Hin.
Defined.

Lemma with_backup_keeps (input_path q : string) (data : bytes) (f : gmap string node) :
  is_Some (f !! q) -> with_backup input_path data f !! q = f !! q.
Proof.
  intros [n Hq]. unfold with_backup. cbv zeta.
  destruct (f !! (input_path +:+ ".backup")) eqn:Hb; [reflexivity|].
  apply lookup_insert_ne. intros <-. congruence.
Qed.

(** X26.  A session changes no file that was there before it, except the
    one at its output path.  Let temporary files get new names and let the
    Blender process leave the path [q] alone.  If [q] exists when the
    session starts and is not the output path, it holds at the end what it
    held at the start; this covers the input file whenever the output goes
    elsewhere, whatever the strategies did and whether they succeeded. *)
Theorem session_keeps_existing_files (E : Env) (input : string)
    (output blender : option string) (st : State) (q : string) :
  let input_path := abspath E input in
  let output_path := resolve_output E input_path output in
  names_fresh E ->
  process_keeps E q ->
  is_Some (fs st !! q) ->
  q <> output_path ->
  exists ok st',
    repair_blend_file E input output blender st = (Ok ok, st') /\
    fs st' !! q = fs st !! q.
Proof.
  intros input_path output_path Hfresh Hkeeps Hq Hne.
  rewrite repair_session_erasure.
  pose proof (repair_session_run E input output blender st) as Hs. cbv zeta in Hs.
  fold input_path in Hs. fold output_path in Hs.
  destruct (fs st !! input_path) as [[data|]|] eqn:Hin.
  2,3: rewrite Hs; eexists _, _; split; reflexivity.
  destruct (valid_container data).
  2: rewrite Hs; eexists _, _; split; reflexivity.
  destruct Hs as (new & _ & ->).
  set (st0 := mkState (with_backup input_path data (fs st)) (stdout st ++ new)).
  assert (H0 : fs st0 !! q = fs st !! q) by now apply with_backup_keeps.
  destruct (strategy_controller_traced_spec E (resolve_blender E blender) input_path
              output_path st0)
    as (ok1 & st1 & r & st' & _ & [_ Hf1] & -> & [_ Hf2] & _).
  eexists _, st'. split; [reflexivity|].
  assert (H1 : fs st1 !! q = fs st0 !! q).
  { apply Hf1; try done; [now rewrite H0|now apply outside_singleton]. }
  rewrite <- H0, <- H1. apply Hf2; try done.
  - now rewrite H1, H0.
  - apply not_elem_of_nil.
Qed.

Lemma session_keeps_existing_files_witness :
  exists ok st',
    repair_blend_file (Sample.env false Sample.broken_blender (Some "/usr/bin/blender"))
      "scene.blend" None None Sample.boot = (Ok ok, st') /\
    fs st' !! "/work/scene.blend" = fs Sample.boot !! "/work/scene.blend".
Proof.
  apply (session_keeps_existing_files
           (Sample.env false Sample.broken_blender (Some "/usr/bin/blender"))
           "scene.blend" None None Sample.boot "/work/scene.blend").
  - apply sample_names_fresh.
  - apply sample_process_keeps.
  - now exists (Data Sample.blend400).
  - discriminate.
Defined.

(** X27.  A session told to write its output over its input destroys the
    input.  For an uncompressed container, with temporary files under new
    names and a Blender process that leaves the input path alone: strategy
    1 opens the output, which truncates the input before it is read, and
    the path holds at the end of the session the compressed form of no
    bytes at all, whatever the session returned.  The contents survive in
    the backup, provided no older backup stood in its place and the process
    leaves that path alone too. *)
Theorem in_place_session_empties_the_input (E : Env) (input : string)
    (output blender : option string) (st : State) (data : bytes) :
  let input_path := abspath E input in
  let backup_path := input_path +:+ ".backup" in
  names_fresh E ->
  process_keeps E input_path ->
  fs st !! input_path = Some (Data data) ->
  take 7 data = b "BLENDER" ->
  resolve_output E input_path output = input_path ->
  exists ok st',
    repair_blend_file E input output blender st = (Ok ok, st') /\
    fs st' !! input_path = Some (Data (encoder E "zstd" [])) /\
    (fs st !! backup_path = None -> process_keeps E backup_path ->
     fs st' !! backup_path = Some (Data data)).
Proof.
  intros input_path backup_path Hfresh Hkeeps Hin Hsig Hout.
  assert (Hnb : backup_path <> input_path) by (apply string_app_neq; done).
  assert (Hmagic : take 4 data = b "BLEN").
  { change 4 with (4 `min` 7). rewrite <- take_take, Hsig. reflexivity. }
  assert (Hvalid : valid_container data = true).
  { unfold valid_container. cbv zeta. rewrite take_take. change (7 `min` 12) with 7.
    now rewrite Hsig. }
  rewrite repair_session_erasure.
  pose proof (repair_session_run E input output blender st) as Hs. cbv zeta in Hs.
  fold input_path in Hs. rewrite Hin, Hvalid, Hout in Hs.
  destruct Hs as (new & _ & ->).
  set (st0 := mkState (with_backup input_path data (fs st)) (stdout st ++ new)).
  assert (H0 : fs st0 !! input_path = Some (Data data)).
  { unfold st0. cbn [fs]. rewrite with_backup_keeps by eauto. exact Hin. }
  destruct (repair_compression_in_place E input_path data st0 H0 Hmagic) as (new1 & Hrc).
  destruct (strategy_controller_traced_spec E (resolve_blender E blender) input_path
              input_path st0)
    as (ok1 & st1 & r & st' & Hrc' & _ & -> & [_ Hf2] & _).
  rewrite Hrc in Hrc'. injection Hrc' as _ <-.
  eexists _, st'. split; [reflexivity|]. split.
  - rewrite Hf2; try done.
    + cbn [fs]. apply lookup_insert_eq.
    + cbn [fs]. rewrite lookup_insert_eq. eauto.
    + apply not_elem_of_nil.
  - intros Hb Hkb. rewrite Hf2; try done.
    + cbn [fs]. rewrite lookup_insert_ne by done. unfold with_backup. cbv zeta.
      fold backup_path. rewrite Hb. apply lookup_insert_eq.
    + cbn [fs]. rewrite lookup_insert_ne by done. unfold with_backup. cbv zeta.
      fold backup_path. rewrite Hb, lookup_insert_eq. eauto.
    + apply not_elem_of_nil.
Qed.

Lemma in_place_session_empties_the_input_witness :
  exists ok st',
    repair_blend_file (Sample.env true Sample.broken_blender None)
      "scene.blend" (Some "scene.blend") None Sample.boot = (Ok ok, st') /\
    fs st' !! "/work/scene.blend" =
      Some (Data (encoder (Sample.env true Sample.broken_blender None) "zstd" [])) /\
    (fs Sample.boot !! "/work/scene.blend.backup" = None ->
     process_keeps (Sample.env true Sample.broken_blender None) "/work/scene.blend.backup" ->
     fs st' !! "/work/scene.blend.backup" = Some (Data Sample.blend400)).
Proof.
  apply (in_place_session_empties_the_input (Sample.env true Sample.broken_blender None)
           "scene.blend" (Some "scene.blend") None Sample.boot Sample.blend400).
  - apply sample_names_fresh.
  - apply sample_process_keeps.
  - reflexivity.
  - reflexivity.
  - reflexivity.
Defined.

(** What the strategies after the first leave as the last line of the
    console. *)
Lemma remaining_strategies_last_line (E : Env) (blender_path : option string)
    (input_path output_path : string) (st : State) :
  exists ok st',
    remaining_strategies E blender_path input_path output_path st = (Ok ok, st') /\
    last (stdout st') =
      Some (if truthy blender_path then
              if ok then nl +:+ "[✓] Repair successful! Saved to: " +:+ output_path
              else "  4. If the file is from cloud storage, check for version history"
            else early_exhaustion) /\
    (truthy blender_path = false -> ok = false).
Proof.
  unfold remaining_strategies. cbv zeta.
  destruct (truthy blender_path); cbn [negb]; cbv iota.
  2:{ rewrite bind_run, print_run. eexists _, _. split; [reflexivity|].
      split; [apply last_snoc|reflexivity]. }
  destruct (repair_with_blender_open_acts E [] (py_str blender_path) input_path output_path st)
    as (ok2 & st2 & bs2 & Hrun2 & _).
  rewrite (bind_ok _ _ _ _ _ Hrun2). destruct ok2.
  { rewrite bind_run, print_run. eexists _, _. split; [reflexivity|].
    split; [apply last_snoc|discriminate]. }
  destruct (repair_with_append_acts E [] (py_str blender_path) input_path output_path st2)
    as (ok3 & st3 & bs3 & Hrun3 & _).
  rewrite (bind_ok _ _ _ _ _ Hrun3). destruct ok3.
  { rewrite bind_run, print_run. eexists _, _. split; [reflexivity|].
    split; [apply last_snoc|discriminate]. }
  destruct (repair_selective_recovery_acts E [] (py_str blender_path) input_path output_path st3)
    as (ok4 & st4 & bs4 & Hrun4 & _).
  rewrite (bind_ok _ _ _ _ _ Hrun4). destruct ok4.
  { rewrite bind_run, print_run. eexists _, _. split; [reflexivity|].
    split; [apply last_snoc|discriminate]. }
  do 6 (rewrite bind_run, print_run; cbv beta iota).
  eexists _, _. split; [reflexivity|]. split; [apply last_snoc|discriminate].
Qed.

(** X28.  The last line of the console tells how the session ended.  For
    an input that passes validation the session returns, and its last line
    is: the line that reports the repair saved, when it returns [True] with
    an executable at hand; the line that reports an unverified compression
    repair, when it returns [True] without one; the last of the four
    suggestions, when it returns [False] after all strategies failed; and
    the request to install Blender, when it returns [False] for want of an
    executable. *)
Theorem session_announces_its_result (E : Env) (input : string)
    (output blender : option string) (st : State) (data : bytes) :
  let input_path := abspath E input in
  let output_path := resolve_output E input_path output in
  fs st !! input_path = Some (Data data) ->
  valid_container data = true ->
  exists ok st',
    repair_blend_file E input output blender st = (Ok ok, st') /\
    last (stdout st') =
      Some (if truthy (resolve_blender E blender) then
              if ok then nl +:+ "[✓] Repair successful! Saved to: " +:+ output_path
              else "  4. If the file is from cloud storage, check for version history"
            else
              if ok then unverified output_path else early_exhaustion).
Proof.
  intros input_path output_path Hin Hvalid.
  rewrite repair_session_erasure.
  pose proof (repair_session_run E input output blender st) as Hs. cbv zeta in Hs.
  fold input_path in Hs. fold output_path in Hs. rewrite Hin, Hvalid in Hs.
  destruct Hs as (new & _ & ->). rewrite <- strategy_controller_erasure.
  generalize (mkState (with_backup input_path data (fs st)) (stdout st ++ new)).
  generalize (resolve_blender E blender). clear. intros blender_path st.
  unfold strategy_controller. cbv zeta.
  destruct (repair_compression_acts E input_path output_path st)
    as (ok1 & st1 & bs1 & Hrc & _).
  rewrite (bind_ok _ _ _ _ _ Hrc).
  destruct (remaining_strategies_last_line E blender_path input_path output_path st1)
    as (ok & st' & Hrest & Hlast & Hno).
  destruct ok1.
  - destruct (truthy blender_path) eqn:Hbp.
    + rewrite bind_run, print_run. cbv beta iota.
      rewrite bind_run, run_blender_script_run. cbv beta iota zeta.
      destruct (contains "VERIFY_SUCCESS" _).
      * rewrite bind_run, print_run. eexists _, _. split; [reflexivity|]. apply last_snoc.
      * rewrite bind_run, print_run. cbv beta iota.
        match goal with
        | |- context [remaining_strategies _ _ _ _ ?s] =>
            destruct (remaining_strategies_last_line E blender_path input_path output_path s)
              as (ok' & st'' & -> & Hlast' & _)
        end.
        exists ok', st''. split; [reflexivity|]. now rewrite Hbp in Hlast'.
    + rewrite bind_run, print_run. eexists _, _. split; [reflexivity|]. apply last_snoc.
  - exists ok, st'. split; [exact Hrest|]. rewrite Hlast.
    destruct (truthy blender_path); [reflexivity|]. now rewrite Hno.
Qed.

Lemma session_announces_its_result_witness :
  exists ok st',
    repair_blend_file (Sample.env false Sample.broken_blender (Some "/usr/bin/blender"))
      "scene.blend" None None Sample.boot = (Ok ok, st') /\
    last (stdout st') =
      Some (if ok then nl +:+ "[✓] Repair successful! Saved to: " +:+ "/work/scene_repaired.blend"
            else "  4. If the file is from cloud storage, check for version history").
Proof.
  exact (session_announces_its_result
           (Sample.env false Sample.broken_blender (Some "/usr/bin/blender"))
           "scene.blend" None None Sample.boot Sample.blend400 eq_refl eq_refl).
Defined.

(** ** Output paths that cannot be written *)

(** X29.  An output path that cannot be written stops both codecs, whatever
    the input and the codec asked for: [compress_blend] and
    [decompress_blend] return [False] and leave every file as it was. *)
Theorem codecs_refuse_unwritable_output (E : Env) (input_path output_path : string)
    (compression : option string) (st : State) :
  fs st !! output_path = Some Denied ->
  (exists new,
     compress_blend E input_path output_path compression st =
       (Ok false, mkState (fs st) (stdout st ++ new))) /\
  (exists new,
     decompress_blend E input_path output_path compression st =
       (Ok false, mkState (fs st) (stdout st ++ new))).
Proof.
  intros Hout.
  assert (Hopen : forall (k : bytes -> M bool) (msg : exn -> string) (s : State),
            fs s = fs st ->
            exists new,
              try_except
                (open_rb input_path ;; open_wb output_path ;; bind (read_handle input_path) k)
                (fun e => print (msg e) ;; ret false) s =
              (Ok false, mkState (fs st) (stdout s ++ new))).
  { intros k msg s Hs. unfold try_except, bind, open_rb, open_wb. rewrite Hs.
    destruct (fs st !! input_path) as [[d|]|]; rewrite ?Hs, ?Hout;
      unfold print, ret; cbn [fs stdout]; rewrite Hs; eauto. }
  assert (Hsilent : forall s : State, exists new : list string,
            (Ok false, s) = (Ok false, mkState (fs s) (stdout s ++ new))).
  { intros s. exists []. rewrite app_nil_r. now destruct s. }
  split.
  - unfold compress_blend, compress_gzip_or_fail.
    destruct (is_str compression "zstd"); [destruct (HAS_ZSTD E); cbn [negb]|].
    + apply (Hopen (fun data => write_handle output_path (zstd_compress E data) ;; ret true)).
      reflexivity.
    + change (is_str (Some "gzip") "gzip") with true. cbv iota.
      unfold try_except at 1. rewrite bind_run, print_run. cbv beta iota.
      destruct (Hopen (fun data => write_handle output_path (gzip_compress E data) ;; ret true)
                  (fun e => "  [!] Compression failed: " +:+ exn_str e)
                  (mkState (fs st)
                     (stdout st ++
                      ["  [!] zstandard module not installed, falling back to gzip"]))
                  eq_refl) as (new & Hrun).
      unfold try_except in Hrun. cbn [fs stdout] in Hrun.
      destruct (bind (open_rb input_path) _ _) as [[ok|e] s'].
      * rewrite Hrun, <- app_assoc. eauto.
      * rewrite Hrun, <- app_assoc. eauto.
    + destruct (is_str compression "gzip").
      * apply (Hopen (fun data => write_handle output_path (gzip_compress E data) ;; ret true)).
        reflexivity.
      * unfold try_except, ret. apply Hsilent.
  - unfold decompress_blend. rewrite bind_run.
    assert (Hkind : exists kind,
              match compression with
              | Some _ => ret compression
              | None => get_compression_type input_path
              end st = (Ok kind, st)).
    { destruct compression; [now eexists|]. rewrite get_compression_type_run. eauto. }
    destruct Hkind as [kind ->].
    destruct (is_str kind "zstd"); [destruct (HAS_ZSTD E); cbn [negb]|].
    + apply (Hopen (fun data => copy_stream (zstd_decompress E data) output_path ;; ret true)).
      reflexivity.
    + unfold try_except. rewrite bind_run, print_run. eexists. reflexivity.
    + destruct (is_str kind "gzip").
      * apply (Hopen (fun data => copy_stream (gzip_decompress E data) output_path ;; ret true)).
        reflexivity.
      * unfold try_except. rewrite bind_run, print_run. eexists. reflexivity.
Qed.

Lemma codecs_refuse_unwritable_output_witness :
  (exists new,
     compress_blend (Sample.env true Sample.broken_blender None)
       "/work/scene.blend" "/work/locked.blend" (Some "zstd") Sample.boot =
       (Ok false, mkState (fs Sample.boot) (stdout Sample.boot ++ new))) /\
  (exists new,
     decompress_blend (Sample.env true Sample.broken_blender None)
       "/work/scene.blend" "/work/locked.blend" (Some "zstd") Sample.boot =
       (Ok false, mkState (fs Sample.boot) (stdout Sample.boot ++ new))).
Proof.
  exact (codecs_refuse_unwritable_output (Sample.env true Sample.broken_blender None)
           "/work/scene.blend" "/work/locked.blend" (Some "zstd") Sample.boot eq_refl).
Defined.
